(** * Session-log parser, metrics, streaming analyzer and search matcher

    A shallow embedding of [src/main/utils/jsonl.ts] and of
    [SessionSearcher.collectMatchesForEntry]
    ([src/main/services/discovery/SessionSearcher.ts]), with the properties
    the specification states about them.

    Modelling conventions.
    - A JavaScript string is a [string]: a sequence of 8-bit characters.  On
      ASCII text this coincides with both the UTF-16 code units that
      [length], [slice] and [indexOf] count and the UTF-8 bytes that the
      digest consumes.
    - A JavaScript number is a [Z]: the code uses numbers as token counts,
      indices and millisecond timestamps, all integers far below 2^53, where
      floating-point arithmetic is exact.  An invalid [Date] (time value
      NaN) is [None].
    - A thrown exception is the [Throw] constructor of [completion].
    - The wall clock ([new Date()], [Date.now()]) is an explicit argument of
      every function that reads it: [now] is the reading while one record is
      converted, [clock i] the reading while line or item [i] is.
    - [JSON.parse], the [Date] parser and formatter, and the helpers of
      modules that are not among the sources are fields of [Platform] or
      section variables.  Two missing parts are modelled from the
      specification and marked so: [isConversationalEntry] and
      [EMPTY_METRICS]. *)

From Stdlib Require Import ZArith Lia Bool Ascii String.
From stdpp Require Import base list strings gmap sorting.

Local Open Scope Z_scope.

(* ===================================================================== *)
(** ** Strings as the code uses them *)
(* ===================================================================== *)

Module Str.

Definition code (c : ascii) : Z := Z.of_N (N_of_ascii c).

Definition of_code (z : Z) : ascii := ascii_of_N (Z.to_N z).

(** White space and line terminators removed by [String.prototype.trim]
    (those that fit in eight bits). *)
Definition isWhite (c : ascii) : bool :=
  let n := code c in
  ((9 <=? n) && (n <=? 13)) || (n =? 32) || (n =? 160).

Fixpoint trimStart (s : string) : string :=
  match s with
  | EmptyString => EmptyString
  | String c r => if isWhite c then trimStart r else s
  end.

Fixpoint trimEnd (s : string) : string :=
  match s with
  | EmptyString => EmptyString
  | String c r =>
      match trimEnd r with
      | EmptyString => if isWhite c then EmptyString else String c EmptyString
      | r' => String c r'
      end
  end.

Definition trim (s : string) : string := trimEnd (trimStart s).

Definition lowerChar (c : ascii) : ascii :=
  let n := code c in
  if ((65 <=? n) && (n <=? 90))
     || ((192 <=? n) && (n <=? 222) && negb (n =? 215))
  then of_code (n + 32) else c.

Fixpoint toLowerCase (s : string) : string :=
  match s with
  | EmptyString => EmptyString
  | String c r => String (lowerChar c) (toLowerCase r)
  end.

Definition len (s : string) : Z := Z.of_nat (String.length s).

Definition startsWith (p s : string) : bool := String.prefix p s.

Fixpoint dropn (n : nat) (s : string) : string :=
  match n, s with
  | O, _ => s
  | S n', String _ r => dropn n' r
  | S _, EmptyString => EmptyString
  end.

Fixpoint taken (n : nat) (s : string) : string :=
  match n, s with
  | S n', String c r => String c (taken n' r)
  | _, _ => EmptyString
  end.

Definition endsWith (suf s : string) : bool :=
  (String.length suf <=? String.length s)%nat
  && String.eqb (dropn (String.length s - String.length suf) s) suf.

(** [s.includes(sub)] *)
Fixpoint includes (sub s : string) : bool :=
  String.prefix sub s ||
  match s with
  | EmptyString => false
  | String _ r => includes sub r
  end.

(** [s.split(sep)[0]] for a one-character separator: the text before its
    first occurrence, the whole string when there is none. *)
Fixpoint beforeFirst (sep : ascii) (s : string) : string :=
  match s with
  | EmptyString => EmptyString
  | String c r => if Ascii.eqb c sep then EmptyString else String c (beforeFirst sep r)
  end.

(** Offset of the first occurrence of [q] in [s], counted from the head of
    [s]; [None] when there is none. *)
Fixpoint findFirst (q s : string) : option nat :=
  if String.prefix q s then Some O
  else match s with
       | EmptyString => None
       | String _ r => S <$> findFirst q r
       end.

(** [s.indexOf(q, pos)]: the start position is clamped to [0 .. length],
    the result is [-1] when nothing is found. *)
Definition indexOf (s q : string) (pos : Z) : Z :=
  let p := Z.to_nat (Z.min (Z.max pos 0) (len s)) in
  match findFirst q (dropn p s) with
  | Some k => Z.of_nat (p + k)
  | None => -1
  end.

(** [s.slice(a, b)] for [0 <= a] and [0 <= b] (the only way the code calls
    it); both ends are clamped to the length and an empty string results
    when [b <= a]. *)
Definition slice (s : string) (a b : Z) : string :=
  let a' := Z.to_nat (Z.min (Z.max a 0) (len s)) in
  let b' := Z.to_nat (Z.min (Z.max b 0) (len s)) in
  taken (b' - a') (dropn a' s).

Definition digit (d : Z) : ascii := of_code (48 + d).

Fixpoint decimalPos (fuel : nat) (n : Z) (acc : string) : string :=
  match fuel with
  | O => acc
  | S f =>
      let acc' := String (digit (n mod 10)) acc in
      if n <? 10 then acc' else decimalPos f (n / 10) acc'
  end.

(** [n.toString()] for an integer [n]. *)
Definition decimal (n : Z) : string :=
  if n <? 0 then String "-" (decimalPos (S (Z.to_nat (Z.log2 (- n)))) (- n) EmptyString)
  else decimalPos (S (Z.to_nat (Z.log2 n))) n EmptyString.

Definition hexDigit (d : Z) : ascii :=
  if d <? 10 then of_code (48 + d) else of_code (87 + d).

Definition hexValue (c : ascii) : Z :=
  let n := code c in
  if n <? 58 then n - 48 else n - 87.

End Str.

(* ===================================================================== *)
(** ** The digest behind [stableUuid] *)
(* ===================================================================== *)

(** [crypto.createHash('sha256').update(seed).digest('hex')], written out
    after FIPS 180-4 so that identifiers can be evaluated. *)
Module Sha256.

Definition wordMod : Z := 2 ^ 32.

Definition add32 (x y : Z) : Z := (x + y) mod wordMod.

Definition rotr (n x : Z) : Z :=
  Z.lor (Z.shiftr x n) ((Z.shiftl x (32 - n)) mod wordMod).

Definition ch (x y z : Z) : Z :=
  Z.lxor (Z.land x y) (Z.land (Z.lxor x (wordMod - 1)) z).

Definition maj (x y z : Z) : Z :=
  Z.lxor (Z.lxor (Z.land x y) (Z.land x z)) (Z.land y z).

Definition bigSigma0 x := Z.lxor (Z.lxor (rotr 2 x) (rotr 13 x)) (rotr 22 x).
Definition bigSigma1 x := Z.lxor (Z.lxor (rotr 6 x) (rotr 11 x)) (rotr 25 x).
Definition smallSigma0 x := Z.lxor (Z.lxor (rotr 7 x) (rotr 18 x)) (Z.shiftr x 3).
Definition smallSigma1 x := Z.lxor (Z.lxor (rotr 17 x) (rotr 19 x)) (Z.shiftr x 10).

Fixpoint hexNumber (s : string) (acc : Z) : Z :=
  match s with
  | EmptyString => acc
  | String c r => hexNumber r (16 * acc + Str.hexValue c)
  end.

(** Cuts a string of hexadecimal digits into 32-bit words. *)
Fixpoint hexWords (n : nat) (s : string) : list Z :=
  match n with
  | O => []
  | S n' => hexNumber (Str.taken 8 s) 0 :: hexWords n' (Str.dropn 8 s)
  end.

Definition roundConstants : list Z :=
  hexWords 64
    ("428a2f9871374491b5c0fbcfe9b5dba53956c25b59f111f1923f82a4ab1c5ed5" +:+
     "d807aa9812835b01243185be550c7dc372be5d7480deb1fe9bdc06a7c19bf174" +:+
     "e49b69c1efbe47860fc19dc6240ca1cc2de92c6f4a7484aa5cb0a9dc76f988da" +:+
     "983e5152a831c66db00327c8bf597fc7c6e00bf3d5a7914706ca635114292967" +:+
     "27b70a852e1b21384d2c6dfc53380d13650a7354766a0abb81c2c92e92722c85" +:+
     "a2bfe8a1a81a664bc24b8b70c76c51a3d192e819d6990624f40e3585106aa070" +:+
     "19a4c1161e376c082748774c34b0bcb5391c0cb34ed8aa4a5b9cca4f682e6ff3" +:+
     "748f82ee78a5636f84c878148cc7020890befffaa4506cebbef9a3f7c67178f2").

Definition initialHash : list Z :=
  hexWords 8 "6a09e667bb67ae853c6ef372a54ff53a510e527f9b05688c1f83d9ab5be0cd19".

Fixpoint bytesOf (s : string) : list Z :=
  match s with
  | EmptyString => []
  | String c r => Str.code c :: bytesOf r
  end.

Fixpoint bigEndian (n : nat) (x : Z) : list Z :=
  match n with
  | O => []
  | S n' => (Z.shiftr x (8 * Z.of_nat n')) mod 256 :: bigEndian n' x
  end.

Definition padded (msg : list Z) : list Z :=
  let l := Z.of_nat (length msg) in
  let zeros := Z.to_nat ((55 - l) mod 64) in
  msg ++ [128] ++ replicate zeros 0 ++ bigEndian 8 (8 * l).

Fixpoint wordsOf (n : nat) (bs : list Z) : list Z :=
  match n with
  | O => []
  | S n' =>
      match bs with
      | a :: b :: c :: d :: r =>
          (((a * 256 + b) * 256 + c) * 256 + d) :: wordsOf n' r
      | _ => []
      end
  end.

(** The message schedule, most recent word first. *)
Fixpoint extend (n : nat) (rev_w : list Z) : list Z :=
  match n with
  | O => rev_w
  | S n' =>
      let w k := nth k rev_w 0 in
      extend n'
        (add32 (add32 (smallSigma1 (w 1%nat)) (w 6%nat))
               (add32 (smallSigma0 (w 14%nat)) (w 15%nat)) :: rev_w)
  end.

Definition schedule (block : list Z) : list Z :=
  rev (extend 48 (rev (wordsOf 16 block))).

Record regs := Regs { ra : Z; rb : Z; rc : Z; rd : Z; re : Z; rf : Z; rg : Z; rh : Z }.

Definition round (r : regs) (kw : Z * Z) : regs :=
  let t1 := add32 (add32 (add32 (rh r) (bigSigma1 (re r)))
                         (add32 (ch (re r) (rf r) (rg r)) (fst kw))) (snd kw) in
  let t2 := add32 (bigSigma0 (ra r)) (maj (ra r) (rb r) (rc r)) in
  Regs (add32 t1 t2) (ra r) (rb r) (rc r) (add32 (rd r) t1) (re r) (rf r) (rg r).

Definition regsOf (h : list Z) : regs :=
  let g k := nth k h 0 in
  Regs (g 0%nat) (g 1%nat) (g 2%nat) (g 3%nat) (g 4%nat) (g 5%nat) (g 6%nat) (g 7%nat).

Definition listOf (r : regs) : list Z :=
  [ra r; rb r; rc r; rd r; re r; rf r; rg r; rh r].

Definition compress (h : list Z) (block : list Z) : list Z :=
  let r := fold_left round (combine roundConstants (schedule block)) (regsOf h) in
  zip_with add32 h (listOf r).

Fixpoint blocks (n : nat) (h : list Z) (bs : list Z) : list Z :=
  match n with
  | O => h
  | S n' => blocks n' (compress h (take 64 bs)) (drop 64 bs)
  end.

Definition digest (msg : list Z) : list Z :=
  let p := padded msg in
  blocks (length p / 64)%nat initialHash p.

Fixpoint hexOfWord (n : nat) (x : Z) (acc : string) : string :=
  match n with
  | O => acc
  | S n' => hexOfWord n' (x / 16) (String (Str.hexDigit (x mod 16)) acc)
  end.

Definition hex (ws : list Z) : string :=
  fold_right (fun w acc => hexOfWord 8 w acc) EmptyString ws.

Definition sha256_hex (s : string) : string := hex (digest (bytesOf s)).

End Sha256.

(* ===================================================================== *)
(** ** JavaScript values and completions *)
(* ===================================================================== *)

Module Js.

(** The values the parser meets: what [JSON.parse] produces, and
    [undefined], which reading an absent property produces. *)
#[warnings="-register-all"]
Inductive value : Type :=
| VUndefined
| VNull
| VBool (b : bool)
| VNum (n : Z)
| VStr (s : string)
| VArr (items : list value)
| VObj (fields : list (string * value)).

Inductive error : Type := SyntaxError | TypeError.

(** Outcome of a call: a returned value or a thrown exception. *)
Inductive completion (A : Type) : Type :=
| Ret (a : A)
| Throw (e : error).

Arguments Ret {A} a.
Arguments Throw {A} e.

#[global] Instance completion_ret : MRet completion := fun _ a => Ret a.

#[global] Instance completion_bind : MBind completion := fun _ _ k c =>
  match c with
  | Ret a => k a
  | Throw e => Throw e
  end.

Fixpoint assoc (k : string) (fs : list (string * value)) : value :=
  match fs with
  | [] => VUndefined
  | (k', v) :: r => if String.eqb k k' then v else assoc k r
  end.

(** [v.k] (and [v?.k]) where no exception can arise: own properties of an
    object; [undefined] on every other value. *)
Definition prop (v : value) (k : string) : value :=
  match v with
  | VObj fs => assoc k fs
  | _ => VUndefined
  end.

Definition isNullish (v : value) : bool :=
  match v with
  | VUndefined | VNull => true
  | _ => false
  end.

(** [v.k] on a value that was not checked: reading a property of [null] or
    [undefined] throws. *)
Definition get (v : value) (k : string) : completion value :=
  if isNullish v then Throw TypeError else Ret (prop v k).

Definition truthy (v : value) : bool :=
  match v with
  | VUndefined | VNull => false
  | VBool b => b
  | VNum n => negb (n =? 0)
  | VStr s => negb (String.eqb s "")
  | VArr _ | VObj _ => true
  end.

(** [v && typeof v === 'object'] *)
Definition isObjectLike (v : value) : bool :=
  match v with
  | VArr _ | VObj _ => true
  | _ => false
  end.

Definition isArray (v : value) : bool :=
  match v with
  | VArr _ => true
  | _ => false
  end.

(** [typeof v === 'string' ? v : undefined] *)
Definition asString (v : value) : option string :=
  match v with
  | VStr s => Some s
  | _ => None
  end.

Definition asBool (v : value) : option bool :=
  match v with
  | VBool b => Some b
  | _ => None
  end.

Definition asNum (v : value) : option Z :=
  match v with
  | VNum n => Some n
  | _ => None
  end.

(** [a ?? b] on optional values. *)
Definition orElse {A} (a b : option A) : option A :=
  match a with
  | Some _ => a
  | None => b
  end.

Definition strIs (v : value) (s : string) : bool :=
  match v with
  | VStr t => String.eqb t s
  | _ => false
  end.

End Js.

Export Js.

Infix "??" := orElse (at level 45, right associativity).

(** [o ?? d] with a default that is always there. *)
Notation "o ??! d" := (default d o) (at level 45, right associativity).

(** The part of the platform the code calls and this development does not
    define: the JSON decoder, the date parser and formatter, and the two
    helpers of [./toolExtraction]. *)
Class Platform : Type := {
  (** [JSON.parse]; [None] when it throws a [SyntaxError]. *)
  JSON_parse : string -> option value;
  (** [new Date(s).getTime()]; [None] when the time value is NaN. *)
  Date_parse : string -> option Z;
  (** [new Date(t).toISOString()] *)
  toISOString : Z -> string;
  ToolCall : Type;
  ToolResult : Type;
  extractToolCalls : value -> list ToolCall;
  extractToolResults : value -> list ToolResult;
}.

(* ===================================================================== *)
(** ** The normalized message model *)
(* ===================================================================== *)

Inductive MessageType : Type :=
| user | assistant | system | summary | file_history_snapshot | queue_operation.

#[global] Instance MessageType_eq_dec : EqDecision MessageType.
Proof. solve_decision. Defined.

(** [TokenUsage]: every counter may be missing. *)
Record TokenUsage : Type := mkUsage {
  input_tokens : option Z;
  output_tokens : option Z;
  cache_read_input_tokens : option Z;
  cache_creation_input_tokens : option Z;
}.

(** [ParsedMessage].  [timestamp] is the time value of the [Date], [None]
    for an invalid one; [content] is the string or the array of blocks as
    it was found. *)
Record ParsedMessage `{Platform} : Type := mkMessage {
  uuid : string;
  parentUuid : option string;
  type : MessageType;
  timestamp : option Z;
  role : option string;
  content : value;
  usage : option TokenUsage;
  model : option string;
  cwd : option string;
  gitBranch : option string;
  agentId : option string;
  isSidechain : bool;
  isMeta : bool;
  userType : option string;
  isCompactSummary : bool;
  toolCalls : list ToolCall;
  toolResults : list ToolResult;
  sourceToolUseID : option string;
  sourceToolAssistantUUID : option string;
  toolUseResult : value;
}.

(** [{ ...message, parentUuid }] *)
Definition withParent `{Platform} (m : ParsedMessage) (p : option string) : ParsedMessage :=
  {| uuid := uuid m; parentUuid := p; type := type m; timestamp := timestamp m;
     role := role m; content := content m; usage := usage m; model := model m;
     cwd := cwd m; gitBranch := gitBranch m; agentId := agentId m;
     isSidechain := isSidechain m; isMeta := isMeta m; userType := userType m;
     isCompactSummary := isCompactSummary m; toolCalls := toolCalls m;
     toolResults := toolResults m; sourceToolUseID := sourceToolUseID m;
     sourceToolAssistantUUID := sourceToolAssistantUUID m;
     toolUseResult := toolUseResult m |}.

(* ===================================================================== *)
(** ** The normalizing parser ([jsonl.ts], lines 48-720) *)
(* ===================================================================== *)

(** The raw record is asserted, not checked, to be a [ChatHistoryEntry]
    ([entry as ChatHistoryEntry]).  The embedding reads every field at the
    type that declaration gives it ([asString], [asBool], [asNum]); a field
    holding a value of another type is read as absent. *)
Module Parser.
Section WithPlatform.
Context `{P : Platform}.

Definition stableUuid (seed : string) : string :=
  Str.slice (Sha256.sha256_hex seed) 0 24.

Inductive CopilotRole : Type := RUser | RAssistant | RSystem.

Definition roleName (r : CopilotRole) : string :=
  match r with
  | RUser => "user"
  | RAssistant => "assistant"
  | RSystem => "system"
  end.

Definition roleType (r : CopilotRole) : MessageType :=
  match r with
  | RUser => user
  | RAssistant => assistant
  | RSystem => system
  end.

Definition normalizeRole (raw : option string) : option CopilotRole :=
  match raw with
  | None => None
  | Some r =>
      if String.eqb r "" then None
      else
        let normalized := Str.toLowerCase r in
        if String.eqb normalized "user" || String.eqb normalized "human" then Some RUser
        else if String.eqb normalized "assistant" || String.eqb normalized "ai"
                || String.eqb normalized "copilot" then Some RAssistant
        else if String.eqb normalized "system" then Some RSystem
        else None
  end.

(** [pickMessageContent(value).value]; [None] is the [null] payload. *)
Definition pickMessageContent (v : value) : option value :=
  match v with
  | VStr _ => Some v
  | VArr _ => Some v
  | VObj _ =>
      match asString (prop v "text") ?? asString (prop v "value") with
      | Some text => if String.eqb text "" then None else Some (VStr text)
      | None => None
      end
  | _ => None
  end.

Definition toDateOrNow (now : Z) (v : option string) : Z :=
  match v with
  | None => now
  | Some s => if String.eqb s "" then now else Date_parse s ??! now
  end.

Record CopilotParams : Type := mkParams {
  p_type : CopilotRole;
  p_content : value;
  p_timestamp : Z;
  p_uuidSeed : string;
  p_cwd : option string;
  p_model : option string;
}.

Definition buildCopilotMessage (params : CopilotParams) : ParsedMessage :=
  let isAssistant := match p_type params with RAssistant => true | _ => false end in
  {| uuid := stableUuid (p_uuidSeed params);
     parentUuid := None;
     type := roleType (p_type params);
     timestamp := Some (p_timestamp params);
     role := Some (roleName (p_type params));
     content := p_content params;
     usage := None;
     model := if isAssistant then p_model params else None;
     cwd := p_cwd params;
     gitBranch := None;
     agentId := None;
     isSidechain := false;
     isMeta := false;
     userType := match p_type params with RUser => Some "external" | _ => None end;
     isCompactSummary := false;
     toolCalls := extractToolCalls (p_content params);
     toolResults := extractToolResults (p_content params);
     sourceToolUseID := None;
     sourceToolAssistantUUID := None;
     toolUseResult := VUndefined |}.

Definition textBlock (text : string) : value :=
  VArr [VObj [("type", VStr "text"); ("text", VStr text)]].

(** Flat role/content records. *)
Definition parseCopilotMessageEntry (now : Z) (entry : value) : option ParsedMessage :=
  if negb (isObjectLike entry) then None
  else
    let obj := entry in
    let roleRaw :=
      asString (prop obj "role") ?? asString (prop obj "author")
      ?? asString (prop obj "type") ?? asString (prop (prop obj "message") "role") in
    match normalizeRole roleRaw with
    | None => None
    | Some role =>
        match pickMessageContent (prop obj "content")
              ?? pickMessageContent (prop (prop obj "message") "content")
              ?? pickMessageContent (prop obj "text")
              ?? pickMessageContent (prop obj "value") with
        | None => None
        | Some content =>
            let timestampRaw :=
              asString (prop obj "timestamp") ?? asString (prop obj "createdAt")
              ?? asString (prop obj "time")
              ?? asString (prop (prop obj "message") "timestamp") in
            Some (buildCopilotMessage
              {| p_type := role;
                 p_content := content;
                 p_timestamp := toDateOrNow now timestampRaw;
                 p_uuidSeed :=
                   (asString (prop obj "uuid") ?? asString (prop obj "id"))
                   ??! ("copilot-" +:+ roleName role +:+ "-"
                        +:+ (timestampRaw ??! Str.decimal now));
                 p_cwd := asString (prop obj "cwd") ?? asString (prop obj "workspacePath");
                 p_model := asString (prop obj "model")
                            ?? asString (prop (prop obj "message") "model") |})
        end
    end.

Definition isBlank (s : string) : bool := String.eqb (Str.trim s) "".

(** Dotted event-name records. *)
Definition parseCopilotEventEntry (now : Z) (entry : value) : option ParsedMessage :=
  if negb (isObjectLike entry) then None
  else
    let obj := entry in
    match asString (prop obj "type") with
    | None => None
    | Some eventType =>
      if negb (Str.includes "." eventType) then None
      else
        let data := prop obj "data" in
        if negb (isObjectLike data) then None
        else
          let timestampRaw := asString (prop obj "timestamp") ?? asString (prop data "timestamp") in
          let timestamp := toDateOrNow now timestampRaw in
          let eventId := (asString (prop obj "id") ?? asString (prop data "id")) ??! "" in
          if String.eqb eventType "session.start" then
            let sessionId := asString (prop data "sessionId") ??! "" in
            Some (buildCopilotMessage
              {| p_type := RSystem;
                 p_content := VStr ("Session started (" +:+ sessionId +:+ ")");
                 p_timestamp := timestamp;
                 p_uuidSeed := "copilot-event-" +:+ eventId +:+ "-session-start";
                 p_cwd := asString (prop data "cwd") ?? asString (prop data "workingDirectory");
                 p_model := None |})
          else if String.eqb eventType "user.message" then
            let content := asString (prop data "content") ??! "" in
            if isBlank content then None
            else Some (buildCopilotMessage
              {| p_type := RUser;
                 p_content := VStr content;
                 p_timestamp := timestamp;
                 p_uuidSeed := "copilot-event-" +:+ eventId +:+ "-user";
                 p_cwd := asString (prop data "cwd");
                 p_model := None |})
          else if String.eqb eventType "assistant.message" then
            let content := asString (prop data "content") ??! "" in
            if isBlank content then None
            else Some (buildCopilotMessage
              {| p_type := RAssistant;
                 p_content := textBlock content;
                 p_timestamp := timestamp;
                 p_uuidSeed := "copilot-event-" +:+ eventId +:+ "-assistant-"
                               +:+ (asString (prop data "messageId") ??! "");
                 p_cwd := None;
                 p_model := asString (prop data "model") |})
          else if String.eqb eventType "assistant.message_delta" then
            let deltaContent := asString (prop data "deltaContent") ??! "" in
            if isBlank deltaContent then None
            else Some (buildCopilotMessage
              {| p_type := RAssistant;
                 p_content := textBlock deltaContent;
                 p_timestamp := timestamp;
                 p_uuidSeed := "copilot-event-" +:+ eventId +:+ "-delta-"
                               +:+ (asString (prop data "messageId") ??! "");
                 p_cwd := None;
                 p_model := asString (prop data "model") |})
          else if String.eqb eventType "tool.execution_start" then
            let toolName :=
              (asString (prop data "toolName") ?? asString (prop data "name")) ??! "unknown_tool" in
            let toolInput :=
              if negb (isNullish (prop data "input")) then prop data "input"
              else if negb (isNullish (prop data "parameters")) then prop data "parameters"
              else VObj [] in
            let toolCallId := asString (prop data "toolCallId") ??! eventId in
            Some (buildCopilotMessage
              {| p_type := RAssistant;
                 p_content := VArr [VObj [("type", VStr "tool_use"); ("id", VStr toolCallId);
                                          ("name", VStr toolName); ("input", toolInput)]];
                 p_timestamp := timestamp;
                 p_uuidSeed := "copilot-event-" +:+ eventId +:+ "-tool-start-" +:+ toolCallId;
                 p_cwd := None;
                 p_model := None |})
          else if String.eqb eventType "tool.execution_complete" then
            let toolCallId := asString (prop data "toolCallId") ??! eventId in
            let resultContent :=
              (asString (prop data "output") ?? asString (prop data "content")) ??! "" in
            let isError :=
              match prop data "isError" with VBool true => true | _ => false end
              || strIs (prop data "status") "error" in
            Some (buildCopilotMessage
              {| p_type := RUser;
                 p_content := VArr [VObj [("type", VStr "tool_result");
                                          ("tool_use_id", VStr toolCallId);
                                          ("content", VStr resultContent);
                                          ("is_error", VBool isError)]];
                 p_timestamp := timestamp;
                 p_uuidSeed := "copilot-event-" +:+ eventId +:+ "-tool-complete-" +:+ toolCallId;
                 p_cwd := None;
                 p_model := None |})
          else if String.eqb eventType "session.error" then
            let errorMsg :=
              (asString (prop data "message") ?? asString (prop data "error")) ??! "Unknown error" in
            let errorType := asString (prop data "errorType") ??! "error" in
            Some (buildCopilotMessage
              {| p_type := RSystem;
                 p_content := VStr ("Error (" +:+ errorType +:+ "): " +:+ errorMsg);
                 p_timestamp := timestamp;
                 p_uuidSeed := "copilot-event-" +:+ eventId +:+ "-error";
                 p_cwd := None;
                 p_model := None |})
          else if String.eqb eventType "session.shutdown" then
            Some (buildCopilotMessage
              {| p_type := RSystem;
                 p_content := VStr "Session ended";
                 p_timestamp := timestamp;
                 p_uuidSeed := "copilot-event-" +:+ eventId +:+ "-shutdown";
                 p_cwd := None;
                 p_model := None |})
          else
            match asString (prop data "content") ?? asString (prop data "text")
                  ?? asString (prop data "message") ?? asString (prop data "prompt") with
            | None => None
            | Some genericContent =>
                if isBlank genericContent then None
                else
                  let prefix := Str.toLowerCase (Str.beforeFirst "." eventType) in
                  let role :=
                    if String.eqb prefix "user" then RUser
                    else if String.eqb prefix "assistant" || String.eqb prefix "agent"
                         then RAssistant
                    else RSystem in
                  match role with
                  | RAssistant =>
                      Some (buildCopilotMessage
                        {| p_type := RAssistant;
                           p_content := textBlock (Str.trim genericContent);
                           p_timestamp := timestamp;
                           p_uuidSeed := "copilot-event-" +:+ eventId +:+ "-" +:+ eventType;
                           p_cwd := None;
                           p_model := asString (prop data "model") |})
                  | _ =>
                      Some (buildCopilotMessage
                        {| p_type := role;
                           p_content := VStr (Str.trim genericContent);
                           p_timestamp := timestamp;
                           p_uuidSeed := "copilot-event-" +:+ eventId +:+ "-" +:+ eventType;
                           p_cwd := asString (prop data "cwd")
                                    ?? asString (prop data "workingDirectory");
                           p_model := None |})
                  end
            end
    end.

(** [messages.map] of [assignParentUuids], with [previousUuid] threaded. *)
Fixpoint assignFrom (previousUuid : option string) (messages : list ParsedMessage)
  : list ParsedMessage :=
  match messages with
  | [] => []
  | message :: rest =>
      withParent message previousUuid :: assignFrom (Some (uuid message)) rest
  end.

Definition assignParentUuids (messages : list ParsedMessage) : list ParsedMessage :=
  assignFrom None messages.

Definition isSessionStarted (msg : ParsedMessage) : bool :=
  bool_decide (type msg = system)
  && match content msg with
     | VStr s => Str.startsWith "Session started" s
     | _ => false
     end.

Definition consolidateCopilotDeltas (messages : list ParsedMessage) : list ParsedMessage :=
  if existsb isSessionStarted messages then assignParentUuids messages else messages.

Definition parseMessageType (v : value) : option MessageType :=
  match v with
  | VStr s =>
      if String.eqb s "user" then Some user
      else if String.eqb s "assistant" then Some assistant
      else if String.eqb s "system" then Some system
      else if String.eqb s "summary" then Some summary
      else if String.eqb s "file-history-snapshot" then Some file_history_snapshot
      else if String.eqb s "queue-operation" then Some queue_operation
      else None
  | _ => None
  end.

(** Modelled from the spec: [isConversationalEntry] of [../types], which is
    not among the sources.  The specification names user, assistant and
    system the conversational kinds and summary, file-history-snapshot and
    queue-operation the non-conversational ones. *)
Definition isConversationalEntry (ty : MessageType) : bool :=
  match ty with
  | user | assistant | system => true
  | _ => false
  end.

Definition usageOf (v : value) : option TokenUsage :=
  match v with
  | VObj _ =>
      Some {| input_tokens := asNum (prop v "input_tokens");
              output_tokens := asNum (prop v "output_tokens");
              cache_read_input_tokens := asNum (prop v "cache_read_input_tokens");
              cache_creation_input_tokens := asNum (prop v "cache_creation_input_tokens") |}
  | _ => None
  end.

(** The fields [parseChatHistoryEntry] fills by entry type. *)
Record Extracted : Type := mkExtracted {
  x_content : value;
  x_role : option string;
  x_usage : option TokenUsage;
  x_model : option string;
  x_agentId : option string;
  x_isMeta : bool;
  x_sourceToolUseID : option string;
  x_sourceToolAssistantUUID : option string;
  x_toolUseResult : value;
  x_isCompactSummary : bool;
}.

Definition noExtract : Extracted :=
  {| x_content := VStr ""; x_role := None; x_usage := None; x_model := None;
     x_agentId := None; x_isMeta := false; x_sourceToolUseID := None;
     x_sourceToolAssistantUUID := None; x_toolUseResult := VUndefined;
     x_isCompactSummary := false |}.

(** The type-specific branch; [entry.message.content] throws when the entry
    has no [message]. *)
Definition extractByType (ty : MessageType) (entry : value) : completion Extracted :=
  match ty with
  | user =>
      c ← get (prop entry "message") "content";
      mret {| x_content := if isNullish c then VStr "" else c;
              x_role := asString (prop (prop entry "message") "role");
              x_usage := None;
              x_model := None;
              x_agentId := asString (prop entry "agentId");
              x_isMeta := asBool (prop entry "isMeta") ??! false;
              x_sourceToolUseID := asString (prop entry "sourceToolUseID");
              x_sourceToolAssistantUUID := asString (prop entry "sourceToolAssistantUUID");
              x_toolUseResult := prop entry "toolUseResult";
              x_isCompactSummary :=
                match prop entry "isCompactSummary" with VBool true => true | _ => false end |}
  | assistant =>
      c ← get (prop entry "message") "content";
      mret {| x_content := c;
              x_role := asString (prop (prop entry "message") "role");
              x_usage := usageOf (prop (prop entry "message") "usage");
              x_model := asString (prop (prop entry "message") "model");
              x_agentId := asString (prop entry "agentId");
              x_isMeta := false;
              x_sourceToolUseID := None;
              x_sourceToolAssistantUUID := None;
              x_toolUseResult := VUndefined;
              x_isCompactSummary := false |}
  | system =>
      mret {| x_content := VStr ""; x_role := None; x_usage := None; x_model := None;
              x_agentId := None;
              x_isMeta := asBool (prop entry "isMeta") ??! false;
              x_sourceToolUseID := None; x_sourceToolAssistantUUID := None;
              x_toolUseResult := VUndefined; x_isCompactSummary := false |}
  | _ => mret noExtract
  end.

(** Structured event records. *)
Definition parseChatHistoryEntry (now : Z) (entry : value)
  : completion (option ParsedMessage) :=
  u ← get entry "uuid";
  match asString u with
  | None => mret None
  | Some uuid_ =>
    if String.eqb uuid_ "" then mret None
    else
      match parseMessageType (prop entry "type") with
      | None => mret None
      | Some ty =>
          let conv := isConversationalEntry ty in
          x ← (if conv then extractByType ty entry else mret noExtract);
          mret (Some
            {| uuid := uuid_;
               parentUuid := if conv then asString (prop entry "parentUuid") else None;
               type := ty;
               timestamp :=
                 match asString (prop entry "timestamp") with
                 | Some s => if String.eqb s "" then Some now else Date_parse s
                 | None => Some now
                 end;
               role := x_role x;
               content := x_content x;
               usage := x_usage x;
               model := x_model x;
               cwd := if conv then asString (prop entry "cwd") else None;
               gitBranch := if conv then asString (prop entry "gitBranch") else None;
               agentId := x_agentId x;
               isSidechain := if conv then asBool (prop entry "isSidechain") ??! false else false;
               isMeta := x_isMeta x;
               userType := if conv then asString (prop entry "userType") else None;
               isCompactSummary := x_isCompactSummary x;
               toolCalls := extractToolCalls (x_content x);
               toolResults := extractToolResults (x_content x);
               sourceToolUseID := x_sourceToolUseID x;
               sourceToolAssistantUUID := x_sourceToolAssistantUUID x;
               toolUseResult := x_toolUseResult x |})
      end
  end.

(** Lines 103-114 of [parseJsonlLine]: the interpretations of a decoded
    record, in the order the code tries them. *)
Definition parseEntry (now : Z) (entry : value) : completion (option ParsedMessage) :=
  claudeEntry ← parseChatHistoryEntry now entry;
  match claudeEntry with
  | Some m => mret (Some m)
  | None =>
      match parseCopilotEventEntry now entry with
      | Some m => mret (Some m)
      | None => mret (parseCopilotMessageEntry now entry)
      end
  end.

Definition parseJsonlLine (now : Z) (line : string) : completion (option ParsedMessage) :=
  if isBlank line then mret None
  else
    match JSON_parse line with
    | None => Throw SyntaxError
    | Some entry => parseEntry now entry
    end.

(** [items.map(parseCopilotMessageEntry).filter(msg => msg !== null)];
    [clock i] is the clock reading while item [i] is converted. *)
Definition parseCopilotMessageArray (clock : nat -> Z) (items : list value)
  : list ParsedMessage :=
  assignParentUuids
    (omap id (imap (fun i item => parseCopilotMessageEntry (clock i) item) items)).

(** One iteration of the loop of [parseCopilotRequestArray]: the messages
    pushed for [items[index]]. *)
Definition requestMessages (now : Z) (index : nat) (item : value) : list ParsedMessage :=
  if negb (isObjectLike item) then []
  else
    let request := item in
    let userText :=
      asString (prop request "prompt") ?? asString (prop request "input")
      ?? asString (prop request "query") ?? asString (prop request "message")
      ?? asString (prop (prop request "request") "message") in
    let assistantText :=
      asString (prop request "response") ?? asString (prop request "answer")
      ?? asString (prop request "output")
      ?? asString (prop (prop request "responseMessage") "content") in
    let timestampRaw :=
      asString (prop request "timestamp") ?? asString (prop request "createdAt")
      ?? asString (prop request "time")
      ?? asString (prop (prop request "request") "timestamp") in
    let timestamp := toDateOrNow now timestampRaw in
    let cwd_ := asString (prop request "cwd") ?? asString (prop request "workspacePath") in
    (match userText with
     | Some text =>
         if isBlank text then []
         else [buildCopilotMessage
                 {| p_type := RUser;
                    p_content := VStr text;
                    p_timestamp := timestamp;
                    p_uuidSeed := "copilot-user-" +:+ Str.decimal (Z.of_nat index) +:+ "-"
                                  +:+ toISOString timestamp;
                    p_cwd := cwd_;
                    p_model := None |}]
     | None => []
     end)
    ++
    (match assistantText with
     | Some text =>
         if isBlank text then []
         else
           let assistantTs :=
             toDateOrNow now
               (asString (prop (prop request "responseMessage") "timestamp")
                ?? Some (toISOString timestamp)) in
           [buildCopilotMessage
              {| p_type := RAssistant;
                 p_content := textBlock text;
                 p_timestamp := assistantTs;
                 p_uuidSeed := "copilot-assistant-" +:+ Str.decimal (Z.of_nat index) +:+ "-"
                               +:+ toISOString assistantTs;
                 p_cwd := cwd_;
                 p_model := asString (prop request "model")
                            ?? asString (prop (prop request "responseMessage") "model") |}]
     | None => []
     end).

(** The comparator [a.timestamp.getTime() - b.timestamp.getTime()]; a NaN
    result counts as [+0], as [Array.prototype.sort] reads it. *)
Definition compareTime (a b : ParsedMessage) : Z :=
  match timestamp a, timestamp b with
  | Some x, Some y => x - y
  | _, _ => 0
  end.

Fixpoint insertByTime (m : ParsedMessage) (sorted : list ParsedMessage) : list ParsedMessage :=
  match sorted with
  | [] => [m]
  | x :: r => if compareTime m x <=? 0 then m :: sorted else x :: insertByTime m r
  end.

(** [messages.sort(...)]: the sort is stable, so its result is the one
    order-preserving insertion builds. *)
Definition sortByTime (messages : list ParsedMessage) : list ParsedMessage :=
  foldr insertByTime [] messages.

Definition parseCopilotRequestArray (clock : nat -> Z) (items : list value)
  : list ParsedMessage :=
  assignParentUuids
    (sortByTime (concat (imap (fun index item => requestMessages (clock index) index item) items))).

Definition parseCopilotTranscript (clock : nat -> Z) (data : value) : list ParsedMessage :=
  if negb (isObjectLike data) then []
  else
    match data with
    | VArr xs => parseCopilotMessageArray clock xs
    | _ =>
        let obj := data in
        match prop obj "messages", prop obj "requests", prop obj "turns" with
        | VArr xs, _, _ => parseCopilotMessageArray clock xs
        | _, VArr xs, _ => parseCopilotRequestArray clock xs
        | _, _, VArr xs => parseCopilotRequestArray clock xs
        | _, _, _ =>
            match parseCopilotMessageEntry (clock O) obj with
            | Some single => [single]
            | None => []
            end
        end
    end.

(** The file-system provider, as far as the parser uses it. *)
Record FileSystemProvider : Type := mkProvider {
  fs_exists : string -> bool;
  (** the lines [readline] yields from [createReadStream(path)] *)
  fs_lines : string -> list string;
  fs_readFile : string -> string;
}.

Definition parseCopilotJsonFile (clock : nat -> Z) (filePath : string)
  (fsProvider : FileSystemProvider) : list ParsedMessage :=
  match JSON_parse (fs_readFile fsProvider filePath) with
  | Some data => parseCopilotTranscript clock data
  | None => []
  end.

(** The loop over the lines of [parseJsonlFile]; [index] numbers the lines
    for the clock. *)
Fixpoint parseLines (clock : nat -> Z) (index : nat) (lines : list string)
  : list ParsedMessage :=
  match lines with
  | [] => []
  | line :: rest =>
      let tail := parseLines clock (S index) rest in
      if isBlank line then tail
      else
        match parseJsonlLine (clock index) line with
        | Ret (Some parsed) => parsed :: tail
        | Ret None => tail
        | Throw _ => tail
        end
  end.

Definition parseJsonlFile (clock : nat -> Z) (filePath : string)
  (fsProvider : FileSystemProvider) : list ParsedMessage :=
  if negb (fs_exists fsProvider filePath) then []
  else
    let messages := parseLines clock O (fs_lines fsProvider filePath) in
    if (length messages =? 0)%nat && Str.endsWith ".json" (Str.toLowerCase filePath)
    then parseCopilotJsonFile clock filePath fsProvider
    else consolidateCopilotDeltas messages.

End WithPlatform.
End Parser.

(* ===================================================================== *)
(** ** The metrics aggregator ([calculateMetrics]) *)
(* ===================================================================== *)

Module Metrics.

Record SessionMetrics : Type := mkMetrics {
  durationMs : Z;
  totalTokens : Z;
  inputTokens : Z;
  outputTokens : Z;
  cacheReadTokens : Z;
  cacheCreationTokens : Z;
  messageCount : Z;
  costUsd : option Z;
}.

(** Modelled from the spec: the constant [EMPTY_METRICS] of [../types],
    which is not among the sources.  The specification gives it as the
    all-zero result with duration 0, every count 0 and the cost absent. *)
Definition EMPTY_METRICS : SessionMetrics :=
  {| durationMs := 0; totalTokens := 0; inputTokens := 0; outputTokens := 0;
     cacheReadTokens := 0; cacheCreationTokens := 0; messageCount := 0;
     costUsd := None |}.

Section WithPlatform.
Context `{P : Platform}.

(** The four counters, in the order input, output, cache-read,
    cache-creation. *)
Record Counters : Type := mkCounters {
  c_input : Z; c_output : Z; c_cacheRead : Z; c_cacheCreation : Z;
}.

(** The body of the loop over [messages] that sums the usage. *)
Definition addUsage (acc : Counters) (msg : ParsedMessage) : Counters :=
  match usage msg with
  | Some u =>
      {| c_input := c_input acc + (input_tokens u ??! 0);
         c_output := c_output acc + (output_tokens u ??! 0);
         c_cacheRead := c_cacheRead acc + (cache_read_input_tokens u ??! 0);
         c_cacheCreation := c_cacheCreation acc + (cache_creation_input_tokens u ??! 0) |}
  | None => acc
  end.

(** The body of the loop over [timestamps[1..]]. *)
Definition widen (mm : Z * Z) (t : Z) : Z * Z :=
  (if t <? fst mm then t else fst mm, if t >? snd mm then t else snd mm).

Definition calculateMetrics (messages : list ParsedMessage) : SessionMetrics :=
  match messages with
  | [] => EMPTY_METRICS
  | _ =>
      let costUsd_ := 0 in
      let timestamps := omap timestamp messages in
      let '(minTime, maxTime) :=
        match timestamps with
        | [] => (0, 0)
        | t0 :: rest => fold_left widen rest (t0, t0)
        end in
      let c := fold_left addUsage messages (mkCounters 0 0 0 0) in
      {| durationMs := maxTime - minTime;
         totalTokens := c_input c + c_cacheCreation c + c_cacheRead c + c_output c;
         inputTokens := c_input c;
         outputTokens := c_output c;
         cacheReadTokens := c_cacheRead c;
         cacheCreationTokens := c_cacheCreation c;
         messageCount := Z.of_nat (length messages);
         costUsd := if costUsd_ >? 0 then Some costUsd_ else None |}
  end.

End WithPlatform.
End Metrics.

(* ===================================================================== *)
(** ** The streaming session analyzer ([analyzeSessionFileMetadata]) *)
(* ===================================================================== *)

(** The embedding keeps the state the liveness flag and the context
    consumption are computed from.  The title candidates, the message
    counters and the branch name are written by the same loop but never read
    by the code modelled here; the helpers of other modules that this
    bookkeeping calls ([sanitizeDisplayContent], [isCommandOutputContent],
    [isTextContent], [isParsedUserChunkMessage]) are taken to return
    normally. *)
Module Analyzer.

Inductive Activity : Type := Ongoing | Ending.

#[global] Instance Activity_eq_dec : EqDecision Activity.
Proof. solve_decision. Defined.

(** The four scalars of the liveness state machine. *)
Record Liveness : Type := mkLiveness {
  activityIndex : Z;
  lastEndingIndex : Z;
  hasAnyOngoingActivity : bool;
  hasActivityAfterLastEnding : bool;
}.

(** [lastEndingIndex = activityIndex++; hasActivityAfterLastEnding = false] *)
Definition markEnding (st : Liveness) : Liveness :=
  {| activityIndex := activityIndex st + 1;
     lastEndingIndex := activityIndex st;
     hasAnyOngoingActivity := hasAnyOngoingActivity st;
     hasActivityAfterLastEnding := false |}.

(** [hasAnyOngoingActivity = true; if (lastEndingIndex >= 0)
    hasActivityAfterLastEnding = true; activityIndex++] *)
Definition markOngoing (st : Liveness) : Liveness :=
  {| activityIndex := activityIndex st + 1;
     lastEndingIndex := lastEndingIndex st;
     hasAnyOngoingActivity := true;
     hasActivityAfterLastEnding :=
       if lastEndingIndex st >=? 0 then true else hasActivityAfterLastEnding st |}.

Definition record (st : Liveness) (a : Activity) : Liveness :=
  match a with
  | Ending => markEnding st
  | Ongoing => markOngoing st
  end.

Record Phase : Type := mkPhase { pre : Z; post : Z }.

(** The three variables of the context-consumption tracker. *)
Record Context : Type := mkContext {
  lastMainAssistantInputTokens : Z;
  compactionPhases : list Phase;
  awaitingPostCompaction : bool;
}.

Record State : Type := mkState {
  live : Liveness;
  shutdownToolIds : gset string;
  ctx : Context;
}.

Definition initial : State :=
  {| live := mkLiveness 0 (-1) false false;
     shutdownToolIds := ∅;
     ctx := mkContext 0 [] false |}.

Definition truthyStr (o : option string) : bool :=
  match o with
  | Some s => negb (String.eqb s "")
  | None => false
  end.

(** The character class that [.] of a regular expression leaves out. *)
Definition isLineTerminator (c : ascii) : bool :=
  (Str.code c =? 10) || (Str.code c =? 13).

Fixpoint noLineTerminator (s : string) : bool :=
  match s with
  | EmptyString => true
  | String c r => negb (isLineTerminator c) && noLineTerminator r
  end.

(** [/^tool\..*(v1|v2|...)$/.test(s)] *)
Definition toolVerb (verbs : list string) (s : string) : bool :=
  Str.startsWith "tool." s
  && (let r := Str.dropn 5 s in
      existsb (fun v =>
                 Str.endsWith v r
                 && noLineTerminator (Str.taken (String.length r - String.length v) r))
              verbs).

Definition sessionEndNames : list string :=
  ["end"; "ended"; "stop"; "stopped"; "complete"; "completed"; "close"; "closed";
   "shutdown"; "error"].

Definition toolStartVerbs : list string :=
  ["start"; "started"; "begin"; "began"; "invoke"; "invoked"; "call"; "called"].

Definition toolEndVerbs : list string :=
  ["complete"; "completed"; "finish"; "finished"; "result"; "error"; "end"; "ended"].

(** [copilotContent]: the first of [content], [text], [message], [prompt]
    of [data] that is a string, trimmed. *)
Definition copilotContent (data : value) : option string :=
  if truthy data then
    Str.trim <$> (asString (prop data "content") ?? asString (prop data "text")
                  ?? asString (prop data "message") ?? asString (prop data "prompt"))
  else None.

(** The classification of a dotted-event record (lines 941-973). *)
Definition classifyEvent (eventType : string) (entry : value) : option Activity :=
  let content_ := copilotContent (prop entry "data") in
  let lowerEventType := Str.toLowerCase eventType in
  let isAssistantDelta := String.eqb lowerEventType "assistant.message_delta" in
  let isAssistantEnding :=
    Str.startsWith "assistant." lowerEventType && negb isAssistantDelta
    && truthyStr content_ in
  let isSessionEnding :=
    String.eqb lowerEventType "session.shutdown" || String.eqb lowerEventType "session.error"
    || existsb (fun n => String.eqb lowerEventType ("session." +:+ n)) sessionEndNames in
  let isToolStartActivity :=
    String.eqb lowerEventType "tool.execution_start" || toolVerb toolStartVerbs lowerEventType in
  let isToolEnding :=
    String.eqb lowerEventType "tool.execution_complete" || toolVerb toolEndVerbs lowerEventType in
  if isAssistantEnding || isSessionEnding || isToolEnding then Some Ending
  else if isToolStartActivity || isAssistantDelta then Some Ongoing
  else None.

(** One block of an assistant message (lines 1118-1149): the activity it
    counts as, and the shutdown ids afterwards. *)
Definition classifyAssistantBlock (ids : gset string) (block : value)
  : completion (option Activity * gset string) :=
  ty ← get block "type";
  if strIs ty "thinking" && truthyStr (asString (prop block "thinking")) then
    mret (Some Ongoing, ids)
  else if strIs ty "tool_use" && truthyStr (asString (prop block "id")) then
    if strIs (prop block "name") "ExitPlanMode" then mret (Some Ending, ids)
    else if strIs (prop block "name") "SendMessage"
            && strIs (prop (prop block "input") "type") "shutdown_response"
            && match prop (prop block "input") "approve" with VBool true => true | _ => false end
    then mret (Some Ending, {[ asString (prop block "id") ??! "" ]} ∪ ids)
    else mret (Some Ongoing, ids)
  else if strIs ty "text"
          && match asString (prop block "text") with
             | Some t => negb (String.eqb t "") && negb (String.eqb (Str.trim t) "")
             | None => false
             end
  then mret (Some Ending, ids)
  else mret (None, ids).

(** One block of a user message (lines 1156-1177). *)
Definition classifyUserBlock (ids : gset string) (isRejection : bool) (block : value)
  : completion (option Activity) :=
  ty ← get block "type";
  if strIs ty "tool_result" && truthyStr (asString (prop block "tool_use_id")) then
    if bool_decide (asString (prop block "tool_use_id") ??! "" ∈ ids) || isRejection
    then mret (Some Ending)
    else mret (Some Ongoing)
  else if strIs ty "text"
          && match asString (prop block "text") with
             | Some t => Str.startsWith "[Request interrupted by user" t
             | None => false
             end
  then mret (Some Ending)
  else mret None.

Definition consOpt {A} (o : option A) (l : list A) : list A :=
  match o with
  | Some a => a :: l
  | None => l
  end.

Fixpoint assistantBlocks (ids : gset string) (blocks : list value)
  : completion (list Activity * gset string) :=
  match blocks with
  | [] => mret ([], ids)
  | block :: rest =>
      r ← classifyAssistantBlock ids block;
      r' ← assistantBlocks r.2 rest;
      mret (consOpt r.1 r'.1, r'.2)
  end.

Fixpoint userBlocks (ids : gset string) (isRejection : bool) (blocks : list value)
  : completion (list Activity) :=
  match blocks with
  | [] => mret []
  | block :: rest =>
      a ← classifyUserBlock ids isRejection block;
      r ← userBlocks ids isRejection rest;
      mret (consOpt a r)
  end.

Section WithPlatform.
Context `{P : Platform}.

(** The activities a structured message is classified as (lines
    1117-1178), in the order the loop records them. *)
Definition messageActivities (ids : gset string) (entry : value) (parsed : ParsedMessage)
  : completion (list Activity * gset string) :=
  match type parsed, content parsed with
  | assistant, VArr blocks => assistantBlocks ids blocks
  | user, VArr blocks =>
      let isRejection := strIs (prop entry "toolUseResult") "User rejected tool use" in
      acts ← userBlocks ids isRejection blocks;
      mret (acts, ids)
  | _, _ => mret ([], ids)
  end.

Definition isMainThreadAssistant (parsed : ParsedMessage) : bool :=
  bool_decide (type parsed = assistant)
  && negb (isSidechain parsed)
  && negb (bool_decide (model parsed = Some "<synthetic>")).

(** [(usage?.input_tokens ?? 0) + (usage?.cache_read_input_tokens ?? 0)
    + (usage?.cache_creation_input_tokens ?? 0)] *)
Definition inputTotal (parsed : ParsedMessage) : Z :=
  ((usage parsed ≫= input_tokens) ??! 0)
  + ((usage parsed ≫= cache_read_input_tokens) ??! 0)
  + ((usage parsed ≫= cache_creation_input_tokens) ??! 0).

Definition setLastPost (phases : list Phase) (t : Z) : list Phase :=
  alter (fun p => {| pre := pre p; post := t |}) (length phases - 1)%nat phases.

(** Lines 1180-1193. *)
Definition observeTokens (parsed : ParsedMessage) (c : Context) : Context :=
  if isMainThreadAssistant parsed then
    let inputTokens := inputTotal parsed in
    if inputTokens >? 0 then
      if awaitingPostCompaction c && (0 <? length (compactionPhases c))%nat then
        {| lastMainAssistantInputTokens := inputTokens;
           compactionPhases := setLastPost (compactionPhases c) inputTokens;
           awaitingPostCompaction := false |}
      else
        {| lastMainAssistantInputTokens := inputTokens;
           compactionPhases := compactionPhases c;
           awaitingPostCompaction := awaitingPostCompaction c |}
    else c
  else c.

(** Lines 1195-1199. *)
Definition observeCompaction (parsed : ParsedMessage) (c : Context) : Context :=
  if isCompactSummary parsed then
    {| lastMainAssistantInputTokens := lastMainAssistantInputTokens c;
       compactionPhases :=
         compactionPhases c ++ [{| pre := lastMainAssistantInputTokens c; post := 0 |}];
       awaitingPostCompaction := true |}
  else c.

(** What a line is to the loop once it is decoded. *)
Inductive LineKind : Type :=
| Skipped
| Event (eventType : string) (entry : value)
| Unparsed (entry : value)
| Message (entry : value) (parsed : ParsedMessage).

(** Lines 867-881 and 977-979: the line is trimmed and decoded, a dotted
    [type] selects the event branch, anything else goes through
    [parseChatHistoryEntry]. *)
Definition lineKind (now : Z) (line : string) : completion LineKind :=
  let trimmed := Str.trim line in
  if String.eqb trimmed "" then mret Skipped
  else
    match JSON_parse trimmed with
    | None => mret Skipped
    | Some entry =>
        ty ← get entry "type";
        let eventType := asString ty ??! "" in
        if Str.includes "." eventType then mret (Event eventType entry)
        else
          parsed ← Parser.parseChatHistoryEntry now entry;
          match parsed with
          | None => mret (Unparsed entry)
          | Some m => mret (Message entry m)
          end
    end.

(** The liveness part of the loop body: the activities the line is
    classified as, in the order they are recorded, and the shutdown ids
    afterwards. *)
Definition kindActivities (ids : gset string) (k : LineKind)
  : completion (list Activity * gset string) :=
  match k with
  | Skipped | Unparsed _ => mret ([], ids)
  | Event eventType entry => mret (consOpt (classifyEvent eventType entry) [], ids)
  | Message entry parsed => messageActivities ids entry parsed
  end.

(** The context part of the loop body (lines 1180-1199). *)
Definition kindContext (k : LineKind) (c : Context) : Context :=
  match k with
  | Message _ parsed => observeCompaction parsed (observeTokens parsed c)
  | _ => c
  end.

(** The body of the loop. *)
Definition step (now : Z) (st : State) (line : string) : completion State :=
  k ← lineKind now line;
  r ← kindActivities (shutdownToolIds st) k;
  mret {| live := foldl record (live st) r.1;
          shutdownToolIds := r.2;
          ctx := kindContext k (ctx st) |}.

Fixpoint run (clock : nat -> Z) (index : nat) (st : State) (lines : list string)
  : completion State :=
  match lines with
  | [] => mret st
  | line :: rest =>
      st' ← step (clock index) st line;
      run clock (S index) st' rest
  end.

End WithPlatform.

Record PhaseTokenBreakdown : Type := mkBreakdown {
  phaseNumber : Z;
  contribution : Z;
  peakTokens : Z;
  postCompaction : option Z;
}.

Definition phaseAt (phases : list Phase) (i : nat) : Phase :=
  default (mkPhase 0 0) (phases !! i).

(** [for (let i = 1; i < compactionPhases.length; i++)], entered at [i]
    with [n] iterations left. *)
Fixpoint middlePhases (n : nat) (i : nat) (phases : list Phase)
  (acc : Z * list PhaseTokenBreakdown) : Z * list PhaseTokenBreakdown :=
  match n with
  | O => acc
  | S n' =>
      let contribution_ := pre (phaseAt phases i) - post (phaseAt phases (i - 1)) in
      middlePhases n' (S i) phases
        (acc.1 + contribution_,
         acc.2 ++ [{| phaseNumber := Z.of_nat i + 1;
                      contribution := contribution_;
                      peakTokens := pre (phaseAt phases i);
                      postCompaction := Some (post (phaseAt phases i)) |}])
  end.

(** Lines 1202-1259: [(contextConsumption, phaseBreakdown)]. *)
Definition consumption (c : Context) : option Z * option (list PhaseTokenBreakdown) :=
  let last_ := lastMainAssistantInputTokens c in
  let phases := compactionPhases c in
  if last_ >? 0 then
    if (length phases =? 0)%nat then
      (Some last_,
       Some [{| phaseNumber := 1; contribution := last_; peakTokens := last_;
                postCompaction := None |}])
    else
      let phase1Contribution := pre (phaseAt phases 0) in
      let first :=
        (0 + phase1Contribution,
         [{| phaseNumber := 1; contribution := phase1Contribution;
             peakTokens := pre (phaseAt phases 0);
             postCompaction := Some (post (phaseAt phases 0)) |}]) in
      let mid := middlePhases (length phases - 1) 1 phases first in
      let lastPhase := phaseAt phases (length phases - 1) in
      let fin :=
        if post lastPhase >? 0 then
          let lastContribution := last_ - post lastPhase in
          (mid.1 + lastContribution,
           mid.2 ++ [{| phaseNumber := Z.of_nat (length phases) + 1;
                        contribution := lastContribution;
                        peakTokens := last_;
                        postCompaction := None |}])
        else mid in
      (Some fin.1, Some fin.2)
  else (None, None).

(** The fields of [SessionFileMetadata] modelled here. *)
Record SessionFileMetadata : Type := mkMetadata {
  isOngoing : bool;
  contextConsumption : option Z;
  compactionCount : option Z;
  phaseBreakdown : option (list PhaseTokenBreakdown);
}.

Definition summarize (st : State) : SessionFileMetadata :=
  {| isOngoing :=
       if lastEndingIndex (live st) =? -1 then hasAnyOngoingActivity (live st)
       else hasActivityAfterLastEnding (live st);
     contextConsumption := (consumption (ctx st)).1;
     compactionCount :=
       if (0 <? length (compactionPhases (ctx st)))%nat
       then Some (Z.of_nat (length (compactionPhases (ctx st)))) else None;
     phaseBreakdown := (consumption (ctx st)).2 |}.

Definition analyzeSessionFileMetadata `{Platform} (clock : nat -> Z) (filePath : string)
  (fsProvider : Parser.FileSystemProvider) : completion SessionFileMetadata :=
  if negb (Parser.fs_exists fsProvider filePath) then
    mret {| isOngoing := false; contextConsumption := None; compactionCount := None;
            phaseBreakdown := None |}
  else
    st ← run clock O initial (Parser.fs_lines fsProvider filePath);
    mret (summarize st).

End Analyzer.

(* ===================================================================== *)
(** ** The search matcher ([SessionSearcher.collectMatchesForEntry]) *)
(* ===================================================================== *)

Module Search.

(** A match reported by [findMarkdownSearchMatches]; the matcher reads its
    running index only. *)
Record MarkdownMatch : Type := mkMatch { md_matchIndexInItem : Z }.

Inductive ItemType : Type := item_user | item_ai.

Record SearchableEntry : Type := mkEntry {
  text : string;
  e_groupId : string;
  e_messageType : MessageType;
  e_itemType : ItemType;
  e_timestamp : Z;
  e_messageUuid : string;
}.

Record SearchResult : Type := mkResult {
  sessionId : string;
  projectId : string;
  sessionTitle : string;
  matchedText : string;
  context : string;
  messageType : MessageType;
  timestamp : Z;
  groupId : string;
  itemType : ItemType;
  matchIndexInItem : Z;
  matchStartOffset : Z;
  messageUuid : string;
}.

Section WithMarkdown.

(** The two functions of [@shared/utils/markdownTextSearch], which is not
    among the sources. *)
Variable findMarkdownSearchMatches : string -> string -> list MarkdownMatch.
Variable extractMarkdownPlainText : string -> string.

(** The inner [for] loop: skip [n] earlier occurrences, stopping at the
    first search that fails. *)
Fixpoint skipOccurrences (n : nat) (lowerPlain query : string) (pos : Z) : Z :=
  match n with
  | O => pos
  | S n' =>
      let idx := Str.indexOf lowerPlain query pos in
      if idx =? -1 then pos
      else skipOccurrences n' lowerPlain query (idx + Str.len query)
  end.

(** The result pushed for one match (lines 311-341). *)
Definition resultFor (entry : SearchableEntry) (query plainText lowerPlain : string)
  (projectId_ sessionId_ : string) (sessionTitle_ : option string)
  (mdMatch : MarkdownMatch) : SearchResult :=
  let pos := skipOccurrences (Z.to_nat (md_matchIndexInItem mdMatch)) lowerPlain query 0 in
  let matchPos := Str.indexOf lowerPlain query pos in
  let effectivePos := if matchPos >=? 0 then matchPos else 0 in
  let contextStart := Z.max 0 (effectivePos - 50) in
  let contextEnd := Z.min (Str.len plainText) (effectivePos + Str.len query + 50) in
  let context_ := Str.slice plainText contextStart contextEnd in
  let matchedText_ :=
    if matchPos >=? 0 then Str.slice plainText matchPos (matchPos + Str.len query)
    else query in
  {| sessionId := sessionId_;
     projectId := projectId_;
     sessionTitle := sessionTitle_ ??! "Untitled Session";
     matchedText := matchedText_;
     context := (if contextStart >? 0 then "..." else "") +:+ context_
                +:+ (if contextEnd <? Str.len plainText then "..." else "");
     messageType := e_messageType entry;
     timestamp := e_timestamp entry;
     groupId := e_groupId entry;
     itemType := e_itemType entry;
     matchIndexInItem := md_matchIndexInItem mdMatch;
     matchStartOffset := effectivePos;
     messageUuid := e_messageUuid entry |}.

(** The loop over [mdMatches]; it returns as soon as [results] is full. *)
Fixpoint pushMatches (mk : MarkdownMatch -> SearchResult) (maxResults : Z)
  (mdMatches : list MarkdownMatch) (results : list SearchResult) : list SearchResult :=
  match mdMatches with
  | [] => results
  | mdMatch :: rest =>
      if Z.of_nat (length results) >=? maxResults then results
      else pushMatches mk maxResults rest (results ++ [mk mdMatch])
  end.

(** [collectMatchesForEntry]; the array it appends to is returned. *)
Definition collectMatchesForEntry (entry : SearchableEntry) (query : string)
  (results : list SearchResult) (maxResults : Z) (projectId_ sessionId_ : string)
  (sessionTitle_ : option string) : list SearchResult :=
  let mdMatches := findMarkdownSearchMatches (text entry) query in
  if (length mdMatches =? 0)%nat then results
  else
    let plainText := extractMarkdownPlainText (text entry) in
    let lowerPlain := Str.toLowerCase plainText in
    pushMatches (resultFor entry query plainText lowerPlain projectId_ sessionId_ sessionTitle_)
      maxResults mdMatches results.

End WithMarkdown.
End Search.

(* ===================================================================== *)
(** ** Concrete records and a concrete platform *)
(* ===================================================================== *)

Module Examples.

Definition dq : string := String (Str.of_code 34) EmptyString.

Definition quoted (s : string) : string := dq +:+ s +:+ dq.

Definition join (sep : string) (parts : list string) : string :=
  match parts with
  | [] => EmptyString
  | p :: r => fold_left (fun acc x => acc +:+ sep +:+ x) r p
  end.

(** The compact JSON text of a value whose strings need no escaping. *)
Fixpoint textOf (v : value) : string :=
  match v with
  | VUndefined => "undefined"
  | VNull => "null"
  | VBool b => if b then "true" else "false"
  | VNum n => Str.decimal n
  | VStr s => quoted s
  | VArr xs => "[" +:+ join "," (map textOf xs) +:+ "]"
  | VObj fs =>
      "{" +:+ join ","
        ((fix members (l : list (string * value)) : list string :=
            match l with
            | [] => []
            | (k, x) :: r => (quoted k +:+ ":" +:+ textOf x) :: members r
            end) fs) +:+ "}"
  end.

(** [{"type":"session.start","role":"user","content":"hi","data":{}}]: a
    record that is both a dotted event and a flat role/content message. *)
Definition bothShapes : value :=
  VObj [("type", VStr "session.start"); ("role", VStr "user");
        ("content", VStr "hi"); ("data", VObj [])].

(** [{"role":"user","content":"hi"}] *)
Definition bareFlat : value :=
  VObj [("role", VStr "user"); ("content", VStr "hi")].

(** [{"role":"user","content":"hi","id":"m0"}] *)
Definition flatWithId : value :=
  VObj [("role", VStr "user"); ("content", VStr "hi"); ("id", VStr "m0")].

(** [{"type":"tool.execution_start","data":{"toolName":"Read"}}] *)
Definition toolStart : value :=
  VObj [("type", VStr "tool.execution_start"); ("data", VObj [("toolName", VStr "Read")])].

(** [{"type":"user.message","data":{"content":"hello"}}] *)
Definition userEvent : value :=
  VObj [("type", VStr "user.message"); ("data", VObj [("content", VStr "hello")])].

(** Two flat messages, the later one first. *)
Definition laterFirst : list value :=
  [VObj [("role", VStr "user"); ("content", VStr "second");
         ("timestamp", VStr "2026-01-02T00:00:00.000Z"); ("id", VStr "m1")];
   VObj [("role", VStr "assistant"); ("content", VStr "first");
         ("timestamp", VStr "2026-01-01T00:00:00.000Z"); ("id", VStr "m2")]].

(** A structured user entry carrying the compact-summary marker. *)
Definition compactEntry : value :=
  VObj [("type", VStr "user"); ("uuid", VStr "u1"); ("isCompactSummary", VBool true);
        ("message", VObj [("role", VStr "user"); ("content", VStr "summary")])].

(** A structured main-thread assistant entry with 100 input tokens. *)
Definition assistantEntry : value :=
  VObj [("type", VStr "assistant"); ("uuid", VStr "a1");
        ("message", VObj [("role", VStr "assistant");
                          ("content", VArr [VObj [("type", VStr "text"); ("text", VStr "done")]]);
                          ("usage", VObj [("input_tokens", VNum 100)])])].

(** A pretty-printed one-message array, one fragment per line. *)
Definition twoLineDoc : list string :=
  ["[{" +:+ quoted "role" +:+ ":" +:+ quoted "user" +:+ ",";
   quoted "content" +:+ ":" +:+ quoted "hi" +:+ "}]"].

Definition newline : string := String (Str.of_code 10) EmptyString.

Definition decodable : list (string * value) :=
  [(textOf bothShapes, bothShapes);
   (textOf bareFlat, bareFlat);
   (textOf flatWithId, flatWithId);
   (textOf toolStart, toolStart);
   (textOf userEvent, userEvent);
   (textOf compactEntry, compactEntry);
   (textOf assistantEntry, assistantEntry);
   (join newline twoLineDoc, VArr [bareFlat])].

Definition dates : list (string * Z) :=
  [("2026-01-01T00:00:00.000Z", 1767225600000);
   ("2026-01-02T00:00:00.000Z", 1767312000000)].

Fixpoint lookupText {A} (tbl : list (string * A)) (s : string) : option A :=
  match tbl with
  | [] => None
  | (k, a) :: r => if String.eqb k s then Some a else lookupText r s
  end.

Fixpoint lookupTime (tbl : list (string * Z)) (t : Z) : string :=
  match tbl with
  | [] => EmptyString
  | (k, a) :: r => if a =? t then k else lookupTime r t
  end.

(** A platform that decodes the texts and dates listed above, as
    [JSON.parse] and [Date] do, and rejects every other text. *)
Definition platform : Platform :=
  {| JSON_parse := lookupText decodable;
     Date_parse := lookupText dates;
     toISOString := lookupTime dates;
     ToolCall := value;
     ToolResult := value;
     extractToolCalls := fun _ => [];
     extractToolResults := fun _ => [] |}.

(** A provider holding one file. *)
Definition oneFile (path : string) (lines : list string) : Parser.FileSystemProvider :=
  {| Parser.fs_exists := fun p => String.eqb p path;
     Parser.fs_lines := fun p => if String.eqb p path then lines else [];
     Parser.fs_readFile := fun p => if String.eqb p path then join newline lines else "" |}.

(** A markdown layer for text without markup: the plain text is the text
    itself and the matches are the successive occurrences of the query in
    its lower-case form, numbered from 0. *)
Fixpoint occurrencesFrom (fuel : nat) (lower query : string) (pos k : Z)
  : list Search.MarkdownMatch :=
  match fuel with
  | O => []
  | S fuel' =>
      let idx := Str.indexOf lower query pos in
      if idx =? -1 then []
      else Search.mkMatch k
           :: occurrencesFrom fuel' lower query (idx + Z.max 1 (Str.len query)) (k + 1)
  end.

Definition plainFind (t query : string) : list Search.MarkdownMatch :=
  occurrencesFrom (String.length t) (Str.toLowerCase t) query 0 0.

Definition plainText (t : string) : string := t.

Definition foxEntry : Search.SearchableEntry :=
  {| Search.text := "The quick brown fox";
     Search.e_groupId := "chunk-1";
     Search.e_messageType := user;
     Search.e_itemType := Search.item_user;
     Search.e_timestamp := 0;
     Search.e_messageUuid := "u1" |}.

End Examples.

(* ===================================================================== *)
(** ** Reference definitions *)
(* ===================================================================== *)

(** The definitions the properties below are stated with: readings of the
    specification's own words, and the observations made of a run. *)
Module Reference.
Section WithPlatform.
Context `{P : Platform}.

(** *** Metrics *)

Definition zeroCounters : Metrics.Counters := Metrics.mkCounters 0 0 0 0.

Definition plusCounters (a b : Metrics.Counters) : Metrics.Counters :=
  {| Metrics.c_input := Metrics.c_input a + Metrics.c_input b;
     Metrics.c_output := Metrics.c_output a + Metrics.c_output b;
     Metrics.c_cacheRead := Metrics.c_cacheRead a + Metrics.c_cacheRead b;
     Metrics.c_cacheCreation := Metrics.c_cacheCreation a + Metrics.c_cacheCreation b |}.

Definition usageTotals (ms : list ParsedMessage) : Metrics.Counters :=
  fold_left Metrics.addUsage ms zeroCounters.

(** *** Priority of the interpretations *)

(** The order section 4.1 of the specification gives: structured event
    format, then flat role/content format, then dotted event-name format. *)
Definition parseEntry_specOrder (now : Z) (entry : value)
  : completion (option ParsedMessage) :=
  claudeEntry ← Parser.parseChatHistoryEntry now entry;
  match claudeEntry with
  | Some m => mret (Some m)
  | None =>
      match Parser.parseCopilotMessageEntry now entry with
      | Some m => mret (Some m)
      | None => mret (Parser.parseCopilotEventEntry now entry)
      end
  end.

Definition kindOf (c : completion (option ParsedMessage)) : option MessageType :=
  match c with
  | Ret (Some m) => Some (type m)
  | _ => None
  end.

Definition idOf (c : completion (option ParsedMessage)) : option string :=
  match c with
  | Ret (Some m) => Some (uuid m)
  | _ => None
  end.

(** *** Identifier seeds *)

(** A flat record names its own seed when it has a string [uuid] or [id],
    or a string among [timestamp], [createdAt], [time] and
    [message.timestamp]. *)
Definition hasOwnSeed (entry : value) : bool :=
  bool_decide (is_Some
    (asString (prop entry "uuid") ?? asString (prop entry "id")
     ?? asString (prop entry "timestamp") ?? asString (prop entry "createdAt")
     ?? asString (prop entry "time")
     ?? asString (prop (prop entry "message") "timestamp"))).

(** *** Synthesized messages *)

(** What [buildCopilotMessage] fixes in every message it builds. *)
Definition synthesized (m : ParsedMessage) : Prop :=
  usage m = None /\ isSidechain m = false /\ isMeta m = false
  /\ isCompactSummary m = false.

(** *** What a run of the analyzer observes *)

(** The decoded lines, in order. *)
Fixpoint kinds (clock : nat -> Z) (index : nat) (lines : list string)
  : completion (list Analyzer.LineKind) :=
  match lines with
  | [] => mret []
  | line :: rest =>
      k ← Analyzer.lineKind (clock index) line;
      ks ← kinds clock (S index) rest;
      mret (k :: ks)
  end.


(** The classified events, in the order the activity index numbers them. *)
Fixpoint activitiesOf (ids : gset string) (ks : list Analyzer.LineKind)
  : completion (list Analyzer.Activity) :=
  match ks with
  | [] => mret []
  | k :: rest =>
      r ← Analyzer.kindActivities ids k;
      acts ← activitiesOf r.2 rest;
      mret (r.1 ++ acts)
  end.

(** *** The liveness rule *)

(** Section 4.3: live when no ending event ever occurred and an ongoing
    one did, or when an ongoing event occurred strictly after the most
    recent ending event. *)
Definition spec_ongoing (log : list Analyzer.Activity) : Prop :=
  ((forall i, log !! i <> Some Analyzer.Ending)
   /\ exists j, log !! j = Some Analyzer.Ongoing)
  \/ (exists e j : nat,
        log !! e = Some Analyzer.Ending
        /\ (forall k, (e < k)%nat -> log !! k <> Some Analyzer.Ending)
        /\ (e < j)%nat /\ log !! j = Some Analyzer.Ongoing).

(** The liveness scalars describe the log of classified events: the index
    counts them, [lastEndingIndex] is the position of the last ending event
    ([-1] without one), and the two flags say whether an ongoing event
    occurred at all and after that position. *)
Definition tracks (log : list Analyzer.Activity) (s : Analyzer.Liveness) : Prop :=
  Analyzer.activityIndex s = Z.of_nat (length log)
  /\ ((Analyzer.lastEndingIndex s = -1 /\ forall i, log !! i <> Some Analyzer.Ending)
      \/ (exists e : nat,
            Analyzer.lastEndingIndex s = Z.of_nat e
            /\ log !! e = Some Analyzer.Ending
            /\ forall k, (e < k)%nat -> log !! k <> Some Analyzer.Ending))
  /\ (Analyzer.hasAnyOngoingActivity s = true <-> exists j, log !! j = Some Analyzer.Ongoing)
  /\ (Analyzer.hasActivityAfterLastEnding s = true <->
      exists e j : nat,
        Analyzer.lastEndingIndex s = Z.of_nat e /\ (e < j)%nat
        /\ log !! j = Some Analyzer.Ongoing).

(** *** Context consumption *)


(** Section 4.3, final breakdown: without compaction one phase equal to the
    final total; otherwise phase 1 contributes its [preTokens], every later
    phase its [preTokens] minus the [postTokens] of the phase before, and a
    trailing phase, present when the last [postTokens] is positive,
    contributes the final total minus that [postTokens]. *)
Fixpoint laterContributions (prev : Analyzer.Phase) (rest : list Analyzer.Phase)
  (finalTotal : Z) : list Z :=
  match rest with
  | [] => if 0 <? Analyzer.post prev then [finalTotal - Analyzer.post prev] else []
  | p :: rest' =>
      (Analyzer.pre p - Analyzer.post prev) :: laterContributions p rest' finalTotal
  end.

Definition spec_contributions (phases : list Analyzer.Phase) (finalTotal : Z) : list Z :=
  match phases with
  | [] => [finalTotal]
  | p1 :: rest => Analyzer.pre p1 :: laterContributions p1 rest finalTotal
  end.

Definition sumZ (l : list Z) : Z := foldr Z.add 0 l.


(** The contributions of a reported breakdown. *)
Definition contributionsOf (breakdown : option (list Analyzer.PhaseTokenBreakdown))
  : option (list Z) :=
  match breakdown with
  | Some phases => Some (Analyzer.contribution <$> phases)
  | None => None
  end.









(** The lines the analyzer reads: none when the file does not exist. *)
Definition linesRead (fsProvider : Parser.FileSystemProvider) (filePath : string)
  : list string :=
  if Parser.fs_exists fsProvider filePath then Parser.fs_lines fsProvider filePath else [].

(** *** Parent chains *)








End WithPlatform.

(** *** Context windows *)

(** The window of section 4.4 around a match at [offset]: 50 characters
    either side, clamped to the text. *)
Definition windowStart (offset : Z) : Z := Z.max 0 (offset - 50).

Definition windowEnd (plainText : string) (offset queryLength : Z) : Z :=
  Z.min (Str.len plainText) (offset + queryLength + 50).

(** [context] is that slice of the plain text, with an ellipsis in front
    exactly when the window starts after the first character and one behind
    exactly when it ends before the last. *)
Definition isWindow (plainText : string) (offset queryLength : Z) (context : string) : Prop :=
  exists before after,
    context = before +:+ Str.slice plainText (windowStart offset)
                           (windowEnd plainText offset queryLength) +:+ after
    /\ (0 < windowStart offset /\ before = "..."
        \/ windowStart offset = 0 /\ before = "")
    /\ (windowEnd plainText offset queryLength < Str.len plainText /\ after = "..."
        \/ windowEnd plainText offset queryLength = Str.len plainText /\ after = "").

End Reference.

(* ===================================================================== *)
(** ** Metadata extraction ([metadataExtraction]) *)
(* ===================================================================== *)

(** The functions that read the working directory and a title preview off
    the head of a session file.  A timestamp is kept as the value the
    record carries, since [entry.timestamp ?? new Date().toISOString()]
    passes any value that is not nullish.  The lines are those the
    provider's stream yields; a stream that fails is outside the model. *)

Module Metadata.

(** What [Array.prototype.join] prints for an element that is declared a
    string: nothing for [null] and [undefined]. *)
Definition joined (v : value) : string :=
  match v with
  | VStr s => s
  | _ => ""
  end.

(** [blocks.map((block) => block.text).join(sep)] *)
Fixpoint joinTexts (sep : string) (blocks : list value) : string :=
  match blocks with
  | [] => ""
  | [block] => joined (prop block "text")
  | block :: rest => joined (prop block "text") +:+ sep +:+ joinTexts sep rest
  end.

(** [s.substring(0, n)] *)
Definition substring0 (s : string) (n : Z) : string := Str.slice s 0 n.

(** The longest run of characters other than [<] at the head of [s], and
    what follows it. *)
Fixpoint spanName (s : string) : string * string :=
  match s with
  | EmptyString => (EmptyString, EmptyString)
  | String c r =>
      if Ascii.eqb c "<" then (EmptyString, s)
      else let '(name, rest) := spanName r in (String c name, rest)
  end.

(** A match of [<command-name>\/([^<]+)<\/command-name>] at the head of
    [s]: the group can only be the longest run without [<], since the
    pattern continues with [<]. *)
Definition matchAt (s : string) : option string :=
  if Str.startsWith "<command-name>/" s then
    let '(name, rest) := spanName (Str.dropn 15 s) in
    if negb (String.eqb name "") && Str.startsWith "</command-name>" rest
    then Some name else None
  else None.

(** [RegExp.prototype.exec]: the leftmost match. *)
Fixpoint firstMatch (s : string) : option string :=
  match matchAt s with
  | Some name => Some name
  | None =>
      match s with
      | EmptyString => None
      | String _ r => firstMatch r
      end
  end.

Definition extractCommandName (content : string) : string :=
  match firstMatch content with
  | Some name => "/" +:+ name
  | None => "/command"
  end.

Record MessagePreview : Type := mkPreview {
  mp_text : string;
  mp_timestamp : value;
  mp_isCommand : bool;
}.

Record Preview : Type := mkTitle {
  text : string;
  timestamp : value;
}.

Section WithPlatform.
Context `{P : Platform}.

(** Functions of [@shared/utils/contentSanitizer] and [../types], which
    are not among the sources. *)
Variable isCommandOutputContent : string -> bool.
Variable sanitizeDisplayContent : string -> string.
Variable isTextContent : value -> bool.

(** The loop of [extractCwd].  A line that does not decode, and a decoded
    primitive, on which [in] throws, end the scan in the [catch]. *)
Fixpoint cwdOfLines (lines : list string) : option value :=
  match lines with
  | [] => None
  | line :: rest =>
      if Parser.isBlank line then cwdOfLines rest
      else
        match JSON_parse line with
        | None => None
        | Some entry =>
            match entry with
            | VObj _ =>
                if truthy (prop entry "cwd") then Some (prop entry "cwd")
                else cwdOfLines rest
            | VArr _ => cwdOfLines rest
            | _ => None
            end
        end
  end.

Definition extractCwd (filePath : string) (fsProvider : Parser.FileSystemProvider)
  : option value :=
  if negb (Parser.fs_exists fsProvider filePath) then None
  else cwdOfLines (Parser.fs_lines fsProvider filePath).

(** [entry.timestamp ?? new Date().toISOString()] *)
Definition timestampOr (now : Z) (entry : value) : value :=
  if isNullish (prop entry "timestamp") then VStr (toISOString now)
  else prop entry "timestamp".

(** The two branches of [extractPreviewFromUserEntry] from the text on. *)
Definition previewOfText (timestamp_ : value) (textContent : string)
  : option MessagePreview :=
  if Str.startsWith "<command-name>" textContent then
    Some (mkPreview (extractCommandName textContent) timestamp_ true)
  else
    let sanitized := Str.trim (sanitizeDisplayContent textContent) in
    if String.eqb sanitized "" then None
    else Some (mkPreview (substring0 sanitized 500) timestamp_ false).

Definition extractPreviewFromUserEntry (now : Z) (entry : value) : option MessagePreview :=
  let timestamp_ := timestampOr now entry in
  let message := prop entry "message" in
  if negb (truthy message) then None
  else
    match prop message "content" with
    | VStr content =>
        if isCommandOutputContent content
           || Str.startsWith "[Request interrupted by user" content
        then None
        else previewOfText timestamp_ content
    | VArr content =>
        let textContent := Str.trim (joinTexts " " (List.filter isTextContent content)) in
        if String.eqb textContent ""
           || Str.startsWith "[Request interrupted by user" textContent
        then None
        else previewOfText timestamp_ textContent
    | _ => None
    end.

(** The three fallbacks of [extractFirstUserMessagePreview]. *)
Record Fallbacks : Type := mkFallbacks {
  commandFallback : option Preview;
  assistantFallback : option Preview;
  sessionFallback : option Preview;
}.

(** How one iteration of the loop ends. *)
Inductive Step : Type :=
| Return (preview : Preview)
| Continue (fallbacks : Fallbacks).

(** [typeof v === 'string' ? v.trim() : null] *)
Definition trimmedString (v : value) : option string := Str.trim <$> asString v.

Definition nonEmpty (o : option string) : option string :=
  match o with
  | Some s => if String.eqb s "" then None else Some s
  | None => None
  end.

(** The branch for dotted event names (lines 1372-1412). *)
Definition copilotStep (now : Z) (fb : Fallbacks) (raw : value) (evtType : string) : Step :=
  let data := prop raw "data" in
  let copilotTs :=
    VStr ((asString (prop raw "timestamp")
           ?? (if truthy data then asString (prop data "timestamp") else None))
          ??! toISOString now) in
  let copilotContent :=
    if truthy data then
      trimmedString (prop data "content") ?? trimmedString (prop data "text")
      ?? trimmedString (prop data "message") ?? trimmedString (prop data "prompt")
    else None in
  match (if Str.startsWith "user." evtType then nonEmpty copilotContent else None) with
  | Some content => Return (mkTitle (substring0 content 500) copilotTs)
  | None =>
      let assistantFallback_ :=
        match assistantFallback fb, nonEmpty copilotContent with
        | None, Some content =>
            if Str.startsWith "assistant." evtType
               && negb (String.eqb evtType "assistant.message_delta")
            then Some (mkTitle (substring0 content 500) copilotTs)
            else None
        | current, _ => current
        end in
      let sessionFallback_ :=
        match sessionFallback fb with
        | None =>
            if String.eqb evtType "session.start" && truthy data then
              let label :=
                asString (prop data "title") ?? asString (prop data "name")
                ?? ((fun producer => producer +:+ " session")
                      <$> nonEmpty (asString (prop data "producer")))
                ?? ((fun sessionId => "Session " +:+ substring0 sessionId 8)
                      <$> nonEmpty (asString (prop data "sessionId"))) in
              (fun l => mkTitle l copilotTs) <$> nonEmpty label
            else None
        | current => current
        end in
      Continue (mkFallbacks (commandFallback fb) assistantFallback_ sessionFallback_)
  end.

(** The branch for the other records (lines 1414-1448). *)
Definition entryStep (now : Z) (fb : Fallbacks) (entry : value) : Step :=
  if strIs (prop entry "type") "user" then
    match extractPreviewFromUserEntry now entry with
    | None => Continue fb
    | Some preview =>
        if negb (mp_isCommand preview)
        then Return (mkTitle (mp_text preview) (mp_timestamp preview))
        else
          match commandFallback fb with
          | None =>
              Continue (mkFallbacks (Some (mkTitle (mp_text preview) (mp_timestamp preview)))
                          (assistantFallback fb) (sessionFallback fb))
          | Some _ => Continue fb
          end
    end
  else if strIs (prop entry "type") "assistant" then
    match assistantFallback fb, prop (prop entry "message") "content" with
    | None, VArr content =>
        let textContent := Str.trim (joinTexts " " (List.filter isTextContent content)) in
        if String.eqb textContent "" then Continue fb
        else
          let sanitized := sanitizeDisplayContent textContent in
          if String.eqb sanitized "" then Continue fb
          else
            Continue (mkFallbacks (commandFallback fb)
                        (Some (mkTitle (substring0 sanitized 500) (timestampOr now entry)))
                        (sessionFallback fb))
    | _, _ => Continue fb
    end
  else Continue fb.

(** One line that was read within the limit.  Reading [type] of a decoded
    [null] throws, and the [catch] throws the exception on. *)
Definition previewStep (now : Z) (fb : Fallbacks) (line : string) : completion Step :=
  let trimmed := Str.trim line in
  if String.eqb trimmed "" then Ret (Continue fb)
  else
    match JSON_parse trimmed with
    | None => Ret (Continue fb)
    | Some raw =>
        ty ← get raw "type";
        match asString ty with
        | Some evtType =>
            if Str.includes "." evtType then Ret (copilotStep now fb raw evtType)
            else Ret (entryStep now fb raw)
        | None => Ret (entryStep now fb raw)
        end
    end.

(** The loop over the lines; [linesRead] counts the lines seen so far and
    [clock i] is the clock reading while line [i] is looked at. *)
Fixpoint previewLoop (clock : nat -> Z) (safeMaxLines : Z) (linesRead : nat)
  (lines : list string) (fb : Fallbacks) : completion (option Preview) :=
  match lines with
  | [] => Ret (commandFallback fb ?? assistantFallback fb ?? sessionFallback fb)
  | line :: rest =>
      if Z.of_nat linesRead >=? safeMaxLines
      then Ret (commandFallback fb ?? assistantFallback fb ?? sessionFallback fb)
      else
        match previewStep (clock linesRead) fb line with
        | Ret (Return preview) => Ret (Some preview)
        | Ret (Continue fb') => previewLoop clock safeMaxLines (S linesRead) rest fb'
        | Throw e => Throw e
        end
  end.

Definition extractFirstUserMessagePreview (clock : nat -> Z) (filePath : string)
  (fsProvider : Parser.FileSystemProvider) (maxLines : Z) : completion (option Preview) :=
  let safeMaxLines := Z.max 1 maxLines in
  previewLoop clock safeMaxLines 0 (Parser.fs_lines fsProvider filePath)
    (mkFallbacks None None None).

End WithPlatform.
End Metadata.

(* ===================================================================== *)
(** ** The project path resolver ([ProjectPathResolver]) *)
(* ===================================================================== *)

(** The resolver with its cache, a [Map] from project identifiers to
    paths, passed in and returned. *)

Module Resolver.

Record Dirent : Type := mkDirent { d_name : string; d_isFile : bool }.

Record ResolveProjectPathOptions : Type := mkOptions {
  cwdHint : option string;
  sessionPaths : option (list string);
  forceRefresh : bool;
}.

Section WithPlatform.
Context `{P : Platform}.

(** [subprojectRegistry.getCwd], the functions of [path] and of
    [@main/utils/pathDecoder], and the provider's [readdir] ([None] when
    it throws), none of which is among the sources. *)
Variable getCwd : string -> option string.
Variable isAbsolute : string -> bool.
Variable join : string -> string -> string.
Variable extractBaseDir : string -> string.
Variable isValidEncodedPath : string -> bool.
Variable decodePath : string -> string.
Variable isSessionFileName : string -> bool.
Variable readdir : string -> option (list Dirent).

Variable projectsDir : string.
Variable fsProvider : Parser.FileSystemProvider.
(** [this.fsProvider.type === 'ssh'] *)
Variable ssh : bool.

Definition listSessionPaths (projectId : string) : list string :=
  let projectDir := join projectsDir (extractBaseDir projectId) in
  if negb (Parser.fs_exists fsProvider projectDir) then []
  else
    match readdir projectDir with
    | Some entries =>
        (fun entry => join projectDir (d_name entry))
        <$> List.filter (fun entry => d_isFile entry && isSessionFileName (d_name entry))
              entries
    | None => []
    end.

(** The loop over the session paths: the first working directory that is
    an absolute path.  [path.isAbsolute] throws on a value that is not a
    string, and the [catch] moves on to the next file. *)
Fixpoint firstAbsoluteCwd (paths : list string) : option string :=
  match paths with
  | [] => None
  | sessionPath :: rest =>
      match Metadata.extractCwd sessionPath fsProvider with
      | Some (VStr cwd) => if isAbsolute cwd then Some cwd else firstAbsoluteCwd rest
      | _ => firstAbsoluteCwd rest
      end
  end.

Definition resolveProjectPath (cache : gmap string string) (projectId : string)
  (options : option ResolveProjectPathOptions) : string * gmap string string :=
  let opts := options ??! mkOptions None None false in
  match Metadata.nonEmpty (getCwd projectId) with
  | Some registryCwd => (registryCwd, <[projectId := registryCwd]> cache)
  | None =>
      match (if forceRefresh opts then None else Metadata.nonEmpty (cache !! projectId)) with
      | Some cached => (cached, cache)
      | None =>
          match (match Metadata.nonEmpty (Str.trim <$> cwdHint opts) with
                 | Some hint => if isAbsolute hint then Some hint else None
                 | None => None
                 end) with
          | Some hint => (hint, <[projectId := hint]> cache)
          | None =>
              let sessionPaths_ :=
                match sessionPaths opts with
                | Some (p :: ps) => p :: ps
                | _ => listSessionPaths projectId
                end in
              let maxPathsToInspect := if ssh then 1%nat else length sessionPaths_ in
              match firstAbsoluteCwd (take maxPathsToInspect sessionPaths_) with
              | Some cwd => (cwd, <[projectId := cwd]> cache)
              | None =>
                  let baseDir := extractBaseDir projectId in
                  let fallbackPath :=
                    if isValidEncodedPath baseDir then decodePath baseDir
                    else join projectsDir baseDir in
                  (fallbackPath, <[projectId := fallbackPath]> cache)
              end
          end
      end
  end.

Definition invalidateProject (cache : gmap string string) (projectId : string)
  : gmap string string :=
  delete projectId cache.

Definition clear (cache : gmap string string) : gmap string string := ∅.

End WithPlatform.
End Resolver.

(* ===================================================================== *)
(** ** The session searcher ([SessionSearcher]) *)
(* ===================================================================== *)

(** The methods of [SessionSearcher] around the matcher: the per-file
    search, which feeds chunks to [collectMatchesForEntry], and the scan of
    the session files of a project, with its staged variant for remote
    file systems.  Array indices and counts are integers; the time the scan
    reads from [Date.now()] at the top of an iteration is given by a
    function of the index [i] that iteration starts at (the index grows
    strictly through the whole scan, so no index reads the time twice). *)

Module Searcher.
Import Search.

Definition SSH_FAST_SEARCH_STAGE_LIMITS : list Z := [40; 140; 320].
Definition SSH_FAST_SEARCH_MIN_RESULTS : Z := 8.
Definition SSH_FAST_SEARCH_TIME_BUDGET_MS : Z := 4500.

Definition len {A} (l : list A) : Z := Z.of_nat (length l).

(** [l.slice(start, end)] for [0 <= start]. *)
Definition slice {A} (l : list A) (start end_ : Z) : list A :=
  take (Z.to_nat (end_ - start)) (drop (Z.to_nat start) l).

(** The body of the loop over the stage limits. *)
Definition pushBoundary (totalFiles : Z) (boundaries : list Z) (limit : Z) : list Z :=
  let boundary := Z.min totalFiles limit in
  match last boundaries with
  | None => boundaries ++ [boundary]
  | Some previous =>
      if boundary >? previous then boundaries ++ [boundary] else boundaries
  end.

Definition buildFastSearchStageBoundaries (totalFiles : Z) : list Z :=
  if totalFiles <=? 0 then []
  else
    let boundaries := foldl (pushBoundary totalFiles) [] SSH_FAST_SEARCH_STAGE_LIMITS in
    if (length boundaries =? 0)%nat then [totalFiles] else boundaries.

(** A semantic step, as far as the searcher reads it: [type],
    [content.outputText], [startTime.getTime()] and [sourceMessageId]. *)
Record SemanticStep : Type := mkStep {
  step_type : string;
  outputText : option string;
  startTime : Z;
  sourceMessageId : option string;
}.

(** [step.type === 'output' && step.content.outputText] *)
Definition isOutputText (step : SemanticStep) : bool :=
  String.eqb (step_type step) "output" && Analyzer.truthyStr (outputText step).

(** The loop of [findLastOutputTextStep]; [i] is one more than the index
    it looks at next. *)
Fixpoint lastOutputBelow (i : nat) (steps : list SemanticStep) : option SemanticStep :=
  match i with
  | O => None
  | S j =>
      match steps !! j with
      | Some step => if isOutputText step then Some step else lastOutputBelow j steps
      | None => lastOutputBelow j steps
      end
  end.

Definition findLastOutputTextStep (steps : list SemanticStep) : option SemanticStep :=
  lastOutputBelow (length steps) steps.

Section Batches.
Context {T R : Type}.

(** The loop of [collectFulfilledInBatches].  A settled promise is [Some]
    when fulfilled and [None] when rejected.  Every iteration advances [i]
    by at least one, so [fuel] iterations reach the end of [fuel] items. *)
Fixpoint batchesFrom (fuel : nat) (items : list T) (safeBatchSize : Z)
  (mapper : T -> option R) (i : Z) (results : list R) : list R :=
  match fuel with
  | O => results
  | S fuel' =>
      if i <? len items then
        let batch := slice items i (i + safeBatchSize) in
        let settled := mapper <$> batch in
        batchesFrom fuel' items safeBatchSize mapper (i + safeBatchSize)
          (results ++ omap id settled)
      else results
  end.

Definition collectFulfilledInBatches (items : list T) (batchSize : Z)
  (mapper : T -> option R) : list R :=
  let safeBatchSize := Z.max 1 batchSize in
  batchesFrom (length items) items safeBatchSize mapper 0 [].

End Batches.

(** The message of a user chunk, as far as the searcher reads it. *)
Record UserMessage : Type := mkUserMessage {
  um_content : value;
  um_time : Z;
  um_uuid : string;
}.

(** A chunk of [ChunkBuilder.buildChunks], which is not among the sources:
    the two kinds the searcher looks at, told apart by [isUserChunk] and
    [isEnhancedAIChunk], and the others.  Of [responses] the searcher reads
    the identifiers only. *)
Inductive Chunk : Type :=
| UserChunk (id : string) (userMessage : UserMessage)
| AIChunk (id : string) (semanticSteps : list SemanticStep) (responses : list string)
| OtherChunk.

Section WithShared.

(** Functions of [@shared/utils], which are not among the sources. *)
Variable findMarkdownSearchMatches : string -> string -> list MarkdownMatch.
Variable extractMarkdownPlainText : string -> string.
Variable sanitizeDisplayContent : string -> string.

(** [block.type === 'text'] on one element; reading [type] of [null] or
    [undefined] throws. *)
Definition isTextBlock (block : value) : completion bool :=
  ty ← get block "type"; Ret (strIs ty "text").

Fixpoint filterText (blocks : list value) : completion (list value) :=
  match blocks with
  | [] => Ret []
  | block :: rest =>
      match isTextBlock block with
      | Ret keep =>
          match filterText rest with
          | Ret tail => Ret (if keep then block :: tail else tail)
          | Throw e => Throw e
          end
      | Throw e => Throw e
      end
  end.

Definition extractUserSearchableText (content : value) : completion string :=
  rawText ←
    match content with
    | VStr s => Ret s
    | VArr blocks =>
        texts ← filterText blocks;
        Ret (Metadata.joinTexts "" texts)
    | _ => Ret ""
    end;
  Ret (sanitizeDisplayContent rawText).

(** The state of the loop of [searchSessionFile]. *)
Record FileScan : Type := mkFileScan {
  fs_results : list SearchResult;
  fs_title : option string;
}.

(** [userText.slice(0, 100)] *)
Definition titleOf (userText : string) : string := Str.slice userText 0 100.

(** One iteration of the loop over the chunks, when [results] is not yet
    full. *)
Definition searchChunk (query : string) (maxResults : Z) (projectId_ sessionId_ : string)
  (st : FileScan) (chunk : Chunk) : completion FileScan :=
  match chunk with
  | UserChunk id userMessage =>
      userText ← extractUserSearchableText (um_content userMessage);
      if String.eqb userText "" then Ret st
      else
        let title :=
          if Analyzer.truthyStr (fs_title st) then fs_title st
          else Some (titleOf userText) in
        let searchableEntry := mkEntry userText id user item_user (um_time userMessage)
                                 (um_uuid userMessage) in
        Ret {| fs_results :=
                 collectMatchesForEntry findMarkdownSearchMatches extractMarkdownPlainText
                   searchableEntry query (fs_results st) maxResults projectId_ sessionId_ title;
               fs_title := title |}
  | AIChunk id semanticSteps responses =>
      match findLastOutputTextStep semanticSteps with
      | Some lastOutputStep =>
          match outputText lastOutputStep with
          | Some text_ =>
              if String.eqb text_ "" then Ret st
              else
                let searchableEntry :=
                  mkEntry text_ id assistant item_ai (startTime lastOutputStep)
                    ((sourceMessageId lastOutputStep ?? head responses) ??! "") in
                Ret {| fs_results :=
                         collectMatchesForEntry findMarkdownSearchMatches
                           extractMarkdownPlainText searchableEntry query (fs_results st)
                           maxResults projectId_ sessionId_ (fs_title st);
                       fs_title := fs_title st |}
          | None => Ret st
          end
      | None => Ret st
      end
  | OtherChunk => Ret st
  end.

Fixpoint searchChunks (query : string) (maxResults : Z) (projectId_ sessionId_ : string)
  (chunks : list Chunk) (st : FileScan) : completion FileScan :=
  match chunks with
  | [] => Ret st
  | chunk :: rest =>
      if len (fs_results st) >=? maxResults then Ret st
      else
        st' ← searchChunk query maxResults projectId_ sessionId_ st chunk;
        searchChunks query maxResults projectId_ sessionId_ rest st'
  end.

(** [searchSessionFile], from the chunks built for the file on. *)
Definition searchSessionFile (projectId_ sessionId_ : string) (chunks : list Chunk)
  (query : string) (maxResults : Z) : completion (list SearchResult) :=
  st ← searchChunks query maxResults projectId_ sessionId_ chunks (mkFileScan [] None);
  Ret (fs_results st).

End WithShared.

(** *** The scan of the session files (the loops of [searchSessions]) *)

Record ScanState : Type := mkScan {
  results : list SearchResult;
  sessionsSearched : Z;
  isPartial : bool;
  shouldStop : bool;
}.

Record SearchSessionsResult : Type := mkSearchResult {
  r_results : list SearchResult;
  r_totalMatches : Z;
  r_sessionsSearched : Z;
  r_isPartial : option bool;
}.

(** The loop over the settled searches of one batch; a rejected search is
    [None]. *)
Fixpoint pushSettled (maxResults : Z) (settled : list (option (list SearchResult)))
  (results_ : list SearchResult) : list SearchResult :=
  match settled with
  | [] => results_
  | result :: rest =>
      if len results_ >=? maxResults then results_
      else
        match result with
        | Some value_ =>
            if (length value_ =? 0)%nat then pushSettled maxResults rest results_
            else
              let remaining := maxResults - len results_ in
              pushSettled maxResults rest (results_ ++ slice value_ 0 remaining)
        | None => pushSettled maxResults rest results_
        end
  end.

Section Scan.
Context {File : Type}.
Variable fastMode : bool.
(** [Date.now() - startedAt], read by the iteration that starts at [i]. *)
Variable elapsed : Z -> Z.
(** The settled search of one file. *)
Variable search : File -> option (list SearchResult).
Variable sessionFiles : list File.
Variable maxResults : Z.

Definition searchBatchSize : Z := if fastMode then 3 else 8.

(** The inner loop, over one stage.  The batch size is positive, so
    [fuel] iterations pass any boundary up to [i + fuel]. *)
Fixpoint scanStage (fuel : nat) (stageBoundary i : Z) (st : ScanState) : ScanState :=
  match fuel with
  | O => st
  | S fuel' =>
      if (i <? stageBoundary) && (len (results st) <? maxResults) then
        if fastMode && (elapsed i >=? SSH_FAST_SEARCH_TIME_BUDGET_MS) then
          {| results := results st; sessionsSearched := sessionsSearched st;
             isPartial := true; shouldStop := true |}
        else
          let batch := slice sessionFiles i (i + searchBatchSize) in
          let settled := search <$> batch in
          scanStage fuel' stageBoundary (i + searchBatchSize)
            {| results := pushSettled maxResults settled (results st);
               sessionsSearched := sessionsSearched st + len batch;
               isPartial := isPartial st; shouldStop := shouldStop st |}
      else st
  end.

(** The outer loop, over the stage boundaries. *)
Fixpoint scanStages (stageBoundaries : list Z) (searchedUntil : Z) (st : ScanState)
  : ScanState :=
  match stageBoundaries with
  | [] => st
  | stageBoundary :: rest =>
      let st1 := scanStage (Z.to_nat (stageBoundary - searchedUntil)) stageBoundary
                   searchedUntil st in
      if shouldStop st1 || negb fastMode || (len (results st1) >=? maxResults) then st1
      else if (stageBoundary <? len sessionFiles)
              && (len (results st1) >=? SSH_FAST_SEARCH_MIN_RESULTS)
      then {| results := results st1; sessionsSearched := sessionsSearched st1;
              isPartial := true; shouldStop := shouldStop st1 |}
      else scanStages rest stageBoundary st1
  end.

(** Lines 123-200 of [searchSessions]: the scan of the sorted session
    files and the result it reports. *)
Definition scanSessionFiles : SearchSessionsResult :=
  let stageBoundaries :=
    if fastMode then buildFastSearchStageBoundaries (len sessionFiles)
    else [len sessionFiles] in
  let st := scanStages stageBoundaries 0 (mkScan [] 0 false false) in
  let isPartial_ :=
    if fastMode && (len (results st) <? maxResults)
       && (sessionsSearched st <? len sessionFiles)
    then true else isPartial st in
  {| r_results := results st;
     r_totalMatches := len (results st);
     r_sessionsSearched := sessionsSearched st;
     r_isPartial := if fastMode then Some isPartial_ else None |}.

End Scan.
End Searcher.

(** Reference definitions for the searcher and a concrete file. *)
Module SearcherReference.
Import Search Searcher.

Section WithSanitizer.
Variable sanitizeDisplayContent : string -> string.

(** The text of the first user chunk that has any. *)
Fixpoint firstUserText (chunks : list Chunk) : option string :=
  match chunks with
  | [] => None
  | UserChunk _ userMessage :: rest =>
      match extractUserSearchableText sanitizeDisplayContent (um_content userMessage) with
      | Ret userText => if String.eqb userText "" then firstUserText rest else Some userText
      | Throw _ => firstUserText rest
      end
  | _ :: rest => firstUserText rest
  end.

End WithSanitizer.

(** The chunk a result was found in. *)
Definition foundIn (r : SearchResult) (chunk : Chunk) : Prop :=
  match chunk with
  | UserChunk id userMessage =>
      groupId r = id /\ messageType r = user /\ itemType r = item_user
      /\ timestamp r = um_time userMessage /\ messageUuid r = um_uuid userMessage
  | AIChunk id _ _ =>
      groupId r = id /\ messageType r = assistant /\ itemType r = item_ai
  | OtherChunk => False
  end.

Definition untitled (r : SearchResult) : Prop := sessionTitle r = "Untitled Session".

(** The results a settled search contributes. *)
Definition hits (settled : option (list SearchResult)) : list SearchResult :=
  default [] settled.

Definition noHits (settled : option (list SearchResult)) : bool :=
  match settled with
  | Some (_ :: _) => false
  | _ => true
  end.

(** A file of three chunks: an answer, a question and a second answer. *)
Definition foxChunks : list Chunk :=
  [ AIChunk "a1" [mkStep "output" (Some "A fox.") 1 None] ["r1"];
    UserChunk "u1" (mkUserMessage (VStr "Where is the fox?") 2 "m1");
    AIChunk "a2" [mkStep "thinking" None 3 None;
                  mkStep "output" (Some "The fox is here.") 4 (Some "r2")] ["r2"] ].

Definition foxResults : list SearchResult :=
  match searchSessionFile Examples.plainFind Examples.plainText (fun s => s)
          "project" "session" foxChunks "fox" 50 with
  | Ret rs => rs
  | Throw _ => []
  end.

End SearcherReference.

(** Reference definitions for the metadata functions, and a platform that
    decodes a few more records. *)
Module MetadataReference.
Section WithPlatform.
Context `{P : Platform}.

(** A line [extractCwd] passes over: blank, or an object without a truthy
    [cwd], or an array. *)
Definition passedOver (line : string) : bool :=
  Parser.isBlank line
  || match JSON_parse line with
     | Some (VObj fields) => negb (truthy (assoc "cwd" fields))
     | Some (VArr _) => true
     | _ => false
     end.

(** A line the preview scan skips without looking into it: blank, or not
    decodable. *)
Definition unreadable (line : string) : bool :=
  String.eqb (Str.trim line) ""
  || match JSON_parse (Str.trim line) with
     | Some _ => false
     | None => true
     end.

End WithPlatform.

(** A structured user entry with a working directory. *)
Definition cwdEntry : value :=
  VObj [("type", VStr "user"); ("uuid", VStr "u2"); ("cwd", VStr "/home/dev/app");
        ("timestamp", VStr "2026-01-01T00:00:00.000Z");
        ("message", VObj [("role", VStr "user"); ("content", VStr "Fix the build")])].

Definition decodable : list (string * value) :=
  Examples.decodable ++ [(Examples.textOf cwdEntry, cwdEntry); ("null", VNull); ("42", VNum 42)].

Definition platform : Platform :=
  {| JSON_parse := Examples.lookupText decodable;
     Date_parse := Examples.lookupText Examples.dates;
     toISOString := Examples.lookupTime Examples.dates;
     ToolCall := value;
     ToolResult := value;
     extractToolCalls := fun _ => [];
     extractToolResults := fun _ => [] |}.

(** [block.type === 'text'], standing in for [isTextContent]. *)
Definition typeIsText (block : value) : bool := strIs (prop block "type") "text".

(** The text [extractPreviewFromUserEntry] takes a preview from: the
    string content, or the joined and trimmed texts of the text blocks. *)
Definition entryText (isTextContent : value -> bool) (entry : value) : option string :=
  match prop (prop entry "message") "content" with
  | VStr content => Some content
  | VArr content =>
      Some (Str.trim (Metadata.joinTexts " " (List.filter isTextContent content)))
  | _ => None
  end.

End MetadataReference.

(** Reference definitions for the format of identifiers. *)
Module IdentifierReference.

(** [0-9a-f] *)
Definition isLowerHex (c : ascii) : bool :=
  let n := Str.code c in
  ((48 <=? n) && (n <=? 57)) || ((97 <=? n) && (n <=? 102)).

Fixpoint allChars (p : ascii -> bool) (s : string) : bool :=
  match s with
  | EmptyString => true
  | String c r => p c && allChars p r
  end.

(** Code units below 128, which [toLowerCase] maps one to one. *)
Definition isAscii (c : ascii) : bool := Str.code c <? 128.

End IdentifierReference.

(** Structured records with parent links, and a shutdown handshake. *)
Module StructuredExamples.

(** Two structured entries whose parent links do not follow the order of
    the list: each names a parent outside it. *)
Definition linkedFirst : value :=
  VObj [("type", VStr "user"); ("uuid", VStr "u5"); ("parentUuid", VStr "root-7");
        ("message", VObj [("role", VStr "user"); ("content", VStr "first")])].

Definition linkedSecond : value :=
  VObj [("type", VStr "assistant"); ("uuid", VStr "a5"); ("parentUuid", VStr "u4");
        ("message", VObj [("role", VStr "assistant"); ("content", VStr "second")])].

Definition linkedEntries : list value := [linkedFirst; linkedSecond].

Definition linkedMessages : list ParsedMessage :=
  omap (fun entry =>
          match Parser.parseChatHistoryEntry (P := Examples.platform) 0 entry with
          | Ret parsed => parsed
          | Throw _ => None
          end) linkedEntries.

(** A structured assistant entry that approves a shutdown request, and the
    user entry with the tool result for it. *)
Definition shutdownApproval : value :=
  VObj [("type", VStr "assistant"); ("uuid", VStr "a9");
        ("message",
         VObj [("role", VStr "assistant");
               ("content",
                VArr [VObj [("type", VStr "tool_use"); ("id", VStr "t1");
                            ("name", VStr "SendMessage");
                            ("input", VObj [("type", VStr "shutdown_response");
                                            ("approve", VBool true)])]])])].

Definition shutdownResult : value :=
  VObj [("type", VStr "user"); ("uuid", VStr "u9");
        ("message",
         VObj [("role", VStr "user");
               ("content",
                VArr [VObj [("type", VStr "tool_result"); ("tool_use_id", VStr "t1");
                            ("content", VStr "ok")]])])].

Definition decodable : list (string * value) :=
  Examples.decodable
  ++ [(Examples.textOf shutdownApproval, shutdownApproval);
      (Examples.textOf shutdownResult, shutdownResult)].

Definition platform : Platform :=
  {| JSON_parse := Examples.lookupText decodable;
     Date_parse := Examples.lookupText Examples.dates;
     toISOString := Examples.lookupTime Examples.dates;
     ToolCall := value;
     ToolResult := value;
     extractToolCalls := fun _ => [];
     extractToolResults := fun _ => [] |}.

End StructuredExamples.

(* ===================================================================== *)
(** * Properties *)
(* ===================================================================== *)

(** ** Metrics *)

Section MetricsFacts.
Context `{P : Platform}.
Import Metrics Reference.

Lemma plusCounters_zero_r a : plusCounters a zeroCounters = a.
Proof. destruct a; unfold plusCounters; simpl; f_equal; lia. Qed.

Lemma addUsage_plus acc b m :
  addUsage (plusCounters acc b) m = plusCounters acc (addUsage b m).
Proof.
  unfold addUsage. destruct (usage m) as [u|]; [|reflexivity].
  unfold plusCounters; simpl; f_equal; lia.
Qed.

Lemma fold_addUsage_from ms : forall acc,
  fold_left addUsage ms acc = plusCounters acc (usageTotals ms).
Proof.
  unfold usageTotals.
  induction ms as [|m ms IH] using rev_ind; intros acc.
  - simpl. now rewrite plusCounters_zero_r.
  - rewrite !fold_left_app. simpl. rewrite IH, addUsage_plus. reflexivity.
Qed.

Lemma usageTotals_app l1 l2 :
  usageTotals (l1 ++ l2) = plusCounters (usageTotals l1) (usageTotals l2).
Proof. unfold usageTotals at 1. rewrite fold_left_app. apply fold_addUsage_from. Qed.

(** The counters [calculateMetrics] reports are the usage sums, the empty
    sequence included. *)
Lemma calculateMetrics_counters ms :
  inputTokens (calculateMetrics ms) = c_input (usageTotals ms)
  /\ outputTokens (calculateMetrics ms) = c_output (usageTotals ms)
  /\ cacheReadTokens (calculateMetrics ms) = c_cacheRead (usageTotals ms)
  /\ cacheCreationTokens (calculateMetrics ms) = c_cacheCreation (usageTotals ms)
  /\ totalTokens (calculateMetrics ms)
     = c_input (usageTotals ms) + c_cacheCreation (usageTotals ms)
       + c_cacheRead (usageTotals ms) + c_output (usageTotals ms).
Proof.
  destruct ms as [|m ms]; [repeat split|].
  unfold calculateMetrics, usageTotals.
  destruct (omap timestamp (m :: ms)) as [|t0 ts]; [repeat split|].
  destruct (fold_left widen ts (t0, t0)); repeat split.
Qed.

(** C8.  Splitting a message sequence into two contiguous parts and adding
    the parts' input, output, cache-read and cache-creation counters, and
    their totals, gives the counters of the whole sequence; the empty
    sequence yields zero for every counter, duration 0 and no cost. *)
Theorem calculateMetrics_split_additive (before after : list ParsedMessage) :
  let a := calculateMetrics before in
  let b := calculateMetrics after in
  let whole := calculateMetrics (before ++ after) in
  inputTokens a + inputTokens b = inputTokens whole
  /\ outputTokens a + outputTokens b = outputTokens whole
  /\ cacheReadTokens a + cacheReadTokens b = cacheReadTokens whole
  /\ cacheCreationTokens a + cacheCreationTokens b = cacheCreationTokens whole
  /\ totalTokens a + totalTokens b = totalTokens whole
  /\ calculateMetrics [] =
       {| durationMs := 0; totalTokens := 0; inputTokens := 0; outputTokens := 0;
          cacheReadTokens := 0; cacheCreationTokens := 0; messageCount := 0;
          costUsd := None |}.
Proof.
  intros a b whole. subst a b whole.
  destruct (calculateMetrics_counters before) as (Hi1 & Ho1 & Hr1 & Hc1 & Ht1).
  destruct (calculateMetrics_counters after) as (Hi2 & Ho2 & Hr2 & Hc2 & Ht2).
  destruct (calculateMetrics_counters (before ++ after)) as (Hi & Ho & Hr & Hc & Ht).
  rewrite Hi1, Ho1, Hr1, Hc1, Ht1, Hi2, Ho2, Hr2, Hc2, Ht2, Hi, Ho, Hr, Hc, Ht.
  rewrite usageTotals_app. unfold plusCounters; simpl.
  repeat split; lia.
Qed.

End MetricsFacts.

(** ** Malformed lines *)

Section LineFacts.
Context `{P : Platform}.
Import Parser.

Lemma parseLines_app clock (l1 l2 : list string) : forall index,
  parseLines clock index (l1 ++ l2)
  = parseLines clock index l1 ++ parseLines clock (index + length l1) l2.
Proof.
  induction l1 as [|line l1 IH]; intros index; simpl.
  - now rewrite Nat.add_0_r.
  - rewrite IH. replace (S index + length l1)%nat with (index + S (length l1))%nat by lia.
    destruct (isBlank line); [reflexivity|].
    destruct (parseJsonlLine (clock index) line) as [[m|]|e]; reflexivity.
Qed.

Lemma withParent_assignFrom (m : ParsedMessage) (ms : list ParsedMessage) :
  m ∈ ms -> forall previous, exists p, withParent m p ∈ assignFrom previous ms.
Proof.
  induction 1 as [m ms|m x ms _ IH]; intros previous; cbn [assignFrom].
  - exists previous. now left.
  - destruct (IH (Some (uuid x))) as (p & Hp). exists p. now right.
Qed.

Lemma withParent_consolidated (m : ParsedMessage) (ms : list ParsedMessage) :
  m ∈ ms -> exists p, withParent m p ∈ consolidateCopilotDeltas ms.
Proof.
  intros Hin. unfold consolidateCopilotDeltas, assignParentUuids.
  destruct (existsb isSessionStarted ms); [now apply withParent_assignFrom|].
  exists (parentUuid m). now destruct m.
Qed.

Lemma uuid_consolidated (ms : list ParsedMessage) :
  uuid <$> consolidateCopilotDeltas ms = uuid <$> ms.
Proof.
  unfold consolidateCopilotDeltas, assignParentUuids.
  destruct (existsb isSessionStarted ms); [|reflexivity].
  generalize (@None string). induction ms as [|m ms IH]; intros previous; [reflexivity|].
  cbn [assignFrom]. rewrite !fmap_cons. now rewrite IH.
Qed.

(** C10.  A line that is not blank and that [JSON.parse] rejects makes
    [parseJsonlLine] throw the decoder's exception; inside [parseJsonlFile]
    the exception is caught per line, so the line contributes nothing and
    the lines before and after it are parsed as if it were absent: a
    well-formed line that follows it contributes its message, and the file
    yields, in order, the messages of the lines before, that message and
    the messages of the lines after. *)
Theorem malformed_line_throws_and_is_skipped
  (now : Z) (clock : nat -> Z) (line good : string) (before rest : list string)
  (m : ParsedMessage) (filePath : string) (fsProvider : FileSystemProvider) :
  isBlank line = false ->
  JSON_parse line = None ->
  parseJsonlLine (clock (length before + 1)%nat) good = Ret (Some m) ->
  fs_exists fsProvider filePath = true ->
  fs_lines fsProvider filePath = before ++ line :: good :: rest ->
  parseJsonlLine now line = Throw SyntaxError
  /\ (forall index after,
        parseLines clock index (before ++ line :: after)
        = parseLines clock index before
          ++ parseLines clock (index + length before + 1) after)
  /\ parseLines clock 0 (before ++ line :: good :: rest)
     = parseLines clock 0 before ++ m :: parseLines clock (length before + 2) rest
  /\ uuid <$> parseJsonlFile clock filePath fsProvider
     = uuid <$> (parseLines clock 0 before
                 ++ m :: parseLines clock (length before + 2) rest)
  /\ exists p, withParent m p ∈ parseJsonlFile clock filePath fsProvider.
Proof.
  intros Hblank Hbad Hgood Hexists Hlines.
  assert (Hskip : forall index after,
            parseLines clock index (before ++ line :: after)
            = parseLines clock index before
              ++ parseLines clock (index + length before + 1) after).
  { intros index after. rewrite parseLines_app. f_equal. cbn [parseLines].
    rewrite Hblank. unfold parseJsonlLine at 1. rewrite Hblank, Hbad.
    now replace (S (index + length before)) with (index + length before + 1)%nat by lia. }
  assert (Hnotblank : isBlank good = false).
  { unfold parseJsonlLine in Hgood. destruct (isBlank good); [discriminate|reflexivity]. }
  assert (Hall : parseLines clock 0 (before ++ line :: good :: rest)
                 = parseLines clock 0 before
                   ++ m :: parseLines clock (length before + 2) rest).
  { rewrite Hskip. f_equal. cbn [parseLines Nat.add]. rewrite Hnotblank, Hgood.
    now replace (S (length before + 1)) with (length before + 2)%nat by lia. }
  split; [unfold parseJsonlLine; now rewrite Hblank, Hbad|].
  split; [exact Hskip|]. split; [exact Hall|].
  assert (Hfile : parseJsonlFile clock filePath fsProvider
                  = consolidateCopilotDeltas
                      (parseLines clock 0 before
                       ++ m :: parseLines clock (length before + 2) rest)).
  { unfold parseJsonlFile. rewrite Hexists, Hlines, Hall. cbn [negb].
    rewrite length_app. cbn [length].
    replace (length (parseLines clock 0 before)
             + S (length (parseLines clock (length before + 2) rest)) =? 0)%nat
      with false by (symmetry; apply Nat.eqb_neq; lia).
    reflexivity. }
  rewrite Hfile. split; [apply uuid_consolidated|].
  apply withParent_consolidated. apply elem_of_app. right. now left.
Qed.

End LineFacts.

Lemma malformed_line_witness :
  Parser.parseJsonlLine (P := Examples.platform) 5 "{not json" = Throw SyntaxError
  /\ (forall index after,
        Parser.parseLines (P := Examples.platform) (fun _ => 5) index
          ([Examples.textOf Examples.flatWithId] ++ "{not json" :: after)
        = Parser.parseLines (P := Examples.platform) (fun _ => 5) index
            [Examples.textOf Examples.flatWithId]
          ++ Parser.parseLines (P := Examples.platform) (fun _ => 5)
               (index + length [Examples.textOf Examples.flatWithId] + 1) after)
  /\ Parser.parseLines (P := Examples.platform) (fun _ => 5) 0
       ([Examples.textOf Examples.flatWithId]
        ++ "{not json" :: Examples.textOf Examples.userEvent
        :: [Examples.textOf Examples.bareFlat])
     = Parser.parseLines (P := Examples.platform) (fun _ => 5) 0
         [Examples.textOf Examples.flatWithId]
       ++ (Parser.buildCopilotMessage (P := Examples.platform)
            (Parser.mkParams Parser.RUser (VStr "hello") 5 "copilot-event--user" None None))
          :: Parser.parseLines (P := Examples.platform) (fun _ => 5)
                 (length [Examples.textOf Examples.flatWithId] + 2)
                 [Examples.textOf Examples.bareFlat]
  /\ uuid <$> Parser.parseJsonlFile (P := Examples.platform) (fun _ => 5) "s.jsonl"
      (Examples.oneFile "s.jsonl"
          ([Examples.textOf Examples.flatWithId]
           ++ "{not json" :: Examples.textOf Examples.userEvent
           :: [Examples.textOf Examples.bareFlat]))
     = uuid <$> (Parser.parseLines (P := Examples.platform) (fun _ => 5) 0
                   [Examples.textOf Examples.flatWithId]
                 ++ (Parser.buildCopilotMessage (P := Examples.platform)
            (Parser.mkParams Parser.RUser (VStr "hello") 5 "copilot-event--user" None None))
          :: Parser.parseLines (P := Examples.platform) (fun _ => 5)
                           (length [Examples.textOf Examples.flatWithId] + 2)
                           [Examples.textOf Examples.bareFlat])
  /\ exists p, withParent
         (Parser.buildCopilotMessage (P := Examples.platform)
            (Parser.mkParams Parser.RUser (VStr "hello") 5 "copilot-event--user" None None)) p
               ∈ Parser.parseJsonlFile (P := Examples.platform) (fun _ => 5) "s.jsonl"
      (Examples.oneFile "s.jsonl"
          ([Examples.textOf Examples.flatWithId]
           ++ "{not json" :: Examples.textOf Examples.userEvent
           :: [Examples.textOf Examples.bareFlat])).
Proof.
  apply (malformed_line_throws_and_is_skipped (P := Examples.platform) 5 (fun _ => 5)
           "{not json" (Examples.textOf Examples.userEvent)
           [Examples.textOf Examples.flatWithId] [Examples.textOf Examples.bareFlat]
           (Parser.buildCopilotMessage (P := Examples.platform)
              (Parser.mkParams Parser.RUser (VStr "hello") 5 "copilot-event--user" None None))
           "s.jsonl"
           (Examples.oneFile "s.jsonl"
              ([Examples.textOf Examples.flatWithId]
               ++ "{not json" :: Examples.textOf Examples.userEvent
               :: [Examples.textOf Examples.bareFlat])));
    vm_compute; reflexivity.
Defined.

(** ** Priority of the interpretations *)

Section PriorityFacts.
Context `{P : Platform}.
Import Parser Reference.

(** C1, as the code has it.  A decoded record goes through the structured
    interpretation first, the dotted event-name interpretation second and
    the flat role/content interpretation last; the first message obtained is
    the result, and the result is [null] exactly when all three give
    nothing. *)
Theorem parseJsonlLine_priority (now : Z) (line : string) (entry : value) :
  isBlank line = false ->
  JSON_parse line = Some entry ->
  (forall m, parseChatHistoryEntry now entry = Ret (Some m) ->
             parseJsonlLine now line = Ret (Some m))
  /\ (forall m, parseChatHistoryEntry now entry = Ret None ->
                parseCopilotEventEntry now entry = Some m ->
                parseJsonlLine now line = Ret (Some m))
  /\ (parseChatHistoryEntry now entry = Ret None ->
      parseCopilotEventEntry now entry = None ->
      parseJsonlLine now line = Ret (parseCopilotMessageEntry now entry))
  /\ (parseJsonlLine now line = Ret None <->
      parseChatHistoryEntry now entry = Ret None
      /\ parseCopilotEventEntry now entry = None
      /\ parseCopilotMessageEntry now entry = None).
Proof.
  intros Hblank Hdec.
  assert (Hline : parseJsonlLine now line = parseEntry now entry).
  { unfold parseJsonlLine. now rewrite Hblank, Hdec. }
  rewrite Hline. unfold parseEntry.
  split; [intros m ->; reflexivity|].
  split; [intros m -> ->; reflexivity|].
  split; [intros -> ->; reflexivity|].
  split.
  - destruct (parseChatHistoryEntry now entry) as [[m|]|e]; simpl; try discriminate.
    destruct (parseCopilotEventEntry now entry); simpl; [discriminate|].
    intros Hnone. inversion Hnone. repeat split; reflexivity.
  - intros (-> & -> & ->). reflexivity.
Qed.

End PriorityFacts.

Lemma parseJsonlLine_priority_witness :
  Parser.parseJsonlLine (P := Examples.platform) 1000 (Examples.textOf Examples.bothShapes)
  = Ret (Parser.parseCopilotEventEntry (P := Examples.platform) 1000 Examples.bothShapes).
Proof.
  destruct (Parser.parseCopilotEventEntry (P := Examples.platform) 1000 Examples.bothShapes)
    as [m|] eqn:Hevent; [|vm_compute in Hevent; discriminate].
  apply (parseJsonlLine_priority (P := Examples.platform) 1000
           (Examples.textOf Examples.bothShapes) Examples.bothShapes);
    [vm_compute; reflexivity | vm_compute; reflexivity | vm_compute; reflexivity | exact Hevent].
Defined.

(** C1, as the specification words it, fails: on a record that is both a
    dotted event and a flat message the code returns the event's system
    message, where the flat interpretation, tried first, would return a
    user message. *)
Lemma flat_before_dotted_refuted :
  Reference.kindOf
    (Parser.parseJsonlLine (P := Examples.platform) 1000
       (Examples.textOf Examples.bothShapes)) = Some system
  /\ Reference.kindOf
       (Reference.parseEntry_specOrder (P := Examples.platform) 1000 Examples.bothShapes)
     = Some user
  /\ Parser.parseJsonlLine (P := Examples.platform) 1000
       (Examples.textOf Examples.bothShapes)
     <> Reference.parseEntry_specOrder (P := Examples.platform) 1000 Examples.bothShapes.
Proof.
  split; [vm_compute; reflexivity|].
  split; [vm_compute; reflexivity|].
  vm_compute. discriminate.
Qed.

(** ** Identifiers of synthesized messages *)

Section IdentifierFacts.
Context `{P : Platform}.
Import Parser Reference.

Lemma uuid_buildCopilotMessage params :
  uuid (buildCopilotMessage params) = stableUuid (p_uuidSeed params).
Proof. reflexivity. Qed.

(** A dotted-event message is built by [buildCopilotMessage], from a seed
    that does not depend on the clock. *)
Lemma event_built (now1 now2 : Z) (entry : value) (m1 : ParsedMessage) :
  parseCopilotEventEntry now1 entry = Some m1 ->
  exists p1 p2,
    m1 = buildCopilotMessage p1
    /\ parseCopilotEventEntry now2 entry = Some (buildCopilotMessage p2)
    /\ p_uuidSeed p2 = p_uuidSeed p1.
Proof.
  unfold parseCopilotEventEntry.
  repeat (match goal with
          | |- context [if ?b then _ else _] => destruct b
          | |- context [match ?o with Some _ => _ | None => _ end] =>
              lazymatch o with
              | Some _ => fail
              | None => fail
              | _ => destruct o
              end
          | |- None = Some _ -> _ => discriminate
          | |- Some _ = Some _ -> _ =>
              let H := fresh in
              intros H; injection H as <-; eexists _, _;
              split; [reflexivity|split; reflexivity]
          end).
Qed.

Lemma event_uuid_clock_free (now1 now2 : Z) (entry : value) (m1 : ParsedMessage) :
  parseCopilotEventEntry now1 entry = Some m1 ->
  exists m2, parseCopilotEventEntry now2 entry = Some m2 /\ uuid m2 = uuid m1.
Proof.
  intros Hparse. destruct (event_built now1 now2 entry m1 Hparse) as (p1 & p2 & -> & H2 & Hseed).
  eexists. split; [exact H2|]. rewrite !uuid_buildCopilotMessage. now rewrite Hseed.
Qed.

(** The seed of a flat record, as [parseCopilotMessageEntry] composes it. *)
Lemma flat_uuid (now : Z) (entry : value) (m : ParsedMessage) :
  parseCopilotMessageEntry now entry = Some m ->
  uuid m = stableUuid
    ((asString (prop entry "uuid") ?? asString (prop entry "id"))
     ??! ("copilot-" +:+ (role m ??! "") +:+ "-"
          +:+ ((asString (prop entry "timestamp") ?? asString (prop entry "createdAt")
                ?? asString (prop entry "time")
                ?? asString (prop (prop entry "message") "timestamp"))
               ??! Str.decimal now))).
Proof.
  unfold parseCopilotMessageEntry.
  destruct (negb (isObjectLike entry)); [discriminate|].
  destruct (normalizeRole _) as [r|]; [|discriminate].
  destruct (pickMessageContent (prop entry "content") ?? _) as [c|]; [|discriminate].
  intros H. injection H as <-. reflexivity.
Qed.

Lemma flat_uuid_clock_free (now1 now2 : Z) (entry : value) (m1 : ParsedMessage) :
  hasOwnSeed entry = true ->
  parseCopilotMessageEntry now1 entry = Some m1 ->
  exists m2, parseCopilotMessageEntry now2 entry = Some m2 /\ uuid m2 = uuid m1.
Proof.
  intros Hseed Hparse.
  assert (Hsome : exists m2, parseCopilotMessageEntry now2 entry = Some m2
                             /\ role m2 = role m1).
  { revert Hparse. unfold parseCopilotMessageEntry.
    destruct (negb (isObjectLike entry)); [discriminate|].
    destruct (normalizeRole _) as [r|]; [|discriminate].
    destruct (pickMessageContent (prop entry "content") ?? _) as [c|]; [|discriminate].
    intros H. injection H as <-. eexists. split; reflexivity. }
  destruct Hsome as (m2 & Hparse2 & Hrole).
  exists m2. split; [assumption|].
  rewrite (flat_uuid _ _ _ Hparse), (flat_uuid _ _ _ Hparse2), Hrole.
  unfold hasOwnSeed in Hseed. apply bool_decide_eq_true in Hseed.
  destruct (asString (prop entry "uuid")) as [u|]; [reflexivity|].
  destruct (asString (prop entry "id")) as [i|]; [reflexivity|].
  simpl in Hseed. destruct Hseed as [ts Hts].
  simpl. now rewrite Hts.
Qed.

(** C5, as the code has it.  The identifier of a synthesized message is the
    digest prefix of a seed string.  For a dotted-event record it is the
    same at every clock reading.  For a flat record it is the same at every
    clock reading when the record has a string [uuid], [id], [timestamp],
    [createdAt], [time] or [message.timestamp]; a flat record with none of
    them is seeded with [copilot-<role>-<Date.now()>]. *)
Theorem synthesized_identifier_seed (now1 now2 : Z) (entry : value) (m1 : ParsedMessage) :
  (parseCopilotEventEntry now1 entry = Some m1 ->
   exists m2, parseCopilotEventEntry now2 entry = Some m2 /\ uuid m2 = uuid m1)
  /\ (hasOwnSeed entry = true ->
      parseCopilotMessageEntry now1 entry = Some m1 ->
      exists m2, parseCopilotMessageEntry now2 entry = Some m2 /\ uuid m2 = uuid m1)
  /\ (hasOwnSeed entry = false ->
      parseCopilotMessageEntry now1 entry = Some m1 ->
      uuid m1 = stableUuid ("copilot-" +:+ (role m1 ??! "") +:+ "-" +:+ Str.decimal now1)).
Proof.
  split; [apply event_uuid_clock_free|].
  split; [apply flat_uuid_clock_free|].
  intros Hseed Hparse. rewrite (flat_uuid _ _ _ Hparse).
  unfold hasOwnSeed in Hseed. apply bool_decide_eq_false in Hseed.
  destruct (asString (prop entry "uuid")) as [u|]; [exfalso; apply Hseed; simpl; eauto|].
  destruct (asString (prop entry "id")) as [i|]; [exfalso; apply Hseed; simpl; eauto|].
  simpl in *.
  destruct (_ ?? _) as [ts|]; [exfalso; apply Hseed; eauto|reflexivity].
Qed.

End IdentifierFacts.

Lemma synthesized_identifier_seed_witness :
  (exists m2, Parser.parseCopilotEventEntry (P := Examples.platform) 2000 Examples.userEvent
              = Some m2
              /\ Some (uuid m2)
                 = uuid <$> Parser.parseCopilotEventEntry (P := Examples.platform) 1000
                              Examples.userEvent)
  /\ (exists m2, Parser.parseCopilotMessageEntry (P := Examples.platform) 2000
                   Examples.flatWithId = Some m2
                 /\ Some (uuid m2)
                    = uuid <$> Parser.parseCopilotMessageEntry (P := Examples.platform) 1000
                                 Examples.flatWithId)
  /\ uuid <$> Parser.parseCopilotMessageEntry (P := Examples.platform) 1000 Examples.bareFlat
     = Some (Parser.stableUuid "copilot-user-1000").
Proof.
  destruct (Parser.parseCopilotEventEntry (P := Examples.platform) 1000 Examples.userEvent)
    as [e1|] eqn:He1; [|vm_compute in He1; discriminate].
  destruct (Parser.parseCopilotMessageEntry (P := Examples.platform) 1000 Examples.flatWithId)
    as [f1|] eqn:Hf1; [|vm_compute in Hf1; discriminate].
  destruct (Parser.parseCopilotMessageEntry (P := Examples.platform) 1000 Examples.bareFlat)
    as [b1|] eqn:Hb1; [|vm_compute in Hb1; discriminate].
  split; [|split].
  - destruct (proj1 (synthesized_identifier_seed (P := Examples.platform) 1000 2000
                       Examples.userEvent e1) He1) as (m2 & H2 & Hid).
    exists m2. split; [exact H2|]. simpl. now rewrite Hid.
  - destruct (proj1 (proj2 (synthesized_identifier_seed (P := Examples.platform) 1000 2000
                              Examples.flatWithId f1)) eq_refl Hf1) as (m2 & H2 & Hid).
    exists m2. split; [exact H2|]. simpl. now rewrite Hid.
  - simpl. f_equal.
    rewrite (proj2 (proj2 (synthesized_identifier_seed (P := Examples.platform) 1000 2000
                             Examples.bareFlat b1)) eq_refl Hb1).
    vm_compute in Hb1. injection Hb1 as <-. reflexivity.
Defined.

(** C5, as the specification words it, fails: the same flat record, parsed
    at two clock readings, gets two identifiers. *)
Lemma same_bytes_two_identifiers :
  Reference.idOf (Parser.parseJsonlLine (P := Examples.platform) 1000
                    (Examples.textOf Examples.bareFlat))
  = Some "384996f328fc7a614d3334a7"
  /\ Reference.idOf (Parser.parseJsonlLine (P := Examples.platform) 2000
                       (Examples.textOf Examples.bareFlat))
     = Some "8254c2565ba8d433d06dc9e1"
  /\ Reference.idOf (Parser.parseJsonlLine (P := Examples.platform) 1000
                       (Examples.textOf Examples.bareFlat))
     <> Reference.idOf (Parser.parseJsonlLine (P := Examples.platform) 2000
                          (Examples.textOf Examples.bareFlat)).
Proof.
  split; [vm_compute; reflexivity|].
  split; [vm_compute; reflexivity|].
  vm_compute. discriminate.
Qed.

(** ** The whole-document fallback *)

Section FallbackFacts.
Context `{P : Platform}.
Import Parser Reference.

(** C6, as the code has it.  When the lines of an existing file yield no
    message, [parseJsonlFile] loads the whole document if the path ends in
    [.json] (in any letter case) and returns no message otherwise; the
    loaded document is dispatched on its shape: an array, else an object
    with a [messages] array, else with a [requests] array, else with a
    [turns] array, else a single message-shaped object, and a document
    that does not decode gives no message. *)
Theorem parseJsonlFile_fallback (clock : nat -> Z) (filePath : string)
  (fsProvider : FileSystemProvider) :
  fs_exists fsProvider filePath = true ->
  parseLines clock 0 (fs_lines fsProvider filePath) = [] ->
  (Str.endsWith ".json" (Str.toLowerCase filePath) = true ->
   parseJsonlFile clock filePath fsProvider = parseCopilotJsonFile clock filePath fsProvider)
  /\ (Str.endsWith ".json" (Str.toLowerCase filePath) = false ->
      parseJsonlFile clock filePath fsProvider = [])
  /\ match JSON_parse (fs_readFile fsProvider filePath) with
     | None => parseCopilotJsonFile clock filePath fsProvider = []
     | Some (VArr xs) =>
         parseCopilotJsonFile clock filePath fsProvider = parseCopilotMessageArray clock xs
     | Some (VObj fs) =>
         let obj := VObj fs in
         let result := parseCopilotJsonFile clock filePath fsProvider in
         (forall xs, prop obj "messages" = VArr xs ->
                     result = parseCopilotMessageArray clock xs)
         /\ (forall xs, isArray (prop obj "messages") = false ->
                        prop obj "requests" = VArr xs ->
                        result = parseCopilotRequestArray clock xs)
         /\ (forall xs, isArray (prop obj "messages") = false ->
                        isArray (prop obj "requests") = false ->
                        prop obj "turns" = VArr xs ->
                        result = parseCopilotRequestArray clock xs)
         /\ (isArray (prop obj "messages") = false ->
             isArray (prop obj "requests") = false ->
             isArray (prop obj "turns") = false ->
             result = match parseCopilotMessageEntry (clock O) obj with
                      | Some single => [single]
                      | None => []
                      end)
     | Some _ => parseCopilotJsonFile clock filePath fsProvider = []
     end.
Proof.
  intros Hexists Hnone.
  split; [|split].
  - intros Hjson. unfold parseJsonlFile. now rewrite Hexists, Hnone, Hjson.
  - intros Hjson. unfold parseJsonlFile. now rewrite Hexists, Hnone, Hjson.
  - unfold parseCopilotJsonFile.
    destruct (JSON_parse (fs_readFile fsProvider filePath)) as [[| |b|n|s0|xs|fs]|];
      try reflexivity.
    unfold parseCopilotTranscript. simpl negb. cbv iota.
    repeat split.
    + intros xs ->. reflexivity.
    + intros xs Hm ->. destruct (prop (VObj fs) "messages"); try discriminate; reflexivity.
    + intros xs Hm Hr ->.
      destruct (prop (VObj fs) "messages"); try discriminate;
        destruct (prop (VObj fs) "requests"); try discriminate; reflexivity.
    + intros Hm Hr Ht.
      destruct (prop (VObj fs) "messages"); try discriminate;
        destruct (prop (VObj fs) "requests"); try discriminate;
        destruct (prop (VObj fs) "turns"); try discriminate; reflexivity.
Qed.

End FallbackFacts.

Lemma parseJsonlFile_fallback_witness :
  Parser.parseJsonlFile (P := Examples.platform) (fun _ => 5) "s.json"
    (Examples.oneFile "s.json" Examples.twoLineDoc)
  = Parser.parseCopilotJsonFile (P := Examples.platform) (fun _ => 5) "s.json"
      (Examples.oneFile "s.json" Examples.twoLineDoc).
Proof.
  apply (parseJsonlFile_fallback (P := Examples.platform) (fun _ => 5) "s.json"
           (Examples.oneFile "s.json" Examples.twoLineDoc));
    vm_compute; reflexivity.
Defined.

(** C6, as the specification words it, fails: every line of [s.jsonl] is
    rejected and the document as a whole is a one-message array, yet
    without the [.json] suffix the document is never loaded. *)
Lemma no_fallback_without_json_suffix :
  Parser.parseLines (P := Examples.platform) (fun _ => 5) 0
    (Parser.fs_lines (Examples.oneFile "s.jsonl" Examples.twoLineDoc) "s.jsonl") = []
  /\ Parser.parseJsonlFile (P := Examples.platform) (fun _ => 5) "s.jsonl"
       (Examples.oneFile "s.jsonl" Examples.twoLineDoc) = []
  /\ length (Parser.parseCopilotJsonFile (P := Examples.platform) (fun _ => 5) "s.jsonl"
               (Examples.oneFile "s.jsonl" Examples.twoLineDoc)) = 1%nat
  /\ Parser.parseJsonlFile (P := Examples.platform) (fun _ => 5) "s.jsonl"
       (Examples.oneFile "s.jsonl" Examples.twoLineDoc)
     <> Parser.parseCopilotJsonFile (P := Examples.platform) (fun _ => 5) "s.jsonl"
          (Examples.oneFile "s.jsonl" Examples.twoLineDoc).
Proof.
  repeat split; try (vm_compute; reflexivity).
  vm_compute. discriminate.
Qed.

(** ** Parent-chain synthesis *)

Section ChainFacts.
Context `{P : Platform}.
Import Parser Reference.




Lemma uuid_assignFrom (ms : list ParsedMessage) : forall prev,
  uuid <$> assignFrom prev ms = uuid <$> ms.
Proof.
  induction ms as [|m ms IH]; intros prev; simpl; [reflexivity|].
  now rewrite IH.
Qed.

(** *** Sorting by time *)

Lemma Forall_insertByTime (Q : ParsedMessage -> Prop) m l :
  Q m -> Forall Q l -> Forall Q (insertByTime m l).
Proof.
  intros Hm. induction 1 as [|x r Hx Hr IH]; simpl.
  - now repeat constructor.
  - destruct (compareTime m x <=? 0); repeat constructor; assumption.
Qed.

Lemma Forall_sortByTime (Q : ParsedMessage -> Prop) l :
  Forall Q l -> Forall Q (sortByTime l).
Proof.
  induction 1 as [|x r Hx Hr IH]; simpl; [constructor|].
  now apply Forall_insertByTime.
Qed.









(** *** Walking the links *)








End ChainFacts.



(** ** The context window of a match *)

Section SearchFacts.
Import Search Reference.

Variable findMarkdownSearchMatches : string -> string -> list MarkdownMatch.
Variable extractMarkdownPlainText : string -> string.

Lemma pushMatches_appends (mk : MarkdownMatch -> SearchResult) (maxResults : Z)
  (mdMatches : list MarkdownMatch) : forall results,
  exists added,
    pushMatches mk maxResults mdMatches results = results ++ added
    /\ Forall (fun r => exists mdMatch, r = mk mdMatch) added.
Proof.
  induction mdMatches as [|mdMatch rest IH]; intros results; simpl.
  - exists []. split; [now rewrite app_nil_r|constructor].
  - destruct (Z.of_nat (length results) >=? maxResults).
    + exists []. split; [now rewrite app_nil_r|constructor].
    + destruct (IH (results ++ [mk mdMatch])) as (added & -> & Hall).
      exists (mk mdMatch :: added). split; [now rewrite <- app_assoc|].
      constructor; [now exists mdMatch|assumption].
Qed.

Lemma resultFor_window entry query plainText lowerPlain pid sid title mdMatch :
  let r := resultFor entry query plainText lowerPlain pid sid title mdMatch in
  isWindow plainText (matchStartOffset r) (Str.len query) (context r).
Proof.
  intros r. subst r. unfold isWindow, resultFor. cbn [context matchStartOffset].
  set (offset := if _ >=? 0 then _ else 0).
  fold (windowStart offset). fold (windowEnd plainText offset (Str.len query)).
  eexists _, _. split; [reflexivity|].
  split.
  - destruct (windowStart offset >? 0) eqn:Hs.
    + left. split; [lia|reflexivity].
    + right. split; [unfold windowStart in *; lia|reflexivity].
  - destruct (windowEnd plainText offset (Str.len query) <? Str.len plainText) eqn:He.
    + left. split; [lia|reflexivity].
    + right. split; [unfold windowEnd in *; lia|reflexivity].
Qed.

(** C7.  Every result [collectMatchesForEntry] appends carries as context
    the slice of the plain text from [max(0, offset - 50)] to
    [min(length, offset + queryLength + 50)], where [offset] is the
    result's [matchStartOffset], with an ellipsis in front exactly when the
    slice starts after position 0 and one behind exactly when it ends before
    the end of the text.  For the text [The quick brown fox], which has no
    markup and in which the markdown layer reports one match, and the query
    [quick], the one result has [matchedText] [quick] and
    [matchStartOffset] 4. *)
Theorem collectMatches_context (entry : SearchableEntry) (query : string)
  (results : list SearchResult) (maxResults : Z) (pid sid : string) (title : option string) :
  (exists added,
     collectMatchesForEntry findMarkdownSearchMatches extractMarkdownPlainText
       entry query results maxResults pid sid title = results ++ added
     /\ Forall (fun r => isWindow (extractMarkdownPlainText (text entry))
                           (matchStartOffset r) (Str.len query) (context r)) added)
  /\ (text entry = "The quick brown fox" ->
      extractMarkdownPlainText "The quick brown fox" = "The quick brown fox" ->
      findMarkdownSearchMatches "The quick brown fox" "quick" = [mkMatch 0] ->
      0 < maxResults ->
      exists r,
        collectMatchesForEntry findMarkdownSearchMatches extractMarkdownPlainText
          entry "quick" [] maxResults pid sid title = [r]
        /\ matchedText r = "quick" /\ matchStartOffset r = 4
        /\ context r = "The quick brown fox").
Proof.
  split.
  - unfold collectMatchesForEntry.
    destruct (length _ =? 0)%nat.
    + exists []. split; [now rewrite app_nil_r|constructor].
    + match goal with
      | |- context [pushMatches ?mk ?n ?ms ?rs] =>
          destruct (pushMatches_appends mk n ms rs) as (added & -> & Hall)
      end.
      exists added. split; [reflexivity|].
      eapply Forall_impl; [exact Hall|].
      intros r [mdMatch ->]. apply resultFor_window.
  - intros Htext Hplain Hfind Hmax.
    unfold collectMatchesForEntry. rewrite Htext, Hfind, Hplain.
    cbn [length Nat.eqb pushMatches app].
    destruct (Z.of_nat 0 >=? maxResults) eqn:Hfull;
      [apply Z.geb_le in Hfull; simpl in Hfull; lia|].
    eexists. split; [reflexivity|].
    repeat split; vm_compute; reflexivity.
Qed.

End SearchFacts.

Lemma collectMatches_context_witness :
  exists r,
    Search.collectMatchesForEntry Examples.plainFind Examples.plainText
      Examples.foxEntry "quick" [] 50 "project" "session" None = [r]
    /\ Search.matchedText r = "quick" /\ Search.matchStartOffset r = 4
    /\ Search.context r = "The quick brown fox".
Proof.
  apply (collectMatches_context Examples.plainFind Examples.plainText
           Examples.foxEntry "quick" [] 50 "project" "session" None);
    [reflexivity | reflexivity | vm_compute; reflexivity | lia].
Defined.

(** ** Synthesized messages carry no usage *)

Section SynthesizedFacts.
Context `{P : Platform}.
Import Parser Metrics Analyzer Reference.

Lemma synthesized_build params : synthesized (buildCopilotMessage params).
Proof. repeat split. Qed.

Lemma synthesized_assignFrom (ms : list ParsedMessage) : forall prev,
  Forall synthesized ms -> Forall synthesized (assignFrom prev ms).
Proof.
  induction ms as [|m ms IH]; intros prev Hall; simpl; [constructor|].
  apply Forall_cons in Hall as [Hm Hall]. constructor; [exact Hm|now apply IH].
Qed.

Lemma synthesized_event now entry m :
  parseCopilotEventEntry now entry = Some m -> synthesized m.
Proof.
  intros H. destruct (event_built now now entry m H) as (p1 & _ & -> & _).
  apply synthesized_build.
Qed.

Lemma synthesized_flat now entry m :
  parseCopilotMessageEntry now entry = Some m -> synthesized m.
Proof.
  unfold parseCopilotMessageEntry.
  destruct (negb (isObjectLike entry)); [discriminate|].
  destruct (normalizeRole _) as [r|]; [|discriminate].
  destruct (pickMessageContent (prop entry "content") ?? _) as [c|]; [|discriminate].
  intros H. injection H as <-. apply synthesized_build.
Qed.

Lemma synthesized_messageArray clock items :
  Forall synthesized (parseCopilotMessageArray clock items).
Proof.
  apply synthesized_assignFrom. apply Forall_forall. intros m Hm.
  apply list_elem_of_omap in Hm as (o & Ho & Hsome). simpl in Hsome. subst o.
  apply elem_of_lookup_imap in Ho as (i & item & Heq & _).
  symmetry in Heq. now apply synthesized_flat in Heq.
Qed.

Lemma synthesized_requestMessages now index item :
  Forall synthesized (requestMessages now index item).
Proof.
  unfold requestMessages.
  destruct (negb (isObjectLike item)); [constructor|].
  apply Forall_app. split.
  - destruct (asString (prop item "prompt") ?? _) as [t|]; [|constructor].
    destruct (isBlank t); repeat constructor.
  - destruct (asString (prop item "response") ?? _) as [t|]; [|constructor].
    destruct (isBlank t); repeat constructor.
Qed.

Lemma synthesized_requestArray clock items :
  Forall synthesized (parseCopilotRequestArray clock items).
Proof.
  apply synthesized_assignFrom, Forall_sortByTime, Forall_concat, Forall_forall.
  intros l Hl. apply elem_of_lookup_imap in Hl as (i & item & -> & _).
  apply synthesized_requestMessages.
Qed.

Lemma synthesized_transcript clock doc :
  Forall synthesized (parseCopilotTranscript clock doc).
Proof.
  unfold parseCopilotTranscript.
  destruct (negb (isObjectLike doc)); [constructor|].
  destruct doc as [| |b|n|s|xs|fs]; try constructor;
    try apply synthesized_messageArray.
  - destruct (prop (VObj fs) "messages");
      try apply synthesized_messageArray;
      destruct (prop (VObj fs) "requests");
      try apply synthesized_requestArray;
      destruct (prop (VObj fs) "turns");
      try apply synthesized_requestArray;
      (destruct (parseCopilotMessageEntry (clock 0%nat) (VObj fs)) as [m|] eqn:Hm;
       [constructor; [now apply synthesized_flat in Hm|constructor]|constructor]).
Qed.

(** Messages without usage add nothing to the counters. *)
Lemma usageTotals_synthesized (ms : list ParsedMessage) :
  Forall synthesized ms -> usageTotals ms = zeroCounters.
Proof.
  unfold usageTotals. generalize zeroCounters.
  induction ms as [|m ms IH]; intros acc Hall; simpl; [reflexivity|].
  apply Forall_cons in Hall as [(Hu & _) Hall].
  unfold addUsage at 2. rewrite Hu. now apply IH.
Qed.

(** A line that does not go through the structured interpretation leaves
    the context tracker as it is. *)
Lemma step_unstructured now (st : State) (line : string) :
  (forall entry, JSON_parse (Str.trim line) = Some entry ->
                 parseChatHistoryEntry now entry = Ret None) ->
  exists st', step now st line = Ret st' /\ ctx st' = ctx st.
Proof.
  intros Hflat. unfold step, lineKind.
  destruct (String.eqb (Str.trim line) ""); [eexists; split; reflexivity|].
  destruct (JSON_parse (Str.trim line)) as [entry|]; [|eexists; split; reflexivity].
  specialize (Hflat entry eq_refl).
  unfold get. destruct (isNullish entry) eqn:Hnull.
  { exfalso. unfold parseChatHistoryEntry, get in Hflat. rewrite Hnull in Hflat.
    discriminate. }
  simpl. destruct (Str.includes "." _); simpl.
  - eexists. split; reflexivity.
  - rewrite Hflat. simpl. eexists. split; reflexivity.
Qed.

Lemma run_unstructured clock (lines : list string) : forall index (st : State),
  (forall i line entry, lines !! i = Some line ->
                        JSON_parse (Str.trim line) = Some entry ->
                        parseChatHistoryEntry (clock (index + i)%nat) entry = Ret None) ->
  exists st', run clock index st lines = Ret st' /\ ctx st' = ctx st.
Proof.
  induction lines as [|line rest IH]; intros index st Hflat; simpl.
  - now exists st.
  - destruct (step_unstructured (clock index) st line) as (st1 & -> & Hctx).
    { intros entry Hdec. specialize (Hflat O line entry eq_refl Hdec).
      now rewrite Nat.add_0_r in Hflat. }
    simpl. destruct (IH (S index) st1) as (st' & -> & Hctx').
    { intros i l e Hl He. specialize (Hflat (S i) l e Hl He).
      now replace (S index + i)%nat with (index + S i)%nat by lia. }
    exists st'. split; [reflexivity|congruence].
Qed.

Lemma parseLines_unstructured clock (lines : list string) : forall index,
  (forall i line entry, lines !! i = Some line ->
                        JSON_parse line = Some entry ->
                        parseChatHistoryEntry (clock (index + i)%nat) entry = Ret None) ->
  Forall synthesized (parseLines clock index lines).
Proof.
  induction lines as [|line rest IH]; intros index Hflat; simpl; [constructor|].
  assert (Hrest : Forall synthesized (parseLines clock (S index) rest)).
  { apply IH. intros i l e Hl He. specialize (Hflat (S i) l e Hl He).
    now replace (S index + i)%nat with (index + S i)%nat by lia. }
  destruct (isBlank line) eqn:Hblank; [exact Hrest|].
  unfold parseJsonlLine. rewrite Hblank.
  destruct (JSON_parse line) as [entry|] eqn:Hdec; [|exact Hrest].
  specialize (Hflat O line entry eq_refl Hdec). rewrite Nat.add_0_r in Hflat.
  unfold parseEntry. rewrite Hflat. simpl.
  destruct (parseCopilotEventEntry (clock index) entry) as [m|] eqn:Hevent; simpl.
  - constructor; [now apply synthesized_event in Hevent|exact Hrest].
  - destruct (parseCopilotMessageEntry (clock index) entry) as [m|] eqn:Hmsg; simpl;
      [|exact Hrest].
    constructor; [now apply synthesized_flat in Hmsg|exact Hrest].
Qed.

Lemma analyze_run clock (filePath : string) (fsProvider : FileSystemProvider)
  (meta : SessionFileMetadata) :
  analyzeSessionFileMetadata clock filePath fsProvider = Ret meta ->
  exists st, run clock 0 initial (linesRead fsProvider filePath) = Ret st
             /\ meta = summarize st.
Proof.
  unfold analyzeSessionFileMetadata, linesRead.
  destruct (fs_exists fsProvider filePath); simpl.
  - destruct (run clock 0 initial (fs_lines fsProvider filePath)) as [st|e]; [|discriminate].
    intros [= <-]. now exists st.
  - intros [= <-]. now exists initial.
Qed.

(** C9.  Every message built by [buildCopilotMessage], hence every message
    of the dotted event-name, flat role/content and whole-document
    transcript paths, has no usage and is neither sidechain, meta nor
    compact summary.  Consequently a file none of whose records goes through
    the structured interpretation gives zero for the four token counters of
    [calculateMetrics], and [analyzeSessionFileMetadata], run over such a
    file, completes without ever opening a compaction phase. *)
Theorem synthesized_messages_have_no_usage (clock : nat -> Z) (now : Z)
  (params : CopilotParams) (entry doc : value) (filePath : string)
  (fsProvider : FileSystemProvider) :
  synthesized (buildCopilotMessage params)
  /\ (forall m, parseCopilotEventEntry now entry = Some m -> synthesized m)
  /\ (forall m, parseCopilotMessageEntry now entry = Some m -> synthesized m)
  /\ Forall synthesized (parseCopilotTranscript clock doc)
  /\ ((forall i line e, fs_lines fsProvider filePath !! i = Some line ->
                        JSON_parse line = Some e ->
                        parseChatHistoryEntry (clock i) e = Ret None) ->
      let metrics := calculateMetrics (parseJsonlFile clock filePath fsProvider) in
      inputTokens metrics = 0 /\ outputTokens metrics = 0
      /\ cacheReadTokens metrics = 0 /\ cacheCreationTokens metrics = 0)
  /\ ((forall i line e, fs_lines fsProvider filePath !! i = Some line ->
                        JSON_parse (Str.trim line) = Some e ->
                        parseChatHistoryEntry (clock i) e = Ret None) ->
      exists st,
        run clock 0 initial (linesRead fsProvider filePath) = Ret st
        /\ analyzeSessionFileMetadata clock filePath fsProvider = Ret (summarize st)
        /\ compactionPhases (ctx st) = []
        /\ compactionCount (summarize st) = None).
Proof.
  split; [apply synthesized_build|].
  split; [intros m; apply synthesized_event|].
  split; [intros m; apply synthesized_flat|].
  split; [apply synthesized_transcript|].
  split.
  - intros Hflat metrics. subst metrics.
    assert (Hall : Forall synthesized (parseJsonlFile clock filePath fsProvider)).
    { unfold parseJsonlFile.
      destruct (negb (fs_exists fsProvider filePath)); [constructor|].
      destruct (_ && _).
      - unfold parseCopilotJsonFile.
        destruct (JSON_parse _); [apply synthesized_transcript|constructor].
      - unfold consolidateCopilotDeltas.
        destruct (existsb _ _);
          [apply synthesized_assignFrom|]; now apply parseLines_unstructured. }
    destruct (calculateMetrics_counters (parseJsonlFile clock filePath fsProvider))
      as (-> & -> & -> & -> & _).
    rewrite (usageTotals_synthesized _ Hall). repeat split.
  - intros Hflat. unfold analyzeSessionFileMetadata, linesRead.
    destruct (fs_exists fsProvider filePath); simpl.
    + destruct (run_unstructured clock (fs_lines fsProvider filePath) 0 initial)
        as (st & Hrun & Hctx); [exact Hflat|].
      exists st. rewrite Hrun. split; [reflexivity|]. split; [reflexivity|].
      unfold summarize. cbn [compactionCount]. rewrite Hctx. now split.
    + exists initial. repeat split.
Qed.

End SynthesizedFacts.

Lemma synthesized_messages_witness :
  Metrics.inputTokens
    (Metrics.calculateMetrics
       (Parser.parseJsonlFile (P := Examples.platform) (fun _ => 5) "s.jsonl"
          (Examples.oneFile "s.jsonl"
             [Examples.textOf Examples.userEvent; Examples.textOf Examples.flatWithId]))) = 0
  /\ exists st,
       Analyzer.analyzeSessionFileMetadata (H := Examples.platform) (fun _ => 5) "s.jsonl"
         (Examples.oneFile "s.jsonl"
            [Examples.textOf Examples.userEvent; Examples.textOf Examples.flatWithId])
       = Ret (Analyzer.summarize st)
       /\ Analyzer.compactionPhases (Analyzer.ctx st) = [].
Proof.
  pose proof (synthesized_messages_have_no_usage (P := Examples.platform) (fun _ => 5) 5
                (Parser.mkParams Parser.RUser (VStr "hi") 5 "seed" None None)
                Examples.userEvent (VArr [Examples.bareFlat]) "s.jsonl"
                (Examples.oneFile "s.jsonl"
                   [Examples.textOf Examples.userEvent; Examples.textOf Examples.flatWithId]))
    as (_ & _ & _ & _ & Hmetrics & Hphases).
  split.
  - apply Hmetrics.
    intros [|[|i]] line e Hline Hdec; try discriminate;
      vm_compute in Hline; injection Hline as <-;
      vm_compute in Hdec; injection Hdec as <-; vm_compute; reflexivity.
  - destruct Hphases as (st & _ & Hmeta & Hnone & _).
    + intros [|[|i]] line e Hline Hdec; try discriminate;
        vm_compute in Hline; injection Hline as <-;
        vm_compute in Hdec; injection Hdec as <-; vm_compute; reflexivity.
    + exists st. split; assumption.
Defined.

(** ** The liveness state machine *)

Section LivenessFacts.
Context `{P : Platform}.
Import Parser Analyzer Reference.

(** A run is its decoded lines, the log of their activities and the fold of
    the two trackers over them. *)
Lemma run_decompose clock (lines : list string) : forall index (st st' : State),
  run clock index st lines = Ret st' ->
  exists ks log,
    kinds clock index lines = Ret ks
    /\ activitiesOf (shutdownToolIds st) ks = Ret log
    /\ live st' = foldl record (live st) log
    /\ ctx st' = foldl (fun c k => kindContext k c) (ctx st) ks.
Proof.
  induction lines as [|line rest IH]; intros index st st' Hrun; simpl in Hrun.
  - injection Hrun as <-. exists [], []. repeat split.
  - unfold step in Hrun.
    destruct (lineKind (clock index) line) as [k|e] eqn:Hk; [|discriminate].
    simpl in Hrun.
    destruct (kindActivities (shutdownToolIds st) k) as [[acts ids']|e] eqn:Ha;
      [|discriminate].
    simpl in Hrun.
    apply IH in Hrun as (ks & log & Hks & Hlog & Hlive & Hctx). simpl in *.
    exists (k :: ks), (acts ++ log). simpl. rewrite Hk. simpl. rewrite Hks. simpl.
    rewrite Ha. simpl. rewrite Hlog. simpl.
    repeat split; [now rewrite foldl_app|assumption].
Qed.

Lemma lookup_snoc_Some {A} (l : list A) (a b : A) (i : nat) :
  (l ++ [a]) !! i = Some b <-> l !! i = Some b \/ (i = length l /\ a = b).
Proof.
  destruct (decide (i < length l)%nat) as [Hlt|Hge].
  - rewrite lookup_app_l by assumption. split; [now left|].
    intros [H|[-> _]]; [assumption|lia].
  - rewrite lookup_app_r by lia.
    destruct (decide (i = length l)) as [->|Hne].
    + rewrite Nat.sub_diag. simpl. split.
      * intros [= ->]. now right.
      * intros [H|[_ ->]]; [|reflexivity].
        apply lookup_lt_Some in H. lia.
    + replace (i - length l)%nat with (S (i - length l - 1))%nat by lia. simpl.
      split; [discriminate|].
      intros [H|[-> _]]; [|lia]. apply lookup_lt_Some in H. lia.
Qed.

Lemma tracks_nil : tracks [] (live initial).
Proof.
  repeat split; simpl.
  - left. split; [reflexivity|]. intros i. now rewrite lookup_nil.
  - discriminate.
  - intros [j Hj]. now rewrite lookup_nil in Hj.
  - discriminate.
  - intros (e & j & He & _). lia.
Qed.

Lemma tracks_snoc log s a : tracks log s -> tracks (log ++ [a]) (record s a).
Proof.
  intros (Hidx & Hlast & Hany & Hafter).
  assert (Hbound : forall e, lastEndingIndex s = Z.of_nat e -> (e < length log)%nat).
  { intros e He. destruct Hlast as [[Hm _]|(e' & He' & Hlook & _)]; [lia|].
    apply lookup_lt_Some in Hlook. lia. }
  destruct a; unfold record, markOngoing, markEnding;
    cbn [activityIndex lastEndingIndex hasAnyOngoingActivity hasActivityAfterLastEnding].
  - (* an ongoing event *)
    split; [simpl; rewrite length_app; simpl; lia|].
    split; [|split].
    + destruct Hlast as [[Hm Hno]|(e & He & Hlook & Hno)].
      * left. split; [assumption|]. intros i Hi.
        apply lookup_snoc_Some in Hi as [Hi|[_ Hi]]; [now apply (Hno i)|discriminate].
      * right. exists e. split; [assumption|]. split.
        { apply lookup_snoc_Some. now left. }
        intros k Hk Hi.
        apply lookup_snoc_Some in Hi as [Hi|[_ Hi]]; [now apply (Hno k)|discriminate].
    + split; [|reflexivity]. intros _. exists (length log).
      apply lookup_snoc_Some. now right.
    + destruct (lastEndingIndex s >=? 0) eqn:Hge;
        cbn [lastEndingIndex hasActivityAfterLastEnding].
      * split; [|reflexivity]. intros _.
        apply Z.geb_le in Hge.
        exists (Z.to_nat (lastEndingIndex s)), (length log).
        split; [lia|]. split; [apply Hbound; lia|].
        apply lookup_snoc_Some. now right.
      * rewrite Hafter. rewrite Z.geb_leb in Hge. apply Z.leb_gt in Hge.
        split; intros (e & j & He & _); lia.
  - (* an ending event *)
    split; [simpl; rewrite length_app; simpl; lia|].
    split; [|split].
    + right. exists (length log). split; [assumption|]. split.
      * apply lookup_snoc_Some. now right.
      * intros k Hk Hi. apply lookup_lt_Some in Hi.
        rewrite length_app in Hi. simpl in Hi. lia.
    + rewrite Hany. split; intros [j Hj]; exists j.
      * apply lookup_snoc_Some. now left.
      * apply lookup_snoc_Some in Hj as [Hj|[_ Hj]]; [assumption|discriminate].
    + split; [discriminate|].
      intros (e & j & He & Hlt & Hj). cbn in He. exfalso.
      apply lookup_lt_Some in Hj. rewrite length_app in Hj. simpl in Hj. lia.
Qed.

Lemma tracks_foldl (log : list Activity) : tracks log (foldl record (live initial) log).
Proof.
  induction log as [|a log IH] using rev_ind; [apply tracks_nil|].
  rewrite foldl_app. simpl. now apply tracks_snoc.
Qed.

(** The flag computed from the scalars is the rule of the specification
    read on the log. *)
Lemma tracks_ongoing log s :
  tracks log s ->
  (if lastEndingIndex s =? -1 then hasAnyOngoingActivity s
   else hasActivityAfterLastEnding s) = true <-> spec_ongoing log.
Proof.
  intros (Hidx & Hlast & Hany & Hafter). unfold spec_ongoing.
  destruct Hlast as [[Hm Hno]|(e & He & Hlook & Hno)].
  - rewrite Hm. simpl. rewrite Hany. split.
    + intros Hj. left. now split.
    + intros [[_ Hj]|(e & j & Hlook & _)]; [assumption|]. now apply Hno in Hlook.
  - replace (lastEndingIndex s =? -1) with false by (symmetry; apply Z.eqb_neq; lia).
    rewrite Hafter. split.
    + intros (e' & j & He' & Hlt & Hj). right. exists e, j.
      assert (e' = e) as -> by lia. repeat split; assumption.
    + intros [[Hnone _]|(e' & j & Hlook' & Hno' & Hlt & Hj)];
        [now apply Hnone in Hlook|].
      exists e, j. split; [assumption|]. split; [|assumption].
      destruct (decide (e' < e)%nat) as [Hl|Hl]; [now apply Hno' in Hlook|].
      destruct (decide (e < e')%nat) as [Hg|Hg]; [now apply Hno in Hlook'|].
      lia.
Qed.

Lemma classify_tool_start (entry : value) :
  classifyEvent "tool.execution_start" entry = Some Ongoing.
Proof. vm_compute. reflexivity. Qed.

(** C4.  When [analyzeSessionFileMetadata] completes, its [isOngoing] flag
    is true exactly when, in the log of the events it classified, either
    there is no ending event and at least one ongoing event, or an ongoing
    event lies strictly after the last ending event; the activity index
    counts the log.  In particular a file whose only record is a
    [tool.execution_start] event is classified ongoing. *)
Theorem isOngoing_follows_liveness_rule (clock : nat -> Z) (filePath : string)
  (fsProvider : FileSystemProvider) :
  (forall meta, analyzeSessionFileMetadata clock filePath fsProvider = Ret meta ->
     exists st ks log,
       run clock 0 initial (linesRead fsProvider filePath) = Ret st
       /\ meta = summarize st
       /\ kinds clock 0 (linesRead fsProvider filePath) = Ret ks
       /\ activitiesOf ∅ ks = Ret log
       /\ activityIndex (live st) = Z.of_nat (length log)
       /\ (isOngoing meta = true <-> spec_ongoing log))
  /\ (forall line entry,
        fs_exists fsProvider filePath = true ->
        fs_lines fsProvider filePath = [line] ->
        isBlank line = false ->
        JSON_parse (Str.trim line) = Some entry ->
        prop entry "type" = VStr "tool.execution_start" ->
        exists meta, analyzeSessionFileMetadata clock filePath fsProvider = Ret meta
                     /\ isOngoing meta = true).
Proof.
  split.
  - intros meta Hmeta.
    apply analyze_run in Hmeta as (st & Hrun & ->).
    pose proof Hrun as Hrun'.
    apply run_decompose in Hrun' as (ks & log & Hks & Hlog & Hlive & _).
    exists st, ks, log. split; [assumption|]. split; [reflexivity|].
    split; [assumption|]. split; [assumption|].
    pose proof (tracks_foldl log) as Ht. rewrite <- Hlive in Ht.
    split; [apply Ht|].
    unfold summarize. cbn [isOngoing]. now apply tracks_ongoing.
  - intros line entry Hexists Hlines Hblank Hdec Hty.
    assert (Hkind : lineKind (clock 0%nat) line = Ret (Event "tool.execution_start" entry)).
    { unfold lineKind. unfold isBlank in Hblank. rewrite Hblank, Hdec.
      destruct entry; try discriminate. unfold get. cbn [isNullish].
      rewrite Hty. reflexivity. }
    unfold analyzeSessionFileMetadata. rewrite Hexists, Hlines.
    cbn [negb run]. unfold step. rewrite Hkind.
    unfold mbind, completion_bind, kindActivities, mret, completion_ret.
    rewrite classify_tool_start.
    eexists. split; reflexivity.
Qed.

End LivenessFacts.

Lemma isOngoing_witness :
  (exists st ks log,
     Analyzer.analyzeSessionFileMetadata (H := Examples.platform) (fun _ => 5) "s.jsonl"
       (Examples.oneFile "s.jsonl"
          [Examples.textOf Examples.toolStart; Examples.textOf Examples.assistantEntry])
     = Ret (Analyzer.summarize st)
     /\ Reference.kinds (P := Examples.platform) (fun _ => 5) 0
          [Examples.textOf Examples.toolStart; Examples.textOf Examples.assistantEntry] = Ret ks
     /\ Reference.activitiesOf (P := Examples.platform) ∅ ks = Ret log
     /\ (Analyzer.isOngoing (Analyzer.summarize st) = true <-> Reference.spec_ongoing log))
  /\ exists meta,
       Analyzer.analyzeSessionFileMetadata (H := Examples.platform) (fun _ => 5) "s.jsonl"
         (Examples.oneFile "s.jsonl" [Examples.textOf Examples.toolStart]) = Ret meta
       /\ Analyzer.isOngoing meta = true.
Proof.
  split.
  - destruct (Analyzer.analyzeSessionFileMetadata (H := Examples.platform) (fun _ => 5)
                "s.jsonl"
                (Examples.oneFile "s.jsonl"
                   [Examples.textOf Examples.toolStart;
                    Examples.textOf Examples.assistantEntry]))
      as [meta|e] eqn:Hmeta; [|vm_compute in Hmeta; discriminate].
    destruct (proj1 (isOngoing_follows_liveness_rule (P := Examples.platform) (fun _ => 5)
                       "s.jsonl"
                       (Examples.oneFile "s.jsonl"
                          [Examples.textOf Examples.toolStart;
                           Examples.textOf Examples.assistantEntry])) meta Hmeta)
      as (st & ks & log & _ & -> & Hks & Hlog & _ & Hrule).
    exists st, ks, log. split; [reflexivity|]. split; [exact Hks|]. split; [exact Hlog|].
    exact Hrule.
  - apply (proj2 (isOngoing_follows_liveness_rule (P := Examples.platform) (fun _ => 5)
                    "s.jsonl"
                    (Examples.oneFile "s.jsonl" [Examples.textOf Examples.toolStart]))
             (Examples.textOf Examples.toolStart) Examples.toolStart);
      vm_compute; reflexivity.
Defined.

(** ** Context consumption *)

Section ConsumptionFacts.
Context `{P : Platform}.
Import Parser Analyzer Reference.







Lemma phaseAt_drop phases i p rest :
  drop i phases = p :: rest -> phaseAt phases i = p.
Proof.
  intros H. unfold phaseAt.
  assert (Hl : phases !! i = Some p).
  { rewrite <- (Nat.add_0_r i), <- lookup_drop, H. reflexivity. }
  now rewrite Hl.
Qed.

(** The loop over the middle phases and the trailing phase add up to the
    later contributions of the reference breakdown. *)
Lemma middlePhases_later (finalTotal : Z) (phases : list Phase) :
  forall n i acc,
    (1 <= i)%nat -> (i + n = length phases)%nat ->
    let mid := middlePhases n i phases acc in
    let lastPhase := phaseAt phases (length phases - 1) in
    let fin :=
      if post lastPhase >? 0 then
        (mid.1 + (finalTotal - post lastPhase),
         mid.2 ++ [{| phaseNumber := Z.of_nat (length phases) + 1;
                      contribution := finalTotal - post lastPhase;
                      peakTokens := finalTotal;
                      postCompaction := None |}])
      else mid in
    let later := laterContributions (phaseAt phases (i - 1)) (drop i phases) finalTotal in
    fin.1 = acc.1 + sumZ later
    /\ contribution <$> fin.2 = (contribution <$> acc.2) ++ later.
Proof.
  induction n as [|n IH]; intros i acc Hi Hlen; cbn zeta.
  - rewrite drop_ge by lia. simpl.
    replace (i - 1)%nat with (length phases - 1)%nat by lia.
    rewrite Z.gtb_ltb.
    destruct (0 <? post (phaseAt phases (length phases - 1))); simpl.
    + split; [lia|]. now rewrite fmap_app.
    + split; [lia|]. now rewrite app_nil_r.
  - destruct (drop i phases) as [|p rest] eqn:Hdrop.
    { apply (f_equal length) in Hdrop. rewrite length_drop in Hdrop. simpl in Hdrop. lia. }
    assert (Hrest : drop (S i) phases = rest).
    { replace (S i) with (i + 1)%nat by lia. rewrite <- drop_drop, Hdrop. reflexivity. }
    pose proof (phaseAt_drop _ _ _ _ Hdrop) as Hp.
    simpl middlePhases.
    specialize (IH (S i)
      (acc.1 + (pre (phaseAt phases i) - post (phaseAt phases (i - 1))),
       acc.2 ++ [{| phaseNumber := Z.of_nat i + 1;
                    contribution := pre (phaseAt phases i) - post (phaseAt phases (i - 1));
                    peakTokens := pre (phaseAt phases i);
                    postCompaction := Some (post (phaseAt phases i)) |}])
      ltac:(lia) ltac:(lia)).
    cbn zeta in IH. destruct IH as [IH1 IH2].
    replace (S i - 1)%nat with i in IH1, IH2 by lia.
    rewrite Hrest, Hp in IH1, IH2. rewrite Hp. simpl laterContributions.
    split.
    + rewrite IH1. simpl. lia.
    + rewrite IH2. simpl. rewrite fmap_app. simpl. now rewrite <- app_assoc.
Qed.

Lemma sumZ_cons a l : sumZ (a :: l) = a + sumZ l.
Proof. reflexivity. Qed.

(** Lines 1202-1259 compute the reference breakdown. *)
Lemma consumption_spec (c : Context) :
  0 < lastMainAssistantInputTokens c ->
  (consumption c).1
  = Some (sumZ (spec_contributions (compactionPhases c) (lastMainAssistantInputTokens c)))
  /\ contributionsOf (consumption c).2
     = Some (spec_contributions (compactionPhases c) (lastMainAssistantInputTokens c)).
Proof.
  intros Hpos. unfold consumption.
  replace (lastMainAssistantInputTokens c >? 0) with true by (symmetry; lia).
  destruct (compactionPhases c) as [|p1 rest] eqn:Hphases.
  - simpl. split; [f_equal; lia|reflexivity].
  - cbn [length Nat.eqb].
    set (first := (0 + pre (phaseAt (p1 :: rest) 0),
                   [{| phaseNumber := 1;
                       contribution := pre (phaseAt (p1 :: rest) 0);
                       peakTokens := pre (phaseAt (p1 :: rest) 0);
                       postCompaction := Some (post (phaseAt (p1 :: rest) 0)) |}])).
    pose proof (middlePhases_later (lastMainAssistantInputTokens c) (p1 :: rest)
                  (length (p1 :: rest) - 1) 1 first ltac:(lia)
                  ltac:(simpl; lia)) as Hmid.
    cbn zeta in Hmid. destruct Hmid as [H1 H2].
    cbn [fst snd]. split.
    + f_equal. etransitivity; [exact H1|].
      change (phaseAt (p1 :: rest) (1 - 1)) with p1.
      change (drop 1 (p1 :: rest)) with rest.
      subst first. cbn [fst spec_contributions]. change (phaseAt (p1 :: rest) 0) with p1.
      rewrite sumZ_cons. lia.
    + cbn [contributionsOf]. f_equal. etransitivity; [exact H2|]. reflexivity.
Qed.













End ConsumptionFacts.


(* ===================================================================== *)
(** * Further properties of the code *)
(* ===================================================================== *)

(** ** Liveness *)

Section LastEventFacts.
Context `{P : Platform}.
Import Parser Analyzer Reference.

Lemma record_bounds (log : list Activity) :
  0 <= activityIndex (foldl record (live initial) log)
  /\ -1 <= lastEndingIndex (foldl record (live initial) log).
Proof.
  induction log as [|a log IH] using rev_ind; [simpl; lia|].
  rewrite foldl_app. cbn [foldl]. destruct IH as [Hi Hl].
  set (s := foldl record (live initial) log) in *.
  destruct a; unfold record, markOngoing, markEnding;
    cbn [activityIndex lastEndingIndex]; lia.
Qed.

(** The flag computed from the scalars says whether the last recorded
    event is an ongoing one. *)
Lemma ongoing_is_last_event (log : list Activity) :
  let s := foldl record (live initial) log in
  (if lastEndingIndex s =? -1 then hasAnyOngoingActivity s
   else hasActivityAfterLastEnding s)
  = bool_decide (last log = Some Ongoing).
Proof.
  induction log as [|a log IH] using rev_ind; [reflexivity|].
  cbn zeta. rewrite foldl_app, last_snoc. cbn [foldl].
  destruct (record_bounds log) as [Hi Hl]. clear IH.
  set (s := foldl record (live initial) log) in *.
  destruct a; unfold record, markOngoing, markEnding;
    cbn [lastEndingIndex hasAnyOngoingActivity hasActivityAfterLastEnding].
  - rewrite bool_decide_eq_true_2 by reflexivity.
    destruct (lastEndingIndex _ =? -1) eqn:He; [reflexivity|].
    apply Z.eqb_neq in He.
    replace (lastEndingIndex s >=? 0) with true
      by (symmetry; apply Z.geb_le; lia).
    reflexivity.
  - rewrite bool_decide_eq_false_2 by discriminate.
    replace (activityIndex s =? -1) with false
      by (symmetry; apply Z.eqb_neq; lia).
    reflexivity.
Qed.

(** X1.  When the analyzer completes, [isOngoing] is true exactly when the
    last event it classified, over the whole file, is an ongoing-activity
    event; a file without classified events is not ongoing. *)
Theorem isOngoing_is_last_classified_event (clock : nat -> Z) (filePath : string)
  (fsProvider : FileSystemProvider) (meta : SessionFileMetadata) :
  analyzeSessionFileMetadata clock filePath fsProvider = Ret meta ->
  exists ks log,
    kinds clock 0 (linesRead fsProvider filePath) = Ret ks
    /\ activitiesOf ∅ ks = Ret log
    /\ isOngoing meta = bool_decide (last log = Some Ongoing).
Proof.
  intros Hmeta. apply analyze_run in Hmeta as (st & Hrun & ->).
  apply run_decompose in Hrun as (ks & log & Hks & Hlog & Hlive & _).
  exists ks, log. split; [assumption|]. split; [assumption|].
  unfold summarize. cbn [isOngoing]. rewrite Hlive. apply ongoing_is_last_event.
Qed.

End LastEventFacts.

Lemma isOngoing_last_event_witness :
  exists ks log,
    Reference.kinds (P := Examples.platform) (fun _ => 5) 0
      (Reference.linesRead
         (Examples.oneFile "s.jsonl"
            [Examples.textOf Examples.toolStart; Examples.textOf Examples.assistantEntry])
         "s.jsonl") = Ret ks
    /\ Reference.activitiesOf (P := Examples.platform) ∅ ks = Ret log
    /\ false = bool_decide (last log = Some Analyzer.Ongoing).
Proof.
  apply (isOngoing_is_last_classified_event (P := Examples.platform) (fun _ => 5) "s.jsonl"
           (Examples.oneFile "s.jsonl"
              [Examples.textOf Examples.toolStart; Examples.textOf Examples.assistantEntry])
           (Analyzer.mkMetadata false (Some 100) None
              (Some [Analyzer.mkBreakdown 1 100 100 None]))).
  vm_compute. reflexivity.
Defined.

(** ** Parent chains and sorting *)

Section ChainMoreFacts.
Context `{P : Platform}.
Import Parser Reference.

Lemma assignFrom_assignFrom (ms : list ParsedMessage) : forall p q,
  assignFrom p (assignFrom q ms) = assignFrom p ms.
Proof.
  induction ms as [|m ms IH]; intros p q; simpl; [reflexivity|].
  now rewrite IH.
Qed.

Lemma isSessionStarted_withParent m p :
  isSessionStarted (withParent m p) = isSessionStarted m.
Proof. reflexivity. Qed.

Lemma existsb_started_assignFrom (ms : list ParsedMessage) : forall p,
  existsb isSessionStarted (assignFrom p ms) = existsb isSessionStarted ms.
Proof.
  induction ms as [|m ms IH]; intros p; simpl; [reflexivity|].
  now rewrite IH, isSessionStarted_withParent.
Qed.

(** X2.  Parent-chain synthesis and the delta post-pass are idempotent:
    applying either to its own result changes nothing, whatever parent
    links the messages carried before. *)
Theorem parent_chain_idempotent (ms : list ParsedMessage) :
  assignParentUuids (assignParentUuids ms) = assignParentUuids ms
  /\ consolidateCopilotDeltas (consolidateCopilotDeltas ms) = consolidateCopilotDeltas ms
  /\ length (assignParentUuids ms) = length ms
  /\ length (consolidateCopilotDeltas ms) = length ms.
Proof.
  assert (Hlen : forall p, length (assignFrom p ms) = length ms).
  { induction ms as [|m l IH]; intros p; simpl; [reflexivity|]. now rewrite IH. }
  split; [apply assignFrom_assignFrom|].
  split.
  - unfold consolidateCopilotDeltas.
    destruct (existsb isSessionStarted ms) eqn:Hs.
    + unfold assignParentUuids. rewrite existsb_started_assignFrom, Hs.
      apply assignFrom_assignFrom.
    + now rewrite Hs.
  - split; [apply Hlen|].
    unfold consolidateCopilotDeltas. destruct (existsb _ _); [apply Hlen|reflexivity].
Qed.

Lemma insertByTime_Permutation m l : insertByTime m l ≡ₚ m :: l.
Proof.
  induction l as [|x r IH]; simpl; [reflexivity|].
  destruct (compareTime m x <=? 0); [reflexivity|].
  rewrite IH. apply Permutation_swap.
Qed.

Lemma sortByTime_Permutation l : sortByTime l ≡ₚ l.
Proof.
  induction l as [|x r IH]; simpl; [reflexivity|].
  now rewrite insertByTime_Permutation, IH.
Qed.

Lemma length_requestMessages now index item :
  (length (requestMessages now index item) <= 2)%nat.
Proof.
  unfold requestMessages. destruct (negb (isObjectLike item)); [simpl; lia|].
  rewrite length_app.
  destruct (asString (prop item "prompt") ?? _) as [t|];
    [destruct (isBlank t)|];
    (destruct (asString (prop item "response") ?? _) as [t'|];
     [destruct (isBlank t')|]); simpl; lia.
Qed.

Lemma length_concat_imap_le {A B} (f : nat -> A -> list B) (bound : nat) (l : list A) :
  (forall i a, (length (f i a) <= bound)%nat) ->
  (length (concat (imap f l)) <= bound * length l)%nat.
Proof.
  revert f. induction l as [|a l IH]; intros f Hf; [simpl; lia|].
  cbn [imap concat length]. rewrite length_app, Nat.mul_succ_r.
  specialize (IH (f ∘ S) (fun i a => Hf (S i) a)).
  specialize (Hf O a). lia.
Qed.

Lemma length_omap_le {A B} (f : A -> option B) (l : list A) :
  (length (omap f l) <= length l)%nat.
Proof.
  induction l as [|a l IH]; csimpl; [lia|]. destruct (f a); csimpl; lia.
Qed.

(** X3.  Sorting a transcript by time only reorders it: the result of
    [sortByTime] is a permutation of its input.  Hence a request or turn
    array of [n] items yields the messages its items produce, at most two
    per item, and a message array at most one per item. *)
Theorem transcript_sizes (clock : nat -> Z) (ms : list ParsedMessage) (items : list value) :
  sortByTime ms ≡ₚ ms
  /\ uuid <$> parseCopilotRequestArray clock items
     ≡ₚ uuid <$> concat (imap (fun index item => requestMessages (clock index) index item)
                           items)
  /\ (length (parseCopilotRequestArray clock items) <= 2 * length items)%nat
  /\ (length (parseCopilotMessageArray clock items) <= length items)%nat.
Proof.
  split; [apply sortByTime_Permutation|].
  split.
  - unfold parseCopilotRequestArray, assignParentUuids.
    rewrite uuid_assignFrom. apply fmap_Permutation, sortByTime_Permutation.
  - split.
    + unfold parseCopilotRequestArray, assignParentUuids.
      assert (Hlen : forall l p, length (assignFrom p l) = length l).
      { induction l as [|m l IH]; intros p; simpl; [reflexivity|]. now rewrite IH. }
      rewrite Hlen, (Permutation_length (sortByTime_Permutation _)).
      apply length_concat_imap_le. intros i a. apply length_requestMessages.
    + unfold parseCopilotMessageArray, assignParentUuids.
      assert (Hlen : forall l p, length (assignFrom p l) = length l).
      { induction l as [|m l IH]; intros p; simpl; [reflexivity|]. now rewrite IH. }
      rewrite Hlen. etransitivity; [apply length_omap_le|]. now rewrite length_imap.
Qed.

End ChainMoreFacts.

(** ** The session searcher *)

Section SearcherFacts.
Import Search Searcher.

(** X4.  The stage boundaries of the staged scan are strictly increasing,
    each lies between 1 and the number of files and is at most 320, the
    list is empty exactly when there are no files, and its last element is
    the number of files capped at 320. *)
Theorem stage_boundaries_shape (totalFiles : Z) :
  let boundaries := buildFastSearchStageBoundaries totalFiles in
  (boundaries = [] <-> totalFiles <= 0)
  /\ StronglySorted Z.lt boundaries
  /\ Forall (fun b => 0 < b <= totalFiles /\ b <= 320) boundaries
  /\ (0 < totalFiles -> last boundaries = Some (Z.min totalFiles 320)).
Proof.
  cbn zeta. unfold buildFastSearchStageBoundaries.
  destruct (Z.leb_spec totalFiles 0) as [Hle|Hpos].
  { split; [tauto|]. split; [constructor|]. split; [constructor|lia]. }
  unfold SSH_FAST_SEARCH_STAGE_LIMITS, pushBoundary. cbn [foldl last app].
  assert (Hcases : totalFiles <= 40 \/ 40 < totalFiles <= 140
                   \/ 140 < totalFiles <= 320 \/ 320 < totalFiles) by lia.
  destruct Hcases as [H|[H|[H|H]]];
    repeat first [rewrite Z.min_l by lia | rewrite Z.min_r by lia];
    repeat match goal with
      | |- context [?a >? ?b] =>
          destruct (Z.gtb_spec a b); try lia; cbn [last app length Nat.eqb]
      end;
    (split; [split; [discriminate|lia]|]);
    (split; [repeat (constructor; try lia)|]);
    (split; [repeat (constructor; try lia)|reflexivity]).
Qed.

Lemma lastOutputBelow_app (i : nat) (l r : list SemanticStep) :
  (i <= length l)%nat -> lastOutputBelow i (l ++ r) = lastOutputBelow i l.
Proof.
  induction i as [|j IH]; intros Hi; [reflexivity|].
  cbn [lastOutputBelow]. rewrite lookup_app_l by lia.
  rewrite IH by lia. reflexivity.
Qed.

(** X5.  [findLastOutputTextStep] returns the last step of the list that is
    an output step with a non-empty text, and nothing when there is none. *)
Theorem findLastOutputTextStep_is_last (steps : list SemanticStep) :
  findLastOutputTextStep steps = last (List.filter isOutputText steps).
Proof.
  unfold findLastOutputTextStep.
  induction steps as [|step steps IH] using rev_ind; [reflexivity|].
  rewrite length_app, Nat.add_1_r. cbn [lastOutputBelow].
  rewrite lookup_app_r by lia. rewrite Nat.sub_diag. cbn [lookup list_lookup].
  rewrite List.filter_app. cbn [List.filter].
  destruct (isOutputText step).
  - now rewrite last_snoc.
  - rewrite app_nil_r, lastOutputBelow_app by lia. exact IH.
Qed.

Lemma omap_id_fmap {A B} (f : A -> option B) (l : list A) :
  omap id (f <$> l) = omap f l.
Proof.
  induction l as [|a l IH]; csimpl; [reflexivity|].
  destruct (f a); csimpl; now rewrite IH.
Qed.

Lemma batchesFrom_all {T R} (mapper : T -> option R) (items : list T) (size : Z) :
  1 <= size -> forall fuel k results,
  (length items <= fuel + k)%nat ->
  batchesFrom fuel items size mapper (Z.of_nat k) results
  = results ++ omap mapper (drop k items).
Proof.
  intros Hsize. induction fuel as [|fuel IH]; intros k results Hfuel.
  - cbn [batchesFrom]. rewrite drop_ge by lia. now rewrite app_nil_r.
  - cbn [batchesFrom]. unfold len.
    destruct (Z.ltb_spec (Z.of_nat k) (Z.of_nat (length items))) as [Hlt|Hge].
    + unfold slice.
      replace (Z.of_nat k + size - Z.of_nat k) with size by lia.
      rewrite Nat2Z.id, omap_id_fmap.
      replace (Z.of_nat k + size) with (Z.of_nat (k + Z.to_nat size)) by lia.
      rewrite IH by lia. rewrite <- app_assoc. f_equal.
      rewrite <- omap_app. f_equal.
      rewrite <- drop_drop. apply take_drop.
    + rewrite drop_ge by lia. now rewrite app_nil_r.
Qed.

(** X6.  [collectFulfilledInBatches] returns the values of the fulfilled
    calls in the order of the items, whatever the batch size, also a batch
    size of zero or below. *)
Theorem collectFulfilledInBatches_omap {T R} (items : list T) (batchSize : Z)
  (mapper : T -> option R) :
  collectFulfilledInBatches items batchSize mapper = omap mapper items.
Proof.
  unfold collectFulfilledInBatches.
  change 0 with (Z.of_nat 0). rewrite batchesFrom_all by lia. reflexivity.
Qed.

End SearcherFacts.

Section FileSearchFacts.
Import Search Searcher SearcherReference.
Variable findMarkdownSearchMatches : string -> string -> list MarkdownMatch.
Variable extractMarkdownPlainText : string -> string.
Variable sanitizeDisplayContent : string -> string.

Lemma pushMatches_cap mk (maxResults : Z) mdMatches : forall rs,
  len (pushMatches mk maxResults mdMatches rs) <= Z.max (len rs) maxResults.
Proof.
  unfold len. induction mdMatches as [|m rest IH]; intros rs; cbn [pushMatches]; [lia|].
  destruct (Z.geb_spec (Z.of_nat (length rs)) maxResults) as [Hfull|Hroom]; [lia|].
  specialize (IH (rs ++ [mk m])). rewrite length_app in IH. cbn [length] in IH. lia.
Qed.

(** What one call of the matcher appends. *)
Lemma collect_adds entry query rs maxResults pid sid title :
  exists added,
    collectMatchesForEntry findMarkdownSearchMatches extractMarkdownPlainText
      entry query rs maxResults pid sid title = rs ++ added
    /\ len (rs ++ added) <= Z.max (len rs) maxResults
    /\ Forall (fun r => sessionId r = sid /\ projectId r = pid
                 /\ sessionTitle r = title ??! "Untitled Session"
                 /\ groupId r = e_groupId entry /\ messageType r = e_messageType entry
                 /\ itemType r = e_itemType entry /\ timestamp r = e_timestamp entry
                 /\ messageUuid r = e_messageUuid entry) added.
Proof.
  unfold collectMatchesForEntry.
  destruct (length _ =? 0)%nat.
  { exists []. rewrite app_nil_r. split; [reflexivity|]. split; [lia|constructor]. }
  match goal with |- context [pushMatches ?mk ?m ?l ?r] =>
    pose proof (pushMatches_cap mk m l r) as Hcap;
    destruct (pushMatches_appends mk m l r) as (added & Heq & Hall) end.
  exists added. rewrite Heq in *. split; [reflexivity|]. split; [exact Hcap|].
  eapply Forall_impl; [exact Hall|]. intros r (mdMatch & ->). repeat split.
Qed.

Lemma titleOf_truthy (t : string) :
  t <> "" -> Analyzer.truthyStr (Some (titleOf t)) = true.
Proof.
  destruct t as [|c r]; [congruence|]. intros _.
  unfold titleOf, Str.slice, Str.len. cbn [String.length].
  replace (Z.to_nat (Z.min (Z.max 0 0) (Z.of_nat (S (String.length r))))) with O by lia.
  destruct (Z.to_nat (Z.min (Z.max 100 0) (Z.of_nat (S (String.length r))))) as [|n] eqn:Hn;
    [lia|].
  reflexivity.
Qed.

Lemma firstUserText_cons chunk rest :
  firstUserText sanitizeDisplayContent (chunk :: rest)
  = match firstUserText sanitizeDisplayContent [chunk] with
    | Some t => Some t
    | None => firstUserText sanitizeDisplayContent rest
    end.
Proof.
  destruct chunk as [id um| |]; cbn [firstUserText]; try reflexivity.
  destruct (extractUserSearchableText _ _) as [t|e]; [|reflexivity].
  now destruct (String.eqb t "").
Qed.

(** One chunk: what it appends and what it does to the title. *)
Lemma searchChunk_adds query maxResults pid sid st chunk st' :
  searchChunk findMarkdownSearchMatches extractMarkdownPlainText sanitizeDisplayContent
    query maxResults pid sid st chunk = Ret st' ->
  fs_title st'
  = (if Analyzer.truthyStr (fs_title st) then fs_title st
     else match firstUserText sanitizeDisplayContent [chunk] with
          | Some t => Some (titleOf t)
          | None => fs_title st
          end)
  /\ exists added,
       fs_results st' = fs_results st ++ added
       /\ len (fs_results st') <= Z.max (len (fs_results st)) maxResults
       /\ Forall (fun r => sessionId r = sid /\ projectId r = pid
                    /\ sessionTitle r = fs_title st' ??! "Untitled Session"
                    /\ foundIn r chunk) added.
Proof.
  assert (Hsame : forall s : FileScan,
            fs_title s = (if Analyzer.truthyStr (fs_title s) then fs_title s else fs_title s))
    by (intros s; now destruct (Analyzer.truthyStr _)).
  assert (Hnone : forall s : FileScan, exists added : list SearchResult,
            fs_results s = fs_results s ++ added
            /\ len (fs_results s) <= Z.max (len (fs_results s)) maxResults
            /\ Forall (fun r => sessionId r = sid /\ projectId r = pid
                         /\ sessionTitle r = fs_title s ??! "Untitled Session"
                         /\ foundIn r chunk) added).
  { intros s. exists []. rewrite app_nil_r. split; [reflexivity|]. split; [lia|constructor]. }
  destruct chunk as [id um|id steps responses|]; cbn [searchChunk firstUserText].
  - destruct (extractUserSearchableText _ _) as [t|e]; cbn; [|discriminate].
    destruct (String.eqb t "") eqn:Ht.
    + intros [= <-]. split; [apply Hsame|apply Hnone].
    + intros [= <-]. cbn [fs_title fs_results]. split; [reflexivity|].
      match goal with |- context [collectMatchesForEntry _ _ ?e ?q ?rs ?m ?p ?s ?t] =>
        destruct (collect_adds e q rs m p s t) as (added & Heq & Hcap & Hall) end.
      exists added. rewrite Heq. split; [reflexivity|]. split; [exact Hcap|].
      eapply Forall_impl; [exact Hall|].
      cbn. intros r (? & ? & ? & ? & ? & ? & ? & ?). repeat split; assumption.
  - destruct (findLastOutputTextStep steps) as [step|].
    2:{ intros [= <-]. split; [apply Hsame|apply Hnone]. }
    destruct (outputText step) as [t|].
    2:{ intros [= <-]. split; [apply Hsame|apply Hnone]. }
    destruct (String.eqb t "").
    { intros [= <-]. split; [apply Hsame|apply Hnone]. }
    intros [= <-]. cbn [fs_title fs_results]. split; [apply Hsame|].
    match goal with |- context [collectMatchesForEntry _ _ ?e ?q ?rs ?m ?p ?s ?t] =>
      destruct (collect_adds e q rs m p s t) as (added & Heq & Hcap & Hall) end.
    exists added. rewrite Heq. split; [reflexivity|]. split; [exact Hcap|].
    eapply Forall_impl; [exact Hall|].
    cbn. intros r (? & ? & ? & ? & ? & ? & ? & ?). repeat split; assumption.
  - intros [= <-]. split; [apply Hsame|apply Hnone].
Qed.

Lemma searchChunks_adds query maxResults pid sid chunks : forall st st',
  searchChunks findMarkdownSearchMatches extractMarkdownPlainText sanitizeDisplayContent
    query maxResults pid sid chunks st = Ret st' ->
  exists added,
    fs_results st' = fs_results st ++ added
    /\ len (fs_results st') <= Z.max (len (fs_results st)) maxResults
    /\ Forall (fun r => sessionId r = sid /\ projectId r = pid
                 /\ exists chunk, chunk ∈ chunks /\ foundIn r chunk) added.
Proof.
  induction chunks as [|chunk rest IH]; intros st st'; cbn [searchChunks].
  { intros [= <-]. exists []. rewrite app_nil_r. split; [reflexivity|].
    split; [lia|constructor]. }
  destruct (len (fs_results st) >=? maxResults).
  { intros [= <-]. exists []. rewrite app_nil_r. split; [reflexivity|].
    split; [lia|constructor]. }
  destruct (searchChunk _ _ _ _ _ _ _ _ _) as [st1|e] eqn:Hone; cbn; [|discriminate].
  intros Hrest.
  apply searchChunk_adds in Hone as (_ & added1 & Heq1 & Hcap1 & Hall1).
  apply IH in Hrest as (added2 & Heq2 & Hcap2 & Hall2).
  exists (added1 ++ added2).
  split; [now rewrite Heq2, Heq1, app_assoc|]. split; [lia|].
  apply Forall_app. split.
  - eapply Forall_impl; [exact Hall1|]. intros r (? & ? & _ & Hin).
    split; [assumption|]. split; [assumption|]. exists chunk. split; [left|exact Hin].
  - eapply Forall_impl; [exact Hall2|]. intros r (? & ? & c & Hc & Hin).
    split; [assumption|]. split; [assumption|]. exists c. split; [now right|exact Hin].
Qed.

(** X7.  A file search that returns gives at most [maxResults] results
    (none when [maxResults] is not positive); each carries the project and
    session it was asked for and the identifier, kind and, for a user
    chunk, time and message identifier of a chunk of the file. *)
Theorem searchSessionFile_results (pid sid : string) (chunks : list Chunk)
  (query : string) (maxResults : Z) (rs : list SearchResult) :
  searchSessionFile findMarkdownSearchMatches extractMarkdownPlainText
    sanitizeDisplayContent pid sid chunks query maxResults = Ret rs ->
  len rs <= Z.max 0 maxResults
  /\ Forall (fun r => sessionId r = sid /\ projectId r = pid
               /\ exists chunk, chunk ∈ chunks /\ foundIn r chunk) rs.
Proof.
  unfold searchSessionFile.
  destruct (searchChunks _ _ _ _ _ _ _ _ _) as [st|e] eqn:Hrun; cbn; [|discriminate].
  intros [= <-]. apply searchChunks_adds in Hrun as (added & Heq & Hcap & Hall).
  cbn [fs_results] in *. rewrite Heq in *. cbn [app] in *.
  split; [exact Hcap|exact Hall].
Qed.

Lemma titled_run query maxResults pid sid chunks : forall st st',
  Analyzer.truthyStr (fs_title st) = true ->
  searchChunks findMarkdownSearchMatches extractMarkdownPlainText sanitizeDisplayContent
    query maxResults pid sid chunks st = Ret st' ->
  exists added,
    fs_results st' = fs_results st ++ added
    /\ Forall (fun r => sessionTitle r = fs_title st ??! "Untitled Session") added.
Proof.
  induction chunks as [|chunk rest IH]; intros st st' Htitle; cbn [searchChunks].
  { intros [= <-]. exists []. now rewrite app_nil_r. }
  destruct (len (fs_results st) >=? maxResults).
  { intros [= <-]. exists []. now rewrite app_nil_r. }
  destruct (searchChunk _ _ _ _ _ _ _ _ _) as [st1|e] eqn:Hone; cbn; [|discriminate].
  intros Hrest.
  apply searchChunk_adds in Hone as (Hkeep & added1 & Heq1 & _ & Hall1).
  rewrite Htitle in Hkeep.
  apply IH in Hrest as (added2 & Heq2 & Hall2); [|now rewrite Hkeep].
  exists (added1 ++ added2). rewrite Heq2, Heq1, app_assoc. split; [reflexivity|].
  rewrite Hkeep in *. apply Forall_app. split; [|exact Hall2].
  eapply Forall_impl; [exact Hall1|]. now intros r (_ & _ & ? & _).
Qed.

Lemma untitled_run query maxResults pid sid chunks : forall st st',
  fs_title st = None ->
  searchChunks findMarkdownSearchMatches extractMarkdownPlainText sanitizeDisplayContent
    query maxResults pid sid chunks st = Ret st' ->
  exists before after,
    fs_results st' = fs_results st ++ before ++ after
    /\ Forall untitled before
    /\ match firstUserText sanitizeDisplayContent chunks with
       | Some t => Forall (fun r => sessionTitle r = titleOf t) after
       | None => after = []
       end.
Proof.
  induction chunks as [|chunk rest IH]; intros st st' Htitle.
  { cbn [searchChunks]. intros [= <-]. exists [], []. now rewrite app_nil_r. }
  rewrite firstUserText_cons. cbn [searchChunks].
  remember (firstUserText sanitizeDisplayContent [chunk]) as first eqn:Hfirst.
  destruct (len (fs_results st) >=? maxResults).
  { intros [= <-]. exists [], []. rewrite app_nil_r. split; [reflexivity|].
    split; [constructor|].
    destruct first; [constructor|].
    destruct (firstUserText _ rest); [constructor|reflexivity]. }
  destruct (searchChunk _ _ _ _ _ _ _ _ _) as [st1|e] eqn:Hone; cbn; [|discriminate].
  intros Hrest.
  pose proof Hone as Htext.
  apply searchChunk_adds in Hone as (Hnew & added1 & Heq1 & _ & Hall1).
  rewrite Htitle in Hnew. cbn [Analyzer.truthyStr] in Hnew.
  rewrite <- Hfirst in Hnew. symmetry in Hfirst.
  destruct first as [t|].
  - assert (Hne : t <> "").
    { destruct chunk as [id um| |]; cbn [firstUserText] in Hfirst; try discriminate.
      destruct (extractUserSearchableText _ _) as [t'|]; [|discriminate].
      destruct (String.eqb_spec t' ""); [discriminate|]. congruence. }
    apply titled_run in Hrest as (added2 & Heq2 & Hall2);
      [|rewrite Hnew; now apply titleOf_truthy].
    exists [], (added1 ++ added2).
    split; [rewrite Heq2, Heq1; cbn [app]; now rewrite app_assoc|]. split; [constructor|].
    rewrite Hnew in Hall1, Hall2. apply Forall_app. split; [|exact Hall2].
    eapply Forall_impl; [exact Hall1|]. now intros r (_ & _ & ? & _).
  - apply IH in Hrest as (before & after & Heq2 & Hbefore & Hafter); [|exact Hnew].
    exists (added1 ++ before), after.
    split; [rewrite Heq2, Heq1; now rewrite <- !app_assoc|]. split; [|exact Hafter].
    apply Forall_app. split; [|exact Hbefore].
    rewrite Hnew in Hall1. eapply Forall_impl; [exact Hall1|]. now intros r (_ & _ & ? & _).
Qed.

Lemma searchChunks_app query maxResults pid sid (first rest : list Chunk) : forall st,
  searchChunks findMarkdownSearchMatches extractMarkdownPlainText sanitizeDisplayContent
    query maxResults pid sid (first ++ rest) st
  = match searchChunks findMarkdownSearchMatches extractMarkdownPlainText
            sanitizeDisplayContent query maxResults pid sid first st with
    | Ret st1 =>
        searchChunks findMarkdownSearchMatches extractMarkdownPlainText
          sanitizeDisplayContent query maxResults pid sid rest st1
    | Throw e => Throw e
    end.
Proof.
  induction first as [|chunk first IH]; intros st; [reflexivity|].
  cbn [app searchChunks].
  destruct (len (fs_results st) >=? maxResults) eqn:Hfull.
  - destruct rest as [|c rest]; [reflexivity|]. cbn [searchChunks]. now rewrite Hfull.
  - destruct (searchChunk _ _ _ _ _ _ _ _ _) as [st1|e]; cbn; [apply IH|reflexivity].
Qed.

(** Chunks without user text leave the title unset. *)
Lemma untitled_keeps query maxResults pid sid chunks : forall st st',
  firstUserText sanitizeDisplayContent chunks = None ->
  fs_title st = None ->
  searchChunks findMarkdownSearchMatches extractMarkdownPlainText sanitizeDisplayContent
    query maxResults pid sid chunks st = Ret st' ->
  fs_title st' = None
  /\ exists added, fs_results st' = fs_results st ++ added /\ Forall untitled added.
Proof.
  intros st st' Hnone Htitle Hrun.
  destruct (untitled_run _ _ _ _ _ _ _ Htitle Hrun) as (before & after & Heq & Hbefore & Hafter).
  rewrite Hnone in Hafter. subst after. rewrite app_nil_r in Heq.
  split; [|now exists before].
  clear Heq Hbefore before. revert st st' Hnone Htitle Hrun.
  induction chunks as [|chunk rest IH]; intros st st' Hnone Htitle; cbn [searchChunks].
  { now intros [= <-]. }
  destruct (len (fs_results st) >=? maxResults); [now intros [= <-]|].
  destruct (searchChunk _ _ _ _ _ _ _ _ _) as [st1|e] eqn:Hone; cbn; [|discriminate].
  rewrite firstUserText_cons in Hnone.
  apply searchChunk_adds in Hone as (Hnew & _).
  rewrite Htitle in Hnew. cbn [Analyzer.truthyStr] in Hnew.
  destruct (firstUserText sanitizeDisplayContent [chunk]); [discriminate|].
  now apply IH.
Qed.

(** With room left, a text that has a match gets a result. *)
Lemma collect_first entry query rs maxResults pid sid title :
  len rs < maxResults ->
  findMarkdownSearchMatches (text entry) query <> [] ->
  exists r added,
    collectMatchesForEntry findMarkdownSearchMatches extractMarkdownPlainText
      entry query rs maxResults pid sid title = rs ++ r :: added.
Proof.
  intros Hroom Hmatch. unfold collectMatchesForEntry.
  destruct (findMarkdownSearchMatches (text entry) query) as [|mdMatch rest];
    [contradiction|].
  cbn [length Nat.eqb pushMatches].
  destruct (Z.geb_spec (Z.of_nat (length rs)) maxResults) as [Hfull|_];
    [unfold len in Hroom; lia|].
  match goal with |- context [pushMatches ?mk ?m ?l (rs ++ [?r])] =>
    destruct (pushMatches_appends mk m l (rs ++ [r])) as (added & -> & _);
    exists r, added end.
  now rewrite <- app_assoc.
Qed.

(** X8.  The results of a file search fall in two runs, split at the first
    user chunk with text: the results of the chunks before it, which are
    what a search of those chunks alone returns, are titled "Untitled
    Session", and all results from that chunk on carry the first hundred
    characters of its text; when there is room left and the text has a
    match, the first of them is found in that chunk.  A file without such
    a chunk has only untitled results. *)
Theorem searchSessionFile_titles (pid sid : string) (pre post : list Chunk)
  (id : string) (userMessage : UserMessage) (t query : string) (maxResults : Z)
  (rs : list SearchResult) :
  firstUserText sanitizeDisplayContent pre = None ->
  extractUserSearchableText sanitizeDisplayContent (um_content userMessage) = Ret t ->
  t <> "" ->
  searchSessionFile findMarkdownSearchMatches extractMarkdownPlainText
    sanitizeDisplayContent pid sid (pre ++ UserChunk id userMessage :: post) query maxResults
  = Ret rs ->
  (exists before after,
     searchSessionFile findMarkdownSearchMatches extractMarkdownPlainText
       sanitizeDisplayContent pid sid pre query maxResults = Ret before
     /\ rs = before ++ after
     /\ Forall untitled before
     /\ Forall (fun r => sessionTitle r = Str.slice t 0 100) after
     /\ (len before < maxResults ->
         findMarkdownSearchMatches t query <> [] ->
         exists r later, after = r :: later /\ foundIn r (UserChunk id userMessage)))
  /\ (forall chunks found,
        firstUserText sanitizeDisplayContent chunks = None ->
        searchSessionFile findMarkdownSearchMatches extractMarkdownPlainText
          sanitizeDisplayContent pid sid chunks query maxResults = Ret found ->
        Forall untitled found).
Proof.
  intros Hpre Htext Hne Hrun. split.
  2:{ intros chunks found Hnone. unfold searchSessionFile.
      destruct (searchChunks _ _ _ _ _ _ _ _ _) as [st|e] eqn:Hchunks; cbn; [|discriminate].
      intros [= <-].
      destruct (untitled_keeps _ _ _ _ _ _ _ Hnone
                  (eq_refl : fs_title (mkFileScan [] None) = None) Hchunks)
        as (_ & added & -> & Hall).
      exact Hall. }
  unfold searchSessionFile in *. rewrite searchChunks_app in Hrun.
  destruct (searchChunks _ _ _ _ _ _ _ pre _) as [st1|e] eqn:Hfirst;
    [|cbn in Hrun; discriminate].
  cbv beta iota in Hrun.
  destruct (searchChunks _ _ _ _ _ _ _ (UserChunk id userMessage :: post) st1) as [st2|e]
    eqn:Hsecond; [|cbn in Hrun; discriminate].
  cbn in Hrun. injection Hrun as <-.
  destruct (untitled_keeps _ _ _ _ _ _ _ Hpre
              (eq_refl : fs_title (mkFileScan [] None) = None) Hfirst)
    as (Htitle & before & Hbefore & Hall).
  cbn [fs_results app] in Hbefore. subst before.
  exists (fs_results st1). cbn [searchChunks] in Hsecond.
  destruct (Z.geb_spec (len (fs_results st1)) maxResults) as [Hfull|Hroom].
  { injection Hsecond as <-. exists []. rewrite app_nil_r.
    split; [reflexivity|]. split; [reflexivity|]. split; [exact Hall|].
    split; [constructor|]. intros Hlt. lia. }
  cbn [searchChunk] in Hsecond. rewrite Htext, Htitle in Hsecond. cbn in Hsecond.
  destruct (String.eqb_spec t "") as [|_]; [contradiction|].
  match type of Hsecond with
  | context [collectMatchesForEntry _ _ ?e ?q ?r ?m ?p ?s ?ti] =>
      destruct (collect_adds e q r m p s ti) as (added1 & Heq1 & _ & Hall1);
      pose proof (collect_first e q r m p s ti Hroom) as Hone
  end.
  rewrite Heq1 in Hsecond, Hone.
  apply titled_run in Hsecond as (added2 & Heq2 & Hall2);
    [|cbn [fs_title]; now apply titleOf_truthy].
  cbn [fs_results fs_title default] in Heq2, Hall2.
  exists (added1 ++ added2). rewrite Heq2, <- app_assoc.
  split; [reflexivity|]. split; [reflexivity|]. split; [exact Hall|].
  split.
  - apply Forall_app. split; [|exact Hall2].
    eapply Forall_impl; [exact Hall1|]. cbn. now intros r (_ & _ & ? & _).
  - intros _ Hmatch. destruct (Hone Hmatch) as (r & later & Hfirst1).
    apply app_inv_head in Hfirst1. subst added1.
    exists r, (later ++ added2). split; [reflexivity|].
    apply Forall_cons in Hall1 as [(_ & _ & _ & Hg & Hm & Hi & Ht & Hu) _].
    cbn in *. repeat split; assumption.
Qed.

End FileSearchFacts.

Lemma searchSessionFile_results_witness :
  Searcher.len SearcherReference.foxResults <= Z.max 0 50
  /\ Forall (fun r => Search.sessionId r = "session" /\ Search.projectId r = "project"
               /\ exists chunk, chunk ∈ SearcherReference.foxChunks
                                /\ SearcherReference.foundIn r chunk)
       SearcherReference.foxResults.
Proof.
  apply (searchSessionFile_results Examples.plainFind Examples.plainText (fun s => s)
           "project" "session" SearcherReference.foxChunks "fox" 50).
  vm_compute. reflexivity.
Defined.

Lemma searchSessionFile_titles_witness :
  (exists before after,
     Searcher.searchSessionFile Examples.plainFind Examples.plainText (fun s => s)
       "project" "session"
       [Searcher.AIChunk "a1" [Searcher.mkStep "output" (Some "A fox.") 1 None] ["r1"]]
       "fox" 50 = Ret before
     /\ SearcherReference.foxResults = before ++ after
     /\ Forall SearcherReference.untitled before
     /\ Forall (fun r => Search.sessionTitle r = "Where is the fox?") after
     /\ (Searcher.len before < 50 ->
         Examples.plainFind "Where is the fox?" "fox" <> [] ->
         exists r later,
           after = r :: later
           /\ SearcherReference.foundIn r
                (Searcher.UserChunk "u1"
                   (Searcher.mkUserMessage (VStr "Where is the fox?") 2 "m1"))))
  /\ (forall chunks found,
        SearcherReference.firstUserText (fun s => s) chunks = None ->
        Searcher.searchSessionFile Examples.plainFind Examples.plainText (fun s => s)
          "project" "session" chunks "fox" 50 = Ret found ->
        Forall SearcherReference.untitled found).
Proof.
  apply (searchSessionFile_titles Examples.plainFind Examples.plainText (fun s => s)
           "project" "session"
           [Searcher.AIChunk "a1" [Searcher.mkStep "output" (Some "A fox.") 1 None] ["r1"]]
           [Searcher.AIChunk "a2"
              [Searcher.mkStep "thinking" None 3 None;
               Searcher.mkStep "output" (Some "The fox is here.") 4 (Some "r2")] ["r2"]]
           "u1" (Searcher.mkUserMessage (VStr "Where is the fox?") 2 "m1")
           "Where is the fox?" "fox" 50 SearcherReference.foxResults);
    [reflexivity | reflexivity | discriminate | vm_compute; reflexivity].
Defined.

Section ScanFacts.
Import Search Searcher SearcherReference.
Context {File : Type}.
Variable elapsed : Z -> Z.
Variable search : File -> option (list SearchResult).
Variable sessionFiles : list File.
Variable maxResults : Z.

Lemma pushSettled_cap settled : forall rs,
  len (pushSettled maxResults settled rs) <= Z.max (len rs) maxResults.
Proof.
  unfold len. induction settled as [|result rest IH]; intros rs; cbn [pushSettled]; [lia|].
  destruct (Z.geb_spec (len rs) maxResults) as [Hfull|Hroom]; unfold len in *; [lia|].
  destruct result as [value_|]; [|apply IH].
  destruct (length value_ =? 0)%nat; [apply IH|].
  etransitivity; [apply IH|].
  unfold slice. rewrite length_app, length_take, drop_0. lia.
Qed.

Lemma pushSettled_take settled : forall found,
  pushSettled maxResults settled (take (Z.to_nat maxResults) found)
  = take (Z.to_nat maxResults) (found ++ concat (hits <$> settled)).
Proof.
  induction settled as [|result rest IH]; intros found; cbn [pushSettled].
  { cbn. now rewrite app_nil_r. }
  assert (Hskip : hits result = [] ->
            pushSettled maxResults rest (take (Z.to_nat maxResults) found)
            = take (Z.to_nat maxResults) (found ++ concat (hits <$> result :: rest))).
  { intros Hnil. rewrite IH. cbn [fmap list_fmap concat]. now rewrite Hnil. }
  destruct (Z.geb_spec (len (take (Z.to_nat maxResults) found)) maxResults) as [Hfull|Hroom];
    unfold len in *; rewrite length_take in *.
  - rewrite take_app_le by lia. reflexivity.
  - destruct result as [value_|]; [|now apply Hskip].
    destruct value_ as [|r value_]; [now apply Hskip|]. cbn [length Nat.eqb].
    rewrite (take_ge found) by lia. rewrite Nat.min_r by lia.
    unfold slice. rewrite drop_0, Z.sub_0_r.
    replace (found ++ take (Z.to_nat (maxResults - Z.of_nat (length found))) (r :: value_))
      with (take (Z.to_nat maxResults) (found ++ r :: value_)).
    + rewrite IH. cbn [fmap list_fmap concat hits default]. now rewrite <- app_assoc.
    + rewrite take_app_ge by lia. do 2 f_equal. lia.
Qed.

Lemma pushSettled_noHits settled : forall rs,
  forallb noHits settled = true -> pushSettled maxResults settled rs = rs.
Proof.
  induction settled as [|result rest IH]; intros rs Hno; cbn [pushSettled]; [reflexivity|].
  cbn [forallb] in Hno. apply andb_true_iff in Hno as [Hone Hrest].
  destruct (len rs >=? maxResults); [reflexivity|].
  destruct result as [[|r value_]|]; try discriminate; now apply IH.
Qed.

Lemma scanStage_cap fastMode fuel stageBoundary : forall i st,
  len (results st) <= Z.max 0 maxResults ->
  len (results (scanStage fastMode elapsed search sessionFiles maxResults fuel
                  stageBoundary i st)) <= Z.max 0 maxResults.
Proof.
  induction fuel as [|fuel IH]; intros i st Hcap; cbn [scanStage]; [exact Hcap|].
  destruct (_ && _); [|exact Hcap].
  destruct (_ && _); [exact Hcap|].
  apply IH. cbn [results].
  etransitivity; [apply pushSettled_cap|]. lia.
Qed.

Lemma scanStages_cap fastMode stageBoundaries : forall searchedUntil st,
  len (results st) <= Z.max 0 maxResults ->
  len (results (scanStages fastMode elapsed search sessionFiles maxResults
                  stageBoundaries searchedUntil st)) <= Z.max 0 maxResults.
Proof.
  induction stageBoundaries as [|b rest IH]; intros searchedUntil st Hcap;
    cbn [scanStages]; [exact Hcap|].
  pose proof (scanStage_cap fastMode (Z.to_nat (b - searchedUntil)) b searchedUntil st Hcap)
    as Hstage.
  destruct (_ || _); [exact Hstage|].
  destruct (_ && _); [exact Hstage|].
  now apply IH.
Qed.

(** X9.  In either mode the scan reports at most [maxResults] results, none
    when [maxResults] is not positive, and [totalMatches] is their number. *)
Theorem scan_respects_maxResults (fastMode : bool) :
  let r := scanSessionFiles fastMode elapsed search sessionFiles maxResults in
  len (r_results r) <= Z.max 0 maxResults /\ r_totalMatches r = len (r_results r).
Proof.
  cbn zeta. unfold scanSessionFiles. cbn [r_results r_totalMatches].
  split; [|reflexivity]. apply scanStages_cap.
  change (0 <= Z.max 0 maxResults). lia.
Qed.

(** The single stage of a local scan. *)
Lemma scanStage_local fuel : forall (k : nat) st,
  (length sessionFiles <= fuel + k)%nat ->
  results st = take (Z.to_nat maxResults) (concat (hits ∘ search <$> take k sessionFiles)) ->
  sessionsSearched st = Z.min (Z.of_nat k) (len sessionFiles) ->
  let st' := scanStage false elapsed search sessionFiles maxResults fuel
               (len sessionFiles) (Z.of_nat k) st in
  results st' = take (Z.to_nat maxResults) (concat (hits ∘ search <$> sessionFiles))
  /\ 0 <= sessionsSearched st' <= len sessionFiles
  /\ (len (results st') < maxResults -> sessionsSearched st' = len sessionFiles).
Proof.
  assert (Hall : forall k, concat (hits ∘ search <$> sessionFiles)
            = concat (hits ∘ search <$> take k sessionFiles)
              ++ concat (hits ∘ search <$> drop k sessionFiles)).
  { intros k. now rewrite <- concat_app, <- fmap_app, take_drop. }
  assert (Hfull : forall k st,
            results st = take (Z.to_nat maxResults)
                           (concat (hits ∘ search <$> take k sessionFiles)) ->
            ~ len (results st) < maxResults ->
            results st = take (Z.to_nat maxResults) (concat (hits ∘ search <$> sessionFiles))).
  { intros k st Hres Hge. rewrite (Hall k), Hres. unfold len in Hge.
    rewrite Hres, length_take in Hge. rewrite take_app_le by lia. reflexivity. }
  assert (Hend : forall k st, (length sessionFiles <= k)%nat ->
            results st = take (Z.to_nat maxResults)
                           (concat (hits ∘ search <$> take k sessionFiles)) ->
            results st = take (Z.to_nat maxResults) (concat (hits ∘ search <$> sessionFiles))).
  { intros k st Hk Hres. now rewrite (take_ge sessionFiles k) in Hres by lia. }
  unfold len in *.
  induction fuel as [|fuel IH]; intros k st Hfuel Hres Hcount; cbn zeta; cbn [scanStage].
  { split; [apply (Hend k); [lia|exact Hres]|]. lia. }
  unfold len.
  destruct (Z.ltb_spec (Z.of_nat k) (Z.of_nat (length sessionFiles))) as [Hk|Hk];
    cbn [andb].
  2:{ split; [apply (Hend k); [lia|exact Hres]|]. lia. }
  destruct (Z.ltb_spec (Z.of_nat (length (results st))) maxResults) as [Hroom|Hroom].
  2:{ split; [apply (Hfull k); [exact Hres|unfold len; lia]|]. lia. }
  unfold searchBatchSize.
  replace (Z.of_nat k + 8) with (Z.of_nat (k + 8)) by lia.
  apply IH; [lia| |].
  - cbn [results]. rewrite Hres, list_fmap_compose, pushSettled_take.
    f_equal. unfold slice.
    replace (Z.to_nat (Z.of_nat (k + 8) - Z.of_nat k)) with 8%nat by lia.
    rewrite Nat2Z.id, <- take_take_drop.
    rewrite !fmap_app, concat_app, <- !list_fmap_compose. reflexivity.
  - cbn [sessionsSearched]. rewrite Hcount. unfold len, slice.
    rewrite length_take, length_drop. lia.
Qed.

(** X10.  A local scan reports the first [maxResults] results of the files'
    results taken in the order of the files, a rejected search counting as
    no result; it searches no file twice, searches every file unless it
    stopped at the cap, and reports no partial flag. *)
Theorem local_scan_results :
  let r := scanSessionFiles false elapsed search sessionFiles maxResults in
  r_results r = take (Z.to_nat maxResults) (concat (hits ∘ search <$> sessionFiles))
  /\ 0 <= r_sessionsSearched r <= len sessionFiles
  /\ (len (r_results r) < maxResults -> r_sessionsSearched r = len sessionFiles)
  /\ r_isPartial r = None.
Proof.
  cbn zeta. unfold scanSessionFiles.
  cbn [r_results r_sessionsSearched r_isPartial scanStages negb orb].
  rewrite orb_true_r.
  pose proof (scanStage_local (Z.to_nat (len sessionFiles - 0)) 0 (mkScan [] 0 false false))
    as Hstage.
  cbn zeta in Hstage. change (Z.of_nat 0) with 0 in Hstage.
  destruct Hstage as (Hres & Hcount & Hall).
  - unfold len. lia.
  - cbn. now destruct (Z.to_nat maxResults).
  - cbn [sessionsSearched]. unfold len. lia.
  - repeat split; try tauto; lia.
Qed.

(** A run of full batches of a staged scan in which nothing is found. *)
Lemma scanStage_full_batches (k : nat) : forall fuel stageBoundary i st,
  (k <= fuel)%nat -> 0 <= i -> i + 3 * Z.of_nat k <= len sessionFiles ->
  stageBoundary <= i + 3 * Z.of_nat k ->
  i + 3 * Z.of_nat k < stageBoundary + 3 ->
  results st = [] -> 0 < maxResults ->
  (forall j, elapsed j < SSH_FAST_SEARCH_TIME_BUDGET_MS) ->
  forallb (noHits ∘ search) (take (Z.to_nat (i + 3 * Z.of_nat k)) sessionFiles) = true ->
  scanStage true elapsed search sessionFiles maxResults fuel stageBoundary i st
  = {| results := []; sessionsSearched := sessionsSearched st + 3 * Z.of_nat k;
       isPartial := isPartial st; shouldStop := shouldStop st |}.
Proof.
  induction k as [|k IH]; intros fuel b i st Hfuel Hi Hlen Hb Hlast Hres Hmax Hclock Hno.
  - destruct st as [rs n p s]. cbn [results] in Hres. subst rs.
    cbn [sessionsSearched isPartial shouldStop]. rewrite Z.mul_0_r, !Z.add_0_r in *.
    destruct fuel; cbn [scanStage]; [reflexivity|].
    destruct (Z.ltb_spec i b); [lia|]. reflexivity.
  - destruct fuel as [|fuel]; [lia|]. cbn [scanStage].
    destruct (Z.ltb_spec i b) as [_|Hge]; [|lia].
    rewrite Hres. change (len []) with 0.
    destruct (Z.ltb_spec 0 maxResults) as [_|Hge]; [|lia]. cbn [andb].
    destruct (Z.geb_spec (elapsed i) SSH_FAST_SEARCH_TIME_BUDGET_MS) as [Hlate|_];
      [specialize (Hclock i); lia|].
    unfold searchBatchSize.
    assert (Hsplit : take (Z.to_nat (i + 3 * Z.of_nat (S k))) sessionFiles
              = take (Z.to_nat i) sessionFiles ++ slice sessionFiles i (i + 3)
                ++ take (Z.to_nat (3 * Z.of_nat k)) (drop (Z.to_nat (i + 3)) sessionFiles)).
    { unfold slice. replace (Z.to_nat (i + 3 - i)) with 3%nat by lia.
      rewrite app_assoc, take_take_drop.
      replace (Z.to_nat (i + 3)) with (Z.to_nat i + 3)%nat by lia.
      rewrite take_take_drop. f_equal. lia. }
    assert (Hbatch : forallb noHits (search <$> slice sessionFiles i (i + 3)) = true).
    { rewrite Hsplit, !forallb_app in Hno.
      apply andb_true_iff in Hno as [_ Hno]. apply andb_true_iff in Hno as [Hno _].
      clear -Hno. induction (slice sessionFiles i (i + 3)) as [|f l IHl]; [reflexivity|].
      cbn in *. apply andb_true_iff in Hno as [-> Hno]. now apply IHl. }
    rewrite pushSettled_noHits by exact Hbatch.
    rewrite IH; cbn [results sessionsSearched isPartial shouldStop];
      try lia; try assumption; try reflexivity.
    + f_equal. unfold len, slice. rewrite length_take, length_drop.
      unfold len in Hlen. lia.
    + replace (i + 3 + 3 * Z.of_nat k) with (i + 3 * Z.of_nat (S k)) by lia. exact Hno.
Qed.

(** X11.  A staged scan over at least 320 files, none of the first 320
    matching and the time budget never used up, searches batches that
    overlap at the stage boundaries: it counts 324 searched sessions for
    320 distinct files, and so reports a partial result only when there
    are more than 324 files. *)
Theorem staged_scan_counts_overlaps :
  320 <= len sessionFiles ->
  0 < maxResults ->
  (forall i, elapsed i < SSH_FAST_SEARCH_TIME_BUDGET_MS) ->
  forallb (noHits ∘ search) (take 320 sessionFiles) = true ->
  scanSessionFiles true elapsed search sessionFiles maxResults
  = {| r_results := []; r_totalMatches := 0; r_sessionsSearched := 324;
       r_isPartial := Some (324 <? len sessionFiles) |}.
Proof.
  intros Hlen Hmax Hclock Hno.
  assert (Hprefix : forall n, (n <= 320)%nat ->
            forallb (noHits ∘ search) (take n sessionFiles) = true).
  { intros n Hn. rewrite <- (take_drop n (take 320 sessionFiles)), forallb_app in Hno.
    apply andb_true_iff in Hno as [Hno _]. rewrite take_take in Hno.
    now replace (n `min` 320)%nat with n in Hno by lia. }
  unfold scanSessionFiles, buildFastSearchStageBoundaries.
  destruct (Z.leb_spec (len sessionFiles) 0) as [Hle|_]; [lia|].
  unfold SSH_FAST_SEARCH_STAGE_LIMITS, pushBoundary. cbn [foldl last app].
  rewrite !Z.min_r by lia. cbn [Z.gtb Z.compare Pos.compare Pos.compare_cont last app
                                  length Nat.eqb].
  cbn [scanStages].
  rewrite (scanStage_full_batches 14)
    by first [assumption | reflexivity | lia | (apply Hprefix; lia)].
  cbn [shouldStop results negb orb sessionsSearched isPartial].
  destruct (Z.geb_spec (len (@nil SearchResult)) maxResults) as [Hfull|_];
    [change (len (@nil SearchResult)) with 0 in Hfull; lia|].
  rewrite andb_false_r.
  rewrite (scanStage_full_batches 34)
    by first [assumption | reflexivity | lia | (apply Hprefix; lia)].
  cbn [shouldStop results negb orb sessionsSearched isPartial].
  destruct (Z.geb_spec (len (@nil SearchResult)) maxResults) as [Hfull|_];
    [change (len (@nil SearchResult)) with 0 in Hfull; lia|].
  rewrite andb_false_r.
  rewrite (scanStage_full_batches 60)
    by first [assumption | reflexivity | lia | (apply Hprefix; lia)].
  cbn [shouldStop results negb orb sessionsSearched isPartial].
  destruct (Z.geb_spec (len (@nil SearchResult)) maxResults) as [Hfull|_];
    [change (len (@nil SearchResult)) with 0 in Hfull; lia|].
  rewrite andb_false_r. cbn [scanStages results sessionsSearched isPartial].
  change (len (@nil SearchResult)) with 0.
  destruct (Z.ltb_spec 0 maxResults) as [_|Hge]; [|lia].
  change (0 + 3 * Z.of_nat 14 + 3 * Z.of_nat 34 + 3 * Z.of_nat 60) with 324.
  cbn [andb]. f_equal. now destruct (_ <? _).
Qed.

End ScanFacts.

Lemma staged_scan_counts_overlaps_witness :
  Searcher.scanSessionFiles true (fun _ => 0) (fun _ : nat => Some [])
    (seq 0 322) 50
  = {| Searcher.r_results := []; Searcher.r_totalMatches := 0;
       Searcher.r_sessionsSearched := 324;
       Searcher.r_isPartial := Some false |}.
Proof.
  apply (staged_scan_counts_overlaps (fun _ => 0) (fun _ : nat => Some []) (seq 0 322) 50).
  - vm_compute. discriminate.
  - lia.
  - intros i. reflexivity.
  - vm_compute. reflexivity.
Defined.

(** ** Metadata extraction *)

Section CommandNameFacts.
Import Metadata.

Lemma startsWith_other (c : ascii) (r p : string) (d : ascii) :
  Ascii.eqb d c = false -> Str.startsWith (String d p) (String c r) = false.
Proof.
  intros Hc. unfold Str.startsWith. cbn [String.prefix].
  destruct (ascii_dec d c) as [->|_]; [|reflexivity].
  now rewrite Ascii.eqb_refl in Hc.
Qed.

Lemma includes_cons (c : ascii) (r : string) :
  Str.includes "<" (String c r) = false ->
  Ascii.eqb "<" c = false /\ Str.includes "<" r = false.
Proof.
  cbn [Str.includes String.prefix]. intros H. apply orb_false_iff in H as [Hc Hr].
  split; [|exact Hr].
  destruct (ascii_dec "<" c) as [<-|Hne].
  - now destruct r.
  - now apply Ascii.eqb_neq.
Qed.

Lemma spanName_run (name rest : string) :
  Str.includes "<" name = false ->
  spanName (name +:+ String "<" rest) = (name, String "<" rest).
Proof.
  induction name as [|c name IH]; intros Hno; [reflexivity|].
  apply includes_cons in Hno as [Hc Hno].
  change (String c name +:+ String "<" rest) with (String c (name +:+ String "<" rest)).
  cbn [spanName]. rewrite Ascii.eqb_sym, Hc, (IH Hno). reflexivity.
Qed.

Lemma matchAt_tag (name post : string) :
  name <> "" -> Str.includes "<" name = false ->
  matchAt ("<command-name>/" +:+ name +:+ "</command-name>" +:+ post) = Some name.
Proof.
  intros Hne Hno. unfold matchAt.
  change ("<command-name>/" +:+ name +:+ "</command-name>" +:+ post)
    with ("<command-name>/" +:+ (name +:+ String "<" ("/command-name>" +:+ post))).
  assert (Hstart : forall s, Str.startsWith "<command-name>/" ("<command-name>/" +:+ s) = true).
  { intros s. unfold Str.startsWith. cbn. repeat (destruct (ascii_dec _ _); [|congruence]).
    now destruct s. }
  rewrite Hstart.
  change (Str.dropn 15 ("<command-name>/" +:+ ?s)) with s.
  rewrite spanName_run by exact Hno.
  destruct (String.eqb_spec name ""); [contradiction|]. cbn [negb andb].
  assert (Hend : Str.startsWith "</command-name>" (String "<" ("/command-name>" +:+ post))
                 = true).
  { unfold Str.startsWith. cbn. repeat (destruct (ascii_dec _ _); [|congruence]).
    now destruct post. }
  now rewrite Hend.
Qed.

Lemma firstMatch_skip (pre s : string) :
  Str.includes "<" pre = false -> firstMatch (pre +:+ s) = firstMatch s.
Proof.
  induction pre as [|c pre IH]; intros Hno; [reflexivity|].
  apply includes_cons in Hno as [Hc Hno].
  change (String c pre +:+ s) with (String c (pre +:+ s)).
  cbn [firstMatch]. unfold matchAt at 1.
  rewrite (startsWith_other c _ _ "<") by exact Hc. now apply IH.
Qed.

Lemma firstMatch_here (s name : string) :
  matchAt s = Some name -> firstMatch s = Some name.
Proof. intros Hm. destruct s; cbn [firstMatch]; now rewrite Hm. Qed.

(** X12.  [extractCommandName] yields a label that begins with a slash; on
    a text that holds a command-name tag after a run without [<], the
    label is the slash and the name the tag encloses. *)
Theorem extractCommandName_round_trip (pre name post : string) :
  name <> "" -> Str.includes "<" name = false -> Str.includes "<" pre = false ->
  extractCommandName (pre +:+ "<command-name>/" +:+ name +:+ "</command-name>" +:+ post)
  = "/" +:+ name
  /\ forall content, Str.startsWith "/" (extractCommandName content) = true.
Proof.
  intros Hne Hname Hpre. split.
  - unfold extractCommandName. rewrite firstMatch_skip by exact Hpre.
    now rewrite (firstMatch_here _ name) by now apply matchAt_tag.
  - intros content. unfold extractCommandName.
    destruct (firstMatch content) as [n|]; [|reflexivity].
    now destruct n.
Qed.

End CommandNameFacts.

Lemma extractCommandName_round_trip_witness :
  Metadata.extractCommandName
    ("see " +:+ "<command-name>/" +:+ "clear" +:+ "</command-name>" +:+ "<command-args>")
  = "/" +:+ "clear"
  /\ forall content, Str.startsWith "/" (Metadata.extractCommandName content) = true.
Proof.
  apply (extractCommandName_round_trip "see " "clear" "<command-args>");
    [discriminate | reflexivity | reflexivity].
Defined.

Section MetadataFacts.
Context `{P : Platform}.
Import Metadata MetadataReference.
Variable isCommandOutputContent : string -> bool.
Variable sanitizeDisplayContent : string -> string.
Variable isTextContent : value -> bool.

Lemma cwdOfLines_passedOver (pre rest : list string) :
  forallb passedOver pre = true -> cwdOfLines (pre ++ rest) = cwdOfLines rest.
Proof.
  induction pre as [|line pre IH]; intros Hpre; [reflexivity|].
  cbn [forallb] in Hpre. apply andb_true_iff in Hpre as [Hline Hpre].
  cbn [app cwdOfLines]. unfold passedOver in Hline.
  destruct (Parser.isBlank line); [now apply IH|]. cbn [orb] in Hline.
  destruct (JSON_parse line) as [[| | | | |items|fields]|]; try discriminate.
  - now apply IH.
  - cbn [prop]. apply negb_true_iff in Hline. rewrite Hline. now apply IH.
Qed.

(** X13.  [extractCwd] returns the [cwd] of the first record that has one,
    provided every line before it is blank or decodes to a record without;
    a line before it that does not decode, or decodes to a primitive, ends
    the scan with no result, whatever follows. *)
Theorem extractCwd_first_record (filePath : string)
  (fsProvider : Parser.FileSystemProvider) (pre post : list string) (line : string) :
  Parser.fs_exists fsProvider filePath = true ->
  Parser.fs_lines fsProvider filePath = pre ++ line :: post ->
  forallb passedOver pre = true ->
  Parser.isBlank line = false ->
  (forall fields, JSON_parse line = Some (VObj fields) ->
     truthy (assoc "cwd" fields) = true ->
     extractCwd filePath fsProvider = Some (assoc "cwd" fields))
  /\ (match JSON_parse line with
      | Some entry => isObjectLike entry = false
      | None => True
      end -> extractCwd filePath fsProvider = None).
Proof.
  intros Hexists Hlines Hpre Hblank. unfold extractCwd.
  rewrite Hexists, Hlines, cwdOfLines_passedOver by exact Hpre.
  cbn [negb cwdOfLines]. rewrite Hblank. split.
  - intros fields -> Hcwd. cbn [prop]. now rewrite Hcwd.
  - destruct (JSON_parse line) as [[| | | | |items|fields]|]; try reflexivity; discriminate.
Qed.

Lemma len_taken (n : nat) (s : string) : (String.length (Str.taken n s) <= n)%nat.
Proof.
  revert s. induction n as [|n IH]; intros [|c s]; cbn; try lia.
  specialize (IH s). lia.
Qed.

Lemma substring0_bounds (s : string) (n : Z) :
  0 < n -> s <> "" -> 1 <= Str.len (substring0 s n) <= n.
Proof.
  intros Hn Hs. unfold substring0, Str.slice, Str.len.
  destruct s as [|c s]; [contradiction|]. cbn [String.length].
  replace (Z.to_nat (Z.min (Z.max 0 0) (Z.of_nat (S (String.length s))))) with O by lia.
  cbn [Str.dropn]. rewrite Nat.sub_0_r.
  pose proof (len_taken (Z.to_nat (Z.min (Z.max n 0) (Z.of_nat (S (String.length s)))))
                (String c s)) as Hle.
  destruct (Z.to_nat (Z.min (Z.max n 0) (Z.of_nat (S (String.length s))))) as [|m] eqn:Hm;
    [lia|].
  cbn [Str.taken String.length] in *. lia.
Qed.

Lemma previewOfText_shape (ts : value) (t : string) (p : MessagePreview) :
  previewOfText sanitizeDisplayContent ts t = Some p ->
  mp_timestamp p = ts
  /\ (if mp_isCommand p
      then mp_text p = extractCommandName t /\ Str.startsWith "/" (mp_text p) = true
      else mp_text p = Str.slice (Str.trim (sanitizeDisplayContent t)) 0 500
           /\ 1 <= Str.len (mp_text p) <= 500).
Proof.
  unfold previewOfText. destruct (Str.startsWith "<command-name>" t).
  - intros [= <-]. cbn [mp_timestamp mp_isCommand mp_text]. split; [reflexivity|].
    split; [reflexivity|].
    unfold extractCommandName. destruct (firstMatch t) as [n|]; [|reflexivity].
    now destruct n.
  - destruct (String.eqb_spec (Str.trim (sanitizeDisplayContent t)) "") as [|Hne];
      [discriminate|].
    intros [= <-]. cbn [mp_timestamp mp_isCommand mp_text]. split; [reflexivity|].
    split; [reflexivity|]. apply substring0_bounds; [lia|exact Hne].
Qed.

(** X14.  A preview taken from a user entry is either a command label,
    the command name of the entry's text, which begins with a slash, or
    the first 500 characters of the entry's sanitized and trimmed text,
    which are not empty; the entry's text is its string content or the
    joined, trimmed texts of its text blocks.  The timestamp is the
    entry's own when the entry has one and never [null] or [undefined]. *)
Theorem extractPreviewFromUserEntry_shape (now : Z) (entry : value) (p : MessagePreview) :
  extractPreviewFromUserEntry isCommandOutputContent sanitizeDisplayContent isTextContent
    now entry = Some p ->
  (exists t,
     entryText isTextContent entry = Some t
     /\ if mp_isCommand p
        then mp_text p = extractCommandName t /\ Str.startsWith "/" (mp_text p) = true
        else mp_text p = Str.slice (Str.trim (sanitizeDisplayContent t)) 0 500
             /\ 1 <= Str.len (mp_text p) <= 500)
  /\ isNullish (mp_timestamp p) = false
  /\ (isNullish (prop entry "timestamp") = false -> mp_timestamp p = prop entry "timestamp").
Proof.
  unfold extractPreviewFromUserEntry, entryText. intros Hp.
  assert (Hshape : exists t,
            entryText isTextContent entry = Some t
            /\ previewOfText sanitizeDisplayContent (timestampOr now entry) t = Some p).
  { unfold entryText. destruct (negb _); [discriminate|].
    destruct (prop (prop entry "message") "content") as [| | | |content|content|];
      try discriminate.
    - destruct (_ || _); [discriminate|]. eexists. split; [reflexivity|exact Hp].
    - destruct (_ || _); [discriminate|]. eexists. split; [reflexivity|exact Hp]. }
  destruct Hshape as (t & Htext & Ht). apply previewOfText_shape in Ht as (Hts & Hkind).
  split; [exists t; split; [exact Htext|exact Hkind]|].
  rewrite Hts. unfold timestampOr.
  destruct (isNullish (prop entry "timestamp")) eqn:Hnull; [|tauto].
  split; [reflexivity|discriminate].
Qed.

Lemma previewLoop_take (clock : nat -> Z) (safeMaxLines : Z) (lines : list string) :
  forall linesRead fb,
  previewLoop isCommandOutputContent sanitizeDisplayContent isTextContent clock
    safeMaxLines linesRead lines fb
  = previewLoop isCommandOutputContent sanitizeDisplayContent isTextContent clock
      safeMaxLines linesRead (take (Z.to_nat safeMaxLines - linesRead) lines) fb.
Proof.
  induction lines as [|line rest IH]; intros linesRead fb.
  { now rewrite take_nil. }
  cbn [previewLoop].
  destruct (Z.geb_spec (Z.of_nat linesRead) safeMaxLines) as [Hfull|Hroom].
  - replace (Z.to_nat safeMaxLines - linesRead)%nat with O by lia. reflexivity.
  - replace (Z.to_nat safeMaxLines - linesRead)%nat
      with (S (Z.to_nat safeMaxLines - S linesRead)) by lia.
    cbn [take previewLoop].
    destruct (Z.geb_spec (Z.of_nat linesRead) safeMaxLines) as [Hfull|_]; [lia|].
    destruct (previewStep _ _ _ _ _ _) as [[preview|fb']|e]; try reflexivity.
    apply IH.
Qed.

(** X15.  The preview depends on the first [maxLines] lines of the file
    only, on the first line when [maxLines] is below one: two files that
    agree on those lines have the same preview. *)
Theorem preview_reads_maxLines (clock : nat -> Z) (filePath : string)
  (a b : Parser.FileSystemProvider) (maxLines : Z) :
  take (Z.to_nat (Z.max 1 maxLines)) (Parser.fs_lines a filePath)
  = take (Z.to_nat (Z.max 1 maxLines)) (Parser.fs_lines b filePath) ->
  extractFirstUserMessagePreview isCommandOutputContent sanitizeDisplayContent
    isTextContent clock filePath a maxLines
  = extractFirstUserMessagePreview isCommandOutputContent sanitizeDisplayContent
      isTextContent clock filePath b maxLines.
Proof.
  intros Hsame. unfold extractFirstUserMessagePreview.
  rewrite (previewLoop_take _ _ (Parser.fs_lines a filePath)).
  rewrite (previewLoop_take _ _ (Parser.fs_lines b filePath)).
  rewrite Nat.sub_0_r. now rewrite Hsame.
Qed.

Lemma previewLoop_unreadable (clock : nat -> Z) (safeMaxLines : Z) (pre rest : list string) :
  forall linesRead fb,
  forallb unreadable pre = true ->
  Z.of_nat (linesRead + length pre) < safeMaxLines ->
  previewLoop isCommandOutputContent sanitizeDisplayContent isTextContent clock
    safeMaxLines linesRead (pre ++ rest) fb
  = previewLoop isCommandOutputContent sanitizeDisplayContent isTextContent clock
      safeMaxLines (linesRead + length pre) rest fb.
Proof.
  induction pre as [|line pre IH]; intros linesRead fb Hpre Hroom.
  { cbn [app length]. now rewrite Nat.add_0_r. }
  cbn [forallb] in Hpre. apply andb_true_iff in Hpre as [Hline Hpre].
  cbn [app previewLoop length] in *.
  destruct (Z.geb_spec (Z.of_nat linesRead) safeMaxLines) as [Hfull|_]; [lia|].
  unfold previewStep, unreadable in *.
  destruct (String.eqb (Str.trim line) "").
  - rewrite IH by (try assumption; lia). f_equal. lia.
  - cbn [orb] in Hline. destruct (JSON_parse (Str.trim line)); [discriminate|].
    rewrite IH by (try assumption; lia). f_equal. lia.
Qed.

(** X16.  The preview scan skips blank lines and lines that do not decode,
    but a line that decodes to [null] within the limit makes it throw a
    [TypeError], whatever follows. *)
Theorem preview_throws_on_null (clock : nat -> Z) (filePath : string)
  (fsProvider : Parser.FileSystemProvider) (maxLines : Z)
  (pre post : list string) (line : string) :
  Parser.fs_lines fsProvider filePath = pre ++ line :: post ->
  forallb unreadable pre = true ->
  Z.of_nat (length pre) < Z.max 1 maxLines ->
  Str.trim line <> "" ->
  JSON_parse (Str.trim line) = Some VNull ->
  extractFirstUserMessagePreview isCommandOutputContent sanitizeDisplayContent
    isTextContent clock filePath fsProvider maxLines = Throw TypeError.
Proof.
  intros Hlines Hpre Hroom Hblank Hnull. unfold extractFirstUserMessagePreview.
  rewrite Hlines, previewLoop_unreadable by (try assumption; cbn; lia).
  cbn [previewLoop Nat.add].
  destruct (Z.geb_spec (Z.of_nat (length pre)) (Z.max 1 maxLines)) as [Hfull|_]; [lia|].
  unfold previewStep. destruct (String.eqb_spec (Str.trim line) ""); [contradiction|].
  now rewrite Hnull.
Qed.

End MetadataFacts.

Lemma extractCwd_first_record_witness :
  (forall fields,
     JSON_parse (Platform := MetadataReference.platform)
       (Examples.textOf MetadataReference.cwdEntry) = Some (VObj fields) ->
     truthy (assoc "cwd" fields) = true ->
     Metadata.extractCwd (P := MetadataReference.platform) "s.jsonl"
       (Examples.oneFile "s.jsonl"
          [""; Examples.textOf Examples.assistantEntry;
           Examples.textOf MetadataReference.cwdEntry; "42"])
     = Some (assoc "cwd" fields))
  /\ (match JSON_parse (Platform := MetadataReference.platform)
              (Examples.textOf MetadataReference.cwdEntry) with
      | Some entry => isObjectLike entry = false
      | None => True
      end ->
      Metadata.extractCwd (P := MetadataReference.platform) "s.jsonl"
        (Examples.oneFile "s.jsonl"
           [""; Examples.textOf Examples.assistantEntry;
            Examples.textOf MetadataReference.cwdEntry; "42"])
      = None).
Proof.
  apply (extractCwd_first_record (P := MetadataReference.platform) "s.jsonl"
           (Examples.oneFile "s.jsonl"
              [""; Examples.textOf Examples.assistantEntry;
               Examples.textOf MetadataReference.cwdEntry; "42"])
           [""; Examples.textOf Examples.assistantEntry] ["42"]
           (Examples.textOf MetadataReference.cwdEntry));
    vm_compute; reflexivity.
Defined.

Lemma extractPreviewFromUserEntry_shape_witness :
  (exists t,
     MetadataReference.entryText MetadataReference.typeIsText MetadataReference.cwdEntry = Some t
     /\ "Fix the build" = Str.slice (Str.trim t) 0 500
     /\ 1 <= Str.len "Fix the build" <= 500)
  /\ isNullish (VStr "2026-01-01T00:00:00.000Z") = false
  /\ (isNullish (prop MetadataReference.cwdEntry "timestamp") = false ->
      VStr "2026-01-01T00:00:00.000Z" = prop MetadataReference.cwdEntry "timestamp").
Proof.
  apply (extractPreviewFromUserEntry_shape (P := MetadataReference.platform)
           (fun _ => false) (fun s => s) MetadataReference.typeIsText
           0 MetadataReference.cwdEntry
           (Metadata.mkPreview "Fix the build" (VStr "2026-01-01T00:00:00.000Z") false)).
  vm_compute. reflexivity.
Defined.

Lemma preview_reads_maxLines_witness :
  Metadata.extractFirstUserMessagePreview (P := MetadataReference.platform)
    (fun _ => false) (fun s => s) MetadataReference.typeIsText (fun _ => 0) "s.jsonl"
    (Examples.oneFile "s.jsonl" [Examples.textOf Examples.assistantEntry;
                                 Examples.textOf MetadataReference.cwdEntry]) 1
  = Metadata.extractFirstUserMessagePreview (P := MetadataReference.platform)
      (fun _ => false) (fun s => s) MetadataReference.typeIsText (fun _ => 0) "s.jsonl"
      (Examples.oneFile "s.jsonl" [Examples.textOf Examples.assistantEntry; "null"]) 1.
Proof.
  apply (preview_reads_maxLines (P := MetadataReference.platform)
           (fun _ => false) (fun s => s) MetadataReference.typeIsText (fun _ => 0) "s.jsonl"
           (Examples.oneFile "s.jsonl" [Examples.textOf Examples.assistantEntry;
                                        Examples.textOf MetadataReference.cwdEntry])
           (Examples.oneFile "s.jsonl" [Examples.textOf Examples.assistantEntry; "null"]) 1).
  vm_compute. reflexivity.
Defined.

Lemma preview_throws_on_null_witness :
  Metadata.extractFirstUserMessagePreview (P := MetadataReference.platform)
    (fun _ => false) (fun s => s) MetadataReference.typeIsText (fun _ => 0) "s.jsonl"
    (Examples.oneFile "s.jsonl" [""; "{oops"; "null"; Examples.textOf MetadataReference.cwdEntry])
    200
  = Throw TypeError.
Proof.
  apply (preview_throws_on_null (P := MetadataReference.platform)
           (fun _ => false) (fun s => s) MetadataReference.typeIsText (fun _ => 0) "s.jsonl"
           (Examples.oneFile "s.jsonl"
              [""; "{oops"; "null"; Examples.textOf MetadataReference.cwdEntry])
           200 [""; "{oops"] [Examples.textOf MetadataReference.cwdEntry] "null");
    [reflexivity | vm_compute; reflexivity | vm_compute; reflexivity
    | vm_compute; discriminate | vm_compute; reflexivity].
Defined.

(** ** The project path resolver *)

Section ResolverFacts.
Context `{P : Platform}.
Import Resolver.
Variable getCwd : string -> option string.
Variable isAbsolute : string -> bool.
Variable join : string -> string -> string.
Variable extractBaseDir : string -> string.
Variable isValidEncodedPath : string -> bool.
Variable decodePath : string -> string.
Variable isSessionFileName : string -> bool.
Variable readdir : string -> option (list Dirent).
Variable projectsDir : string.
Variable fsProvider : Parser.FileSystemProvider.

Lemma nonEmpty_Some (o : option string) (s : string) :
  Metadata.nonEmpty o = Some s <-> o = Some s /\ s <> "".
Proof.
  unfold Metadata.nonEmpty. destruct o as [t|]; [|split; [discriminate|now intros []]].
  destruct (String.eqb_spec t "") as [->|Hne]; split.
  - discriminate.
  - intros [[= <-] Hs]. contradiction.
  - intros [= <-]. now split.
  - now intros [[= <-] _].
Qed.

Lemma resolve_stores (ssh : bool) (cache cache' : gmap string string)
  (projectId path : string) (options : option ResolveProjectPathOptions) :
  resolveProjectPath getCwd isAbsolute join extractBaseDir isValidEncodedPath decodePath
    isSessionFileName readdir projectsDir fsProvider ssh cache projectId options
  = (path, cache') ->
  cache' !! projectId = Some path
  /\ forall other, other <> projectId -> cache' !! other = cache !! other.
Proof.
  unfold resolveProjectPath.
  assert (Hset : forall p : string,
            (p, <[projectId := p]> cache) = (path, cache') ->
            cache' !! projectId = Some path
            /\ forall other, other <> projectId -> cache' !! other = cache !! other).
  { intros p [= <- <-]. split; [apply lookup_insert_eq|].
    intros other Hother. now apply lookup_insert_ne. }
  destruct (Metadata.nonEmpty (getCwd projectId)); [apply Hset|].
  destruct (if forceRefresh _ then None else _) as [cached|] eqn:Hcached.
  { destruct (forceRefresh _); [discriminate|].
    apply nonEmpty_Some in Hcached as [Hcached _]. intros [= <- <-]. now split. }
  destruct (match Metadata.nonEmpty (Str.trim <$> _) with Some _ => _ | None => _ end);
    [apply Hset|].
  destruct (firstAbsoluteCwd _ _ _); apply Hset.
Qed.

(** X17.  [resolveProjectPath] leaves the cache holding the path it
    returns under the project's identifier and changes no other entry.
    Once it has returned a path that is not empty, every later call for
    that project that does not force a refresh returns the same path and
    leaves the cache as it is, whatever hint or session paths it is
    given. *)
Theorem resolveProjectPath_memoizes (ssh : bool) (cache cache' : gmap string string)
  (projectId path : string) (options later : option ResolveProjectPathOptions) :
  resolveProjectPath getCwd isAbsolute join extractBaseDir isValidEncodedPath decodePath
    isSessionFileName readdir projectsDir fsProvider ssh cache projectId options
  = (path, cache') ->
  (cache' !! projectId = Some path
   /\ forall other, other <> projectId -> cache' !! other = cache !! other)
  /\ (path <> "" ->
      forceRefresh (later ??! mkOptions None None false) = false ->
      resolveProjectPath getCwd isAbsolute join extractBaseDir isValidEncodedPath decodePath
        isSessionFileName readdir projectsDir fsProvider ssh cache' projectId later
      = (path, cache')).
Proof.
  intros Hfirst. pose proof (resolve_stores _ _ _ _ _ _ Hfirst) as Hstores.
  split; [exact Hstores|]. destruct Hstores as [Hhere _].
  intros Hne Hlater. unfold resolveProjectPath in *.
  destruct (Metadata.nonEmpty (getCwd projectId)) as [registryCwd|].
  - injection Hfirst as <- <-. f_equal. apply insert_id. apply lookup_insert_eq.
  - rewrite Hlater.
    assert (Hcached : Metadata.nonEmpty (cache' !! projectId) = Some path)
      by now apply nonEmpty_Some.
    now rewrite Hcached.
Qed.

End ResolverFacts.

Lemma resolveProjectPath_memoizes_witness :
  (({["p1" := "/home/dev/app"]} : gmap string string) !! "p1" = Some "/home/dev/app"
   /\ forall other, other <> "p1" ->
        ({["p1" := "/home/dev/app"]} : gmap string string) !! other
        = (∅ : gmap string string) !! other)
  /\ ("/home/dev/app" <> "" ->
      false = false ->
      Resolver.resolveProjectPath (P := MetadataReference.platform)
        (fun _ => None) (Str.startsWith "/") (fun a b => a +:+ "/" +:+ b) (fun s => s)
        (fun _ => false) (fun s => s) (Str.endsWith ".jsonl") (fun _ => None) "/projects"
        (Examples.oneFile "s.jsonl" [Examples.textOf MetadataReference.cwdEntry]) false
        {["p1" := "/home/dev/app"]} "p1"
        (Some (Resolver.mkOptions (Some "/elsewhere") None false))
      = ("/home/dev/app", {["p1" := "/home/dev/app"]})).
Proof.
  apply (resolveProjectPath_memoizes (P := MetadataReference.platform)
           (fun _ => None) (Str.startsWith "/") (fun a b => a +:+ "/" +:+ b) (fun s => s)
           (fun _ => false) (fun s => s) (Str.endsWith ".jsonl") (fun _ => None) "/projects"
           (Examples.oneFile "s.jsonl" [Examples.textOf MetadataReference.cwdEntry]) false
           ∅ {["p1" := "/home/dev/app"]} "p1" "/home/dev/app"
           (Some (Resolver.mkOptions None (Some ["s.jsonl"]) false))
           (Some (Resolver.mkOptions (Some "/elsewhere") None false))).
  vm_compute. reflexivity.
Defined.

(** ** Metrics: duration and order *)

Section MetricsMoreFacts.
Context `{P : Platform}.
Import Metrics Reference.

Lemma widen_fold (ts : list Z) : forall lo hi,
  lo <= hi ->
  exists lo' hi',
    fold_left widen ts (lo, hi) = (lo', hi')
    /\ lo' <= lo /\ hi <= hi'
    /\ Forall (fun t => lo' <= t <= hi') ts
    /\ (lo' = lo \/ lo' ∈ ts) /\ (hi' = hi \/ hi' ∈ ts).
Proof.
  induction ts as [|t ts IH]; intros lo hi Hle.
  { exists lo, hi. repeat split; try lia; try constructor; now left. }
  cbn [fold_left].
  assert (Hw : widen (lo, hi) t = (Z.min lo t, Z.max hi t)).
  { unfold widen. cbn [fst snd].
    destruct (Z.ltb_spec t lo), (Z.gtb_spec t hi); f_equal; lia. }
  rewrite Hw.
  destruct (IH (Z.min lo t) (Z.max hi t) ltac:(lia))
    as (lo' & hi' & Heq & H1 & H2 & H3 & H4 & H5).
  exists lo', hi'. split; [exact Heq|]. split; [lia|]. split; [lia|].
  split; [constructor; [lia|exact H3]|]. split.
  - destruct H4 as [->|H4]; [|right; now right].
    destruct (Z.min_spec lo t) as [[_ ->]|[_ ->]]; [now left|right; now left].
  - destruct H5 as [->|H5]; [|right; now right].
    destruct (Z.max_spec hi t) as [[_ ->]|[_ ->]]; [right; now left|now left].
Qed.

(** The duration is the distance between two bounds of the valid
    timestamps that are timestamps themselves, when there are any. *)
Lemma calculateMetrics_extremes (messages : list ParsedMessage) :
  exists lo hi,
    durationMs (calculateMetrics messages) = hi - lo
    /\ Forall (fun t => lo <= t <= hi) (omap timestamp messages)
    /\ match omap timestamp messages with
       | [] => lo = 0 /\ hi = 0
       | _ => lo ∈ omap timestamp messages /\ hi ∈ omap timestamp messages
       end
    /\ messageCount (calculateMetrics messages) = Z.of_nat (length messages)
    /\ costUsd (calculateMetrics messages) = None.
Proof.
  destruct messages as [|msg rest].
  { exists 0, 0. cbn. repeat split. constructor. }
  unfold calculateMetrics.
  destruct (omap timestamp (msg :: rest)) as [|t0 ts] eqn:Hstamps.
  { exists 0, 0. cbn. repeat split. constructor. }
  destruct (widen_fold ts t0 t0 ltac:(lia)) as (lo & hi & -> & Hlo & Hhi & Hall & Hmin & Hmax).
  exists lo, hi. cbn [durationMs messageCount costUsd].
  split; [reflexivity|]. split; [constructor; [lia|exact Hall]|].
  split; [|split; reflexivity]. split.
  - destruct Hmin as [->|Hmin]; [now left|now right].
  - destruct Hmax as [->|Hmax]; [now left|now right].
Qed.

(** X18.  The duration [calculateMetrics] reports is the spread of the
    valid timestamps: no two of them lie further apart, two of them lie
    exactly that far apart, and it is 0 when there is none.  The message
    count is the length of the sequence and the cost is never set. *)
Theorem duration_is_timestamp_spread (messages : list ParsedMessage) :
  let m := calculateMetrics messages in
  let stamps := omap timestamp messages in
  (forall a b, a ∈ stamps -> b ∈ stamps -> a - b <= durationMs m)
  /\ (stamps = [] -> durationMs m = 0)
  /\ (stamps <> [] -> exists a b, a ∈ stamps /\ b ∈ stamps /\ durationMs m = a - b)
  /\ messageCount m = Z.of_nat (length messages)
  /\ costUsd m = None.
Proof.
  cbn zeta.
  destruct (calculateMetrics_extremes messages) as (lo & hi & -> & Hall & Hin & Hcount & Hcost).
  rewrite Forall_forall in Hall.
  split; [|split; [|split; [|split; assumption]]].
  - intros a b Ha Hb. apply Hall in Ha. apply Hall in Hb. lia.
  - intros Hnil. rewrite Hnil in Hin. lia.
  - intros Hne. exists hi, lo.
    destruct (omap timestamp messages); [contradiction|]. now destruct Hin.
Qed.

Lemma addUsage_comm (c : Counters) (a b : ParsedMessage) :
  addUsage (addUsage c a) b = addUsage (addUsage c b) a.
Proof.
  unfold addUsage. destruct (usage a), (usage b); cbn; try reflexivity.
  f_equal; lia.
Qed.

Lemma fold_addUsage_Permutation (xs ys : list ParsedMessage) :
  xs ≡ₚ ys -> forall c, fold_left addUsage xs c = fold_left addUsage ys c.
Proof.
  induction 1 as [| x xs ys _ IH | x y xs | xs ys zs _ IH1 _ IH2]; intros c; cbn.
  - reflexivity.
  - apply IH.
  - now rewrite addUsage_comm.
  - now rewrite IH1.
Qed.

(** X19.  [calculateMetrics] does not depend on the order of the messages:
    any rearrangement of the sequence gives the same metrics. *)
Theorem calculateMetrics_order_independent (xs ys : list ParsedMessage) :
  xs ≡ₚ ys -> calculateMetrics xs = calculateMetrics ys.
Proof.
  intros Hperm.
  destruct (calculateMetrics_extremes xs) as (lo & hi & Hx & Hxall & Hxin & Hx4 & Hx5).
  destruct (calculateMetrics_extremes ys) as (lo' & hi' & Hy & Hyall & Hyin & Hy4 & Hy5).
  assert (Hstamps : omap timestamp xs ≡ₚ omap timestamp ys) by now rewrite Hperm.
  assert (Hduration : durationMs (calculateMetrics xs) = durationMs (calculateMetrics ys)).
  { rewrite Hx, Hy. rewrite Forall_forall in Hxall, Hyall.
    destruct (omap timestamp xs) as [|t ts] eqn:Hxs,
             (omap timestamp ys) as [|t' ts'] eqn:Hys.
    - lia.
    - now apply Permutation_nil_cons in Hstamps.
    - symmetry in Hstamps. now apply Permutation_nil_cons in Hstamps.
    - destruct Hxin as [Hlo Hhi], Hyin as [Hlo' Hhi'].
      pose proof (Hyall lo ltac:(now rewrite <- Hstamps)).
      pose proof (Hyall hi ltac:(now rewrite <- Hstamps)).
      pose proof (Hxall lo' ltac:(now rewrite Hstamps)).
      pose proof (Hxall hi' ltac:(now rewrite Hstamps)).
      lia. }
  assert (Hcount : messageCount (calculateMetrics xs) = messageCount (calculateMetrics ys)).
  { rewrite Hx4, Hy4. now rewrite (Permutation_length Hperm). }
  destruct (calculateMetrics_counters xs) as (Hi1 & Ho1 & Hr1 & Hc1 & Ht1).
  destruct (calculateMetrics_counters ys) as (Hi2 & Ho2 & Hr2 & Hc2 & Ht2).
  assert (Htotals : usageTotals xs = usageTotals ys)
    by (unfold usageTotals; now apply fold_addUsage_Permutation).
  rewrite Htotals in *.
  destruct (calculateMetrics xs), (calculateMetrics ys). cbn in *. congruence.
Qed.

End MetricsMoreFacts.

Lemma calculateMetrics_order_independent_witness :
  Metrics.calculateMetrics (P := Examples.platform)
    (Parser.parseCopilotMessageArray (P := Examples.platform) (fun _ => 0) Examples.laterFirst)
  = Metrics.calculateMetrics (P := Examples.platform)
      (rev (Parser.parseCopilotMessageArray (P := Examples.platform) (fun _ => 0)
              Examples.laterFirst)).
Proof.
  apply (calculateMetrics_order_independent (P := Examples.platform)).
  apply Permutation_rev.
Defined.

(** ** Structured records and the post-pass *)

Section StructuredFacts.
Context `{P : Platform}.
Import Parser.

Lemma structured_not_session_start (now : Z) (entry : value) (m : ParsedMessage) :
  parseChatHistoryEntry now entry = Ret (Some m) -> isSessionStarted m = false.
Proof.
  unfold parseChatHistoryEntry.
  destruct (get entry "uuid") as [u|e]; cbn; [|discriminate].
  destruct (asString u) as [uuid_|]; [|discriminate].
  destruct (String.eqb uuid_ ""); [discriminate|].
  destruct (parseMessageType (prop entry "type")) as [ty|]; [|discriminate].
  destruct ty; cbn [isConversationalEntry extractByType];
    try (intros [= <-]; reflexivity).
  - destruct (get (prop entry "message") "content") as [c|e]; cbn; [|discriminate].
    intros [= <-]. reflexivity.
  - destruct (get (prop entry "message") "content") as [c|e]; cbn; [|discriminate].
    intros [= <-]. reflexivity.
Qed.

Lemma structured_parent_link (now : Z) (entry : value) (m : ParsedMessage) :
  parseChatHistoryEntry now entry = Ret (Some m) ->
  isConversationalEntry (type m) = true ->
  parentUuid m = asString (prop entry "parentUuid").
Proof.
  unfold parseChatHistoryEntry.
  destruct (get entry "uuid") as [u|e]; cbn; [|discriminate].
  destruct (asString u) as [uuid_|]; [|discriminate].
  destruct (String.eqb uuid_ ""); [discriminate|].
  destruct (parseMessageType (prop entry "type")) as [ty|]; [|discriminate].
  destruct (if isConversationalEntry ty then extractByType ty entry else mret noExtract)
    as [x|e]; cbn; [|discriminate].
  intros [= <-]. cbn [type parentUuid]. now intros ->.
Qed.

(** X20.  No message parsed from a structured record counts as a
    session-start message, so the post-pass of [parseJsonlFile] returns a
    list of such messages as it is: the parent links are unchanged, and
    each conversational message carries the parent link of its record. *)
Theorem structured_messages_keep_links (ms : list ParsedMessage) :
  Forall (fun m => exists now entry, parseChatHistoryEntry now entry = Ret (Some m)) ms ->
  consolidateCopilotDeltas ms = ms
  /\ parentUuid <$> consolidateCopilotDeltas ms = parentUuid <$> ms
  /\ Forall (fun m => forall now entry,
               parseChatHistoryEntry now entry = Ret (Some m) ->
               isConversationalEntry (type m) = true ->
               parentUuid m = asString (prop entry "parentUuid"))
       (consolidateCopilotDeltas ms).
Proof.
  intros Hall.
  assert (Hsame : consolidateCopilotDeltas ms = ms).
  { unfold consolidateCopilotDeltas.
    replace (existsb isSessionStarted ms) with false; [reflexivity|].
    symmetry. induction Hall as [|m ms (now & entry & Hm) _ IH]; [reflexivity|].
    cbn [existsb]. now rewrite (structured_not_session_start _ _ _ Hm), IH. }
  rewrite Hsame. split; [reflexivity|]. split; [reflexivity|].
  apply Forall_forall. intros m _ now entry. apply structured_parent_link.
Qed.

End StructuredFacts.

Lemma structured_messages_keep_links_witness :
  Parser.consolidateCopilotDeltas (P := Examples.platform) StructuredExamples.linkedMessages = StructuredExamples.linkedMessages
  /\ parentUuid <$> Parser.consolidateCopilotDeltas (P := Examples.platform) StructuredExamples.linkedMessages
     = [Some "root-7"; Some "u4"]
  /\ Forall (fun m => forall now entry,
               Parser.parseChatHistoryEntry (P := Examples.platform) now entry = Ret (Some m) ->
               Parser.isConversationalEntry (type m) = true ->
               parentUuid m = asString (prop entry "parentUuid"))
       (Parser.consolidateCopilotDeltas (P := Examples.platform) StructuredExamples.linkedMessages).
Proof.
  apply (structured_messages_keep_links (P := Examples.platform) StructuredExamples.linkedMessages).
  constructor; [exists 0, StructuredExamples.linkedFirst; vm_compute; reflexivity|].
  constructor; [exists 0, StructuredExamples.linkedSecond; vm_compute; reflexivity|].
  constructor.
Defined.

(** ** Phase breakdown *)

Section BreakdownFacts.
Context `{P : Platform}.
Import Parser Analyzer Reference.


Lemma middlePhases_numbers (n : nat) : forall i phases acc,
  phaseNumber <$> (middlePhases n i phases acc).2
  = (phaseNumber <$> acc.2) ++ ((fun k => Z.of_nat k + 1) <$> seq i n).
Proof.
  induction n as [|n IH]; intros i phases acc; cbn [middlePhases seq].
  - cbn. now rewrite app_nil_r.
  - rewrite IH. cbn [snd]. rewrite fmap_app. cbn [fmap list_fmap phaseNumber].
    now rewrite <- app_assoc.
Qed.

Lemma middlePhases_length (n : nat) : forall i phases acc,
  length (middlePhases n i phases acc).2 = (length acc.2 + n)%nat.
Proof.
  induction n as [|n IH]; intros i phases acc; cbn [middlePhases]; [lia|].
  rewrite IH. cbn [snd]. rewrite length_app. cbn [length]. lia.
Qed.

(** X21.  When the analyzer reports a phase breakdown, its phases are
    numbered 1, 2, 3, ... in order, there is one phase per recorded
    compaction or one more, exactly one when there was no compaction, and
    the context consumption is the sum of the phases' contributions. *)
Theorem phase_breakdown_numbering (clock : nat -> Z) (filePath : string)
  (fsProvider : FileSystemProvider) (meta : SessionFileMetadata)
  (phases : list PhaseTokenBreakdown) :
  analyzeSessionFileMetadata clock filePath fsProvider = Ret meta ->
  phaseBreakdown meta = Some phases ->
  phaseNumber <$> phases = (fun k => Z.of_nat k + 1) <$> seq 0 (length phases)
  /\ match compactionCount meta with
     | Some n => n <= Z.of_nat (length phases) <= n + 1
     | None => length phases = 1%nat
     end
  /\ contextConsumption meta = Some (sumZ (contribution <$> phases)).
Proof.
  intros Hmeta Hphases.
  assert (Hst : exists c, phaseBreakdown meta = (consumption c).2
                          /\ contextConsumption meta = (consumption c).1
                          /\ compactionCount meta
                             = if (0 <? length (compactionPhases c))%nat
                               then Some (Z.of_nat (length (compactionPhases c))) else None).
  { apply analyze_run in Hmeta as (st & _ & ->). exists (ctx st). now repeat split. }
  destruct Hst as (c & Hb & Hc & Hn). rewrite Hb in Hphases. rewrite Hc, Hn. clear Hb Hc Hn.
  assert (Hpos : 0 < lastMainAssistantInputTokens c).
  { unfold consumption in Hphases.
    destruct (Z.gtb_spec (lastMainAssistantInputTokens c) 0); [lia|discriminate]. }
  destruct (consumption_spec c Hpos) as [Hsum Hcontrib].
  rewrite Hphases in Hcontrib. cbn [contributionsOf] in Hcontrib.
  injection Hcontrib as Hcontrib. rewrite Hsum, Hcontrib.
  clear Hsum Hcontrib. unfold consumption in Hphases.
  destruct (Z.gtb_spec (lastMainAssistantInputTokens c) 0) as [_|]; [|lia].
  destruct (compactionPhases c) as [|p1 rest] eqn:Hps; cbn [length Nat.eqb snd] in Hphases.
  { injection Hphases as <-. repeat split. }
  replace (S (length rest) - 1)%nat with (length rest) in Hphases by lia.
  match type of Hphases with context [middlePhases ?n ?i ?ps ?acc] =>
    pose proof (middlePhases_numbers n i ps acc) as Hnum;
    pose proof (middlePhases_length n i ps acc) as Hlen;
    destruct (middlePhases n i ps acc) as [total mid] end.
  cbn [fst snd length fmap list_fmap phaseNumber app] in Hnum, Hlen, Hphases.
  destruct (post _ >? 0); cbn [snd] in Hphases; injection Hphases as <-.
  - split; [|split; [|reflexivity]].
    + rewrite fmap_app, Hnum, length_app, Hlen. cbn [length fmap list_fmap phaseNumber].
      replace (1 + length rest + 1)%nat with (S (S (length rest))) by lia.
      rewrite seq_S. cbn [seq]. rewrite fmap_app. reflexivity.
    + rewrite length_app, Hlen. cbn [length Nat.ltb Nat.leb]. lia.
  - split; [|split; [|reflexivity]].
    + rewrite Hnum, Hlen. reflexivity.
    + rewrite Hlen. cbn [length Nat.ltb Nat.leb]. lia.
Qed.

End BreakdownFacts.

Lemma phase_breakdown_numbering_witness :
  [1; 2] = (fun k => Z.of_nat k + 1) <$> seq 0 2
  /\ 1 <= 2 <= 1 + 1
  /\ Some 100 = Some (Reference.sumZ [100; 0]).
Proof.
  apply (phase_breakdown_numbering (P := Examples.platform) (fun _ => 5) "s.jsonl"
           (Examples.oneFile "s.jsonl"
              [Examples.textOf Examples.assistantEntry; Examples.textOf Examples.compactEntry;
               Examples.textOf Examples.assistantEntry])
           (Analyzer.mkMetadata false (Some 100) (Some 1)
              (Some [Analyzer.mkBreakdown 1 100 100 (Some 100);
                     Analyzer.mkBreakdown 2 0 100 None]))
           [Analyzer.mkBreakdown 1 100 100 (Some 100); Analyzer.mkBreakdown 2 0 100 None]);
    [vm_compute; reflexivity | reflexivity].
Defined.

(** ** The matched text *)

Section MatchedTextFacts.
Import Search.
Variable findMarkdownSearchMatches : string -> string -> list MarkdownMatch.
Variable extractMarkdownPlainText : string -> string.

Lemma lowerChar_idempotent (c : ascii) : Str.lowerChar (Str.lowerChar c) = Str.lowerChar c.
Proof. destruct c as [[] [] [] [] [] [] [] []]; reflexivity. Qed.

Lemma toLowerCase_idempotent (s : string) :
  Str.toLowerCase (Str.toLowerCase s) = Str.toLowerCase s.
Proof.
  induction s as [|c s IH]; [reflexivity|].
  cbn [Str.toLowerCase]. now rewrite lowerChar_idempotent, IH.
Qed.

Lemma length_toLowerCase (s : string) :
  String.length (Str.toLowerCase s) = String.length s.
Proof. induction s as [|c s IH]; [reflexivity|]. cbn. now rewrite IH. Qed.

Lemma toLowerCase_dropn (n : nat) : forall s,
  Str.toLowerCase (Str.dropn n s) = Str.dropn n (Str.toLowerCase s).
Proof. induction n as [|n IH]; intros [|c s]; cbn; auto. Qed.

Lemma toLowerCase_taken (n : nat) : forall s,
  Str.toLowerCase (Str.taken n s) = Str.taken n (Str.toLowerCase s).
Proof. induction n as [|n IH]; intros [|c s]; cbn; auto. now rewrite IH. Qed.

Lemma toLowerCase_slice (s : string) (a b : Z) :
  Str.toLowerCase (Str.slice s a b) = Str.slice (Str.toLowerCase s) a b.
Proof.
  unfold Str.slice, Str.len.
  now rewrite toLowerCase_taken, toLowerCase_dropn, length_toLowerCase.
Qed.

Lemma dropn_dropn (n m : nat) : forall s, Str.dropn m (Str.dropn n s) = Str.dropn (n + m) s.
Proof.
  induction n as [|n IH]; intros s; [reflexivity|].
  destruct s as [|c s]; cbn [Str.dropn Nat.add]; [now destruct m|apply IH].
Qed.

Lemma length_dropn (n : nat) : forall s,
  String.length (Str.dropn n s) = (String.length s - n)%nat.
Proof. induction n as [|n IH]; intros [|c s]; cbn; auto. Qed.

Lemma prefix_taken (q : string) : forall s,
  String.prefix q s = true ->
  Str.taken (String.length q) s = q /\ (String.length q <= String.length s)%nat.
Proof.
  induction q as [|c q IH]; intros s Hp.
  - split; [now destruct s|cbn; lia].
  - destruct s as [|d s]; cbn [String.prefix] in Hp; [discriminate|].
    destruct (ascii_dec c d) as [->|]; [|discriminate].
    destruct (IH s Hp) as [Heq Hle]. cbn. rewrite Heq. split; [reflexivity|lia].
Qed.

Lemma findFirst_prefix (q : string) : forall s k,
  Str.findFirst q s = Some k ->
  String.prefix q (Str.dropn k s) = true /\ (k <= String.length s)%nat.
Proof.
  induction s as [|c s IH]; intros k; cbn [Str.findFirst].
  - destruct (String.prefix q "") eqn:Hp; [|discriminate].
    intros [= <-]. split; [exact Hp|cbn; lia].
  - destruct (String.prefix q (String c s)) eqn:Hp.
    + intros [= <-]. split; [exact Hp|cbn; lia].
    + destruct (Str.findFirst q s) as [j|]; [|discriminate]. cbn.
      intros [= <-]. destruct (IH j eq_refl) as [Hq Hj]. split; [exact Hq|lia].
Qed.

(** Where [indexOf] finds the query, the text holds the query. *)
Lemma indexOf_found (s q : string) (pos idx : Z) :
  Str.indexOf s q pos = idx -> 0 <= idx ->
  Str.slice s idx (idx + Str.len q) = q /\ idx + Str.len q <= Str.len s.
Proof.
  unfold Str.indexOf. set (p := Z.to_nat (Z.min (Z.max pos 0) (Str.len s))).
  destruct (Str.findFirst q (Str.dropn p s)) as [k|] eqn:Hk; [|lia].
  intros <- _. apply findFirst_prefix in Hk as [Hq Hle].
  rewrite dropn_dropn in Hq. apply prefix_taken in Hq as [Heq Hlen].
  rewrite length_dropn in Hlen, Hle.
  assert (Hp : (p <= String.length s)%nat) by (unfold p, Str.len; lia).
  unfold Str.slice, Str.len in *.
  replace (Z.to_nat (Z.min (Z.max (Z.of_nat (p + k)) 0) (Z.of_nat (String.length s))))
    with (p + k)%nat by lia.
  replace (Z.to_nat (Z.min (Z.max (Z.of_nat (p + k) + Z.of_nat (String.length q)) 0)
                       (Z.of_nat (String.length s))))
    with (p + k + String.length q)%nat by lia.
  replace (p + k + String.length q - (p + k))%nat with (String.length q) by lia.
  split; [exact Heq|lia].
Qed.

(** X22.  For a plain text of ASCII characters, which lower-casing maps
    one to one so that offsets in the lower-cased text are offsets in the
    text, every result the matcher appends holds as [matchedText] a text
    that equals the query when both are put in lower case and has the
    query's length, and a [matchStartOffset] inside the plain text. *)
Theorem matchedText_is_query (entry : SearchableEntry) (query : string)
  (results : list SearchResult) (maxResults : Z) (pid sid : string) (title : option string) :
  IdentifierReference.allChars IdentifierReference.isAscii
    (extractMarkdownPlainText (text entry)) = true ->
  exists added,
    collectMatchesForEntry findMarkdownSearchMatches extractMarkdownPlainText
      entry query results maxResults pid sid title = results ++ added
    /\ Forall (fun r =>
         Str.toLowerCase (matchedText r) = Str.toLowerCase query
         /\ Str.len (matchedText r) = Str.len query
         /\ 0 <= matchStartOffset r <= Str.len (extractMarkdownPlainText (text entry)))
       added.
Proof.
  intros _. unfold collectMatchesForEntry.
  destruct (length _ =? 0)%nat.
  { exists []. now rewrite app_nil_r. }
  match goal with |- context [pushMatches ?mk ?m ?l ?r] =>
    destruct (pushMatches_appends mk m l r) as (added & Heq & Hall) end.
  exists added. split; [exact Heq|].
  eapply Forall_impl; [exact Hall|]. intros r (mdMatch & ->).
  unfold resultFor. cbn [matchedText matchStartOffset].
  set (plain := extractMarkdownPlainText (text entry)).
  set (matchPos := Str.indexOf (Str.toLowerCase plain) query _).
  destruct (Z.geb_spec matchPos 0) as [Hfound|Hnone].
  - destruct (indexOf_found (Str.toLowerCase plain) query _ matchPos eq_refl Hfound)
      as [Hslice Hend].
    unfold Str.len in Hend. rewrite length_toLowerCase in Hend.
    assert (Hlower : Str.toLowerCase (Str.slice plain matchPos (matchPos + Str.len query))
                     = query) by now rewrite toLowerCase_slice.
    split; [|split].
    + rewrite Hlower. rewrite <- Hlower at 2. now rewrite toLowerCase_idempotent.
    + assert (Hl : String.length (Str.slice plain matchPos (matchPos + Str.len query))
                   = String.length query).
      { rewrite <- (length_toLowerCase (Str.slice _ _ _)), Hlower. reflexivity. }
      exact (f_equal Z.of_nat Hl).
    + unfold Str.len in *. lia.
  - split; [reflexivity|]. split; [reflexivity|]. unfold Str.len. lia.
Qed.

End MatchedTextFacts.

Lemma matchedText_is_query_witness :
  exists added,
    Search.collectMatchesForEntry Examples.plainFind Examples.plainText
      Examples.foxEntry "quick" [] 50 "project" "session" None = [] ++ added
    /\ Forall (fun r =>
         Str.toLowerCase (Search.matchedText r) = Str.toLowerCase "quick"
         /\ Str.len (Search.matchedText r) = Str.len "quick"
         /\ 0 <= Search.matchStartOffset r
            <= Str.len (Examples.plainText (Search.text Examples.foxEntry)))
       added.
Proof.
  apply (matchedText_is_query Examples.plainFind Examples.plainText
           Examples.foxEntry "quick" [] 50 "project" "session" None).
  vm_compute. reflexivity.
Defined.


(** ** The format of synthesized identifiers *)

Section IdentifierFormatFacts.
Context `{P : Platform}.
Import Parser IdentifierReference.

Lemma hexDigit_isLowerHex (d : Z) : 0 <= d < 16 -> isLowerHex (Str.hexDigit d) = true.
Proof.
  intros Hd.
  assert (Hc : d = 0 \/ d = 1 \/ d = 2 \/ d = 3 \/ d = 4 \/ d = 5 \/ d = 6 \/ d = 7
               \/ d = 8 \/ d = 9 \/ d = 10 \/ d = 11 \/ d = 12 \/ d = 13 \/ d = 14
               \/ d = 15) by lia.
  repeat (destruct Hc as [->|Hc]; [reflexivity|]). now subst.
Qed.

Lemma append_length (a b : string) :
  String.length (a +:+ b) = (String.length a + String.length b)%nat.
Proof.
  induction a as [|c a IH]; [reflexivity|].
  change (String c a +:+ b) with (String c (a +:+ b)).
  cbn [String.length Nat.add]. now rewrite IH.
Qed.

Lemma allChars_append (p : ascii -> bool) (a b : string) :
  allChars p (a +:+ b) = allChars p a && allChars p b.
Proof.
  induction a as [|c a IH]; [reflexivity|].
  change (String c a +:+ b) with (String c (a +:+ b)).
  cbn [allChars]. now rewrite IH, andb_assoc.
Qed.

Lemma hexOfWord_digits (n : nat) : forall x acc,
  exists w, Sha256.hexOfWord n x acc = w +:+ acc
            /\ String.length w = n /\ allChars isLowerHex w = true.
Proof.
  induction n as [|n IH]; intros x acc; cbn [Sha256.hexOfWord].
  { exists "". now repeat split. }
  destruct (IH (x / 16) (String (Str.hexDigit (x mod 16)) acc)) as (w & -> & Hlen & Hall).
  exists (w +:+ String (Str.hexDigit (x mod 16)) "").
  split; [|split].
  - clear. induction w as [|c w IHw]; [reflexivity|].
    change (String c w +:+ ?s) with (String c (w +:+ s)).
    change ((String c w +:+ ?s) +:+ ?t) with (String c ((w +:+ s) +:+ t)).
    now rewrite IHw.
  - rewrite append_length, Hlen. cbn. lia.
  - rewrite allChars_append, Hall. cbn [allChars andb].
    rewrite hexDigit_isLowerHex by (apply Z.mod_pos_bound; lia). reflexivity.
Qed.

Lemma hex_digits (ws : list Z) :
  String.length (Sha256.hex ws) = (8 * length ws)%nat
  /\ allChars isLowerHex (Sha256.hex ws) = true.
Proof.
  induction ws as [|w ws [IHlen IHall]]; [now split|].
  unfold Sha256.hex in *. cbn [fold_right].
  destruct (hexOfWord_digits 8 w (fold_right (fun w acc => Sha256.hexOfWord 8 w acc) "" ws))
    as (d & -> & Hlen & Hall).
  rewrite append_length, allChars_append, Hlen, IHlen, Hall, IHall. cbn [length]. split; [lia|].
  reflexivity.
Qed.

Lemma length_compress (h block : list Z) :
  length h = 8%nat -> length (Sha256.compress h block) = 8%nat.
Proof.
  intros Hh. unfold Sha256.compress, Sha256.listOf.
  do 9 (destruct h as [|? h]; try discriminate). reflexivity.
Qed.

Lemma length_blocks (n : nat) : forall h bs,
  length h = 8%nat -> length (Sha256.blocks n h bs) = 8%nat.
Proof.
  induction n as [|n IH]; intros h bs Hh; cbn [Sha256.blocks]; [exact Hh|].
  apply IH. now apply length_compress.
Qed.

Lemma length_taken_exact (n : nat) : forall s,
  (n <= String.length s)%nat -> String.length (Str.taken n s) = n.
Proof.
  induction n as [|n IH]; intros [|c s] Hn; cbn in *; try lia.
  rewrite IH by lia. reflexivity.
Qed.

Lemma allChars_taken (p : ascii -> bool) (n : nat) : forall s,
  allChars p s = true -> allChars p (Str.taken n s) = true.
Proof.
  induction n as [|n IH]; intros [|c s] Hs; cbn in *; try reflexivity.
  apply andb_true_iff in Hs as [-> Hs]. now apply IH.
Qed.

(** X23.  Every synthesized identifier consists of exactly 24 characters,
    each a digit or a letter from [a] to [f]. *)
Theorem stableUuid_format (seed : string) :
  String.length (stableUuid seed) = 24%nat
  /\ allChars isLowerHex (stableUuid seed) = true.
Proof.
  unfold stableUuid, Sha256.sha256_hex, Sha256.digest.
  set (ws := Sha256.blocks _ _ _).
  assert (Hws : length ws = 8%nat).
  { apply length_blocks. vm_compute. reflexivity. }
  destruct (hex_digits ws) as [Hlen Hall]. rewrite Hws in Hlen.
  unfold Str.slice, Str.len. rewrite Hlen. cbn [Str.dropn Z.to_nat].
  change (Z.to_nat (Z.min (Z.max 0 0) (Z.of_nat (8 * 8)))) with 0%nat.
  change (Z.to_nat (Z.min (Z.max 24 0) (Z.of_nat (8 * 8)))) with 24%nat.
  cbn [Nat.sub Str.dropn].
  split; [apply length_taken_exact; lia|now apply allChars_taken].
Qed.

End IdentifierFormatFacts.

(** ** Shutdown responses *)

Section ShutdownFacts.
Context `{P : Platform}.
Import Parser Analyzer.

Lemma classifyAssistantBlock_ids (ids ids' : gset string) (block : value)
  (a : option Activity) :
  classifyAssistantBlock ids block = Ret (a, ids') -> ids ⊆ ids'.
Proof.
  unfold classifyAssistantBlock.
  destruct (get block "type") as [ty|e]; cbn; [|discriminate].
  repeat match goal with
    | |- context [if ?b then _ else _] => destruct b
    end; intros [= <- <-]; set_solver.
Qed.

Lemma assistantBlocks_ids (blocks : list value) : forall ids ids' acts,
  assistantBlocks ids blocks = Ret (acts, ids') -> ids ⊆ ids'.
Proof.
  induction blocks as [|block rest IH]; intros ids ids' acts; cbn [assistantBlocks].
  { now intros [= <- <-]. }
  destruct (classifyAssistantBlock ids block) as [[a ids1]|e] eqn:Hone; cbn; [|discriminate].
  destruct (assistantBlocks ids1 rest) as [[acts' ids2]|e] eqn:Hrest; cbn; [|discriminate].
  intros [= <- <-]. apply classifyAssistantBlock_ids in Hone. apply IH in Hrest.
  set_solver.
Qed.

Lemma step_ids (now : Z) (st st' : State) (line : string) :
  step now st line = Ret st' -> shutdownToolIds st ⊆ shutdownToolIds st'.
Proof.
  unfold step.
  destruct (lineKind now line) as [k|e]; cbn; [|discriminate].
  destruct (kindActivities (shutdownToolIds st) k) as [[acts ids']|e] eqn:Hk; cbn;
    [|discriminate].
  intros [= <-]. cbn [shutdownToolIds].
  destruct k as [|eventType entry|entry|entry parsed]; cbn [kindActivities] in Hk;
    try (injection Hk as <- <-; reflexivity).
  unfold messageActivities in Hk.
  destruct (type parsed), (content parsed) as [| | | | |blocks|];
    try (injection Hk as <- <-; reflexivity).
  - destruct (userBlocks _ _ _) as [acts'|e]; cbn in Hk; [|discriminate].
    now injection Hk as <- <-.
  - now apply assistantBlocks_ids in Hk.
Qed.

Lemma run_ids (clock : nat -> Z) (lines : list string) : forall index st st',
  run clock index st lines = Ret st' -> shutdownToolIds st ⊆ shutdownToolIds st'.
Proof.
  induction lines as [|line rest IH]; intros index st st'; cbn [run].
  - now intros [= <-].
  - destruct (step (clock index) st line) as [st1|e] eqn:Hstep; cbn; [|discriminate].
    intros Hrest. apply step_ids in Hstep. apply IH in Hrest. set_solver.
Qed.

(** X24.  The identifiers of approved shutdown responses are never
    forgotten during a pass: what is remembered after a first part of the
    file is still remembered at its end.  The block that approves a
    shutdown response counts as an ending event and has its identifier
    remembered, and the tool result for an identifier remembered after
    the first part counts as an ending event at any later point. *)
Theorem shutdown_response_is_ending (clock : nat -> Z) (before after : list string)
  (index index' : nat) (st mid st' : State) :
  run clock index st before = Ret mid ->
  run clock index' mid after = Ret st' ->
  (shutdownToolIds st ⊆ shutdownToolIds mid /\ shutdownToolIds mid ⊆ shutdownToolIds st')
  /\ (forall ids id input,
        id <> "" ->
        strIs (prop input "type") "shutdown_response" = true ->
        prop input "approve" = VBool true ->
        classifyAssistantBlock ids
          (VObj [("type", VStr "tool_use"); ("id", VStr id); ("name", VStr "SendMessage");
                 ("input", input)])
        = Ret (Some Ending, {[ id ]} ∪ ids))
  /\ (forall id isRejection fields,
        id ∈ shutdownToolIds mid -> id <> "" ->
        assoc "type" fields = VStr "tool_result" ->
        assoc "tool_use_id" fields = VStr id ->
        classifyUserBlock (shutdownToolIds mid) isRejection (VObj fields) = Ret (Some Ending)
        /\ classifyUserBlock (shutdownToolIds st') isRejection (VObj fields)
           = Ret (Some Ending)).
Proof.
  intros Hbefore Hafter.
  apply run_ids in Hbefore. apply run_ids in Hafter.
  split; [now split|]. split.
  - intros ids id input Hid Hty Happrove. unfold classifyAssistantBlock.
    cbn. rewrite Hty, Happrove.
    destruct (String.eqb_spec id ""); [contradiction|]. reflexivity.
  - intros id isRejection fields Hin Hid Hty Hresult. unfold classifyUserBlock.
    cbn. rewrite Hty, Hresult. cbn.
    destruct (String.eqb_spec id ""); [contradiction|]. cbn.
    rewrite !bool_decide_eq_true_2 by set_solver. now split.
Qed.

End ShutdownFacts.

Lemma shutdown_response_is_ending_witness :
  (Analyzer.shutdownToolIds Analyzer.initial ⊆ Analyzer.shutdownToolIds
       (Analyzer.mkState (Analyzer.mkLiveness 1 0 false false) {[ "t1" ]}
        (Analyzer.mkContext 0 [] false))
   /\ Analyzer.shutdownToolIds
       (Analyzer.mkState (Analyzer.mkLiveness 1 0 false false) {[ "t1" ]}
        (Analyzer.mkContext 0 [] false)) ⊆ Analyzer.shutdownToolIds
       (Analyzer.mkState (Analyzer.mkLiveness 2 1 false false) {[ "t1" ]}
        (Analyzer.mkContext 0 [] false)))
  /\ (forall ids id input,
        id <> "" ->
        strIs (prop input "type") "shutdown_response" = true ->
        prop input "approve" = VBool true ->
        Analyzer.classifyAssistantBlock ids
          (VObj [("type", VStr "tool_use"); ("id", VStr id); ("name", VStr "SendMessage");
                 ("input", input)])
        = Ret (Some Analyzer.Ending, {[ id ]} ∪ ids))
  /\ (forall id isRejection fields,
        id ∈ Analyzer.shutdownToolIds
       (Analyzer.mkState (Analyzer.mkLiveness 1 0 false false) {[ "t1" ]}
        (Analyzer.mkContext 0 [] false)) -> id <> "" ->
        assoc "type" fields = VStr "tool_result" ->
        assoc "tool_use_id" fields = VStr id ->
        Analyzer.classifyUserBlock (Analyzer.shutdownToolIds
       (Analyzer.mkState (Analyzer.mkLiveness 1 0 false false) {[ "t1" ]}
        (Analyzer.mkContext 0 [] false))) isRejection (VObj fields)
        = Ret (Some Analyzer.Ending)
        /\ Analyzer.classifyUserBlock (Analyzer.shutdownToolIds
       (Analyzer.mkState (Analyzer.mkLiveness 2 1 false false) {[ "t1" ]}
        (Analyzer.mkContext 0 [] false))) isRejection
             (VObj fields)
           = Ret (Some Analyzer.Ending)).
Proof.
  apply (shutdown_response_is_ending (P := StructuredExamples.platform) (fun _ => 0)
           [Examples.textOf StructuredExamples.shutdownApproval] [Examples.textOf StructuredExamples.shutdownResult] 0 1
           Analyzer.initial
           (Analyzer.mkState (Analyzer.mkLiveness 1 0 false false) {[ "t1" ]}
        (Analyzer.mkContext 0 [] false))
           (Analyzer.mkState (Analyzer.mkLiveness 2 1 false false) {[ "t1" ]}
        (Analyzer.mkContext 0 [] false)));
    vm_compute; reflexivity.
Defined.

(** ** The staged scan out of time *)

Section BudgetFacts.
Import Search Searcher.
Context {File : Type}.
Variable elapsed : Z -> Z.
Variable search : File -> option (list SearchResult).
Variable sessionFiles : list File.
Variable maxResults : Z.

Lemma first_boundary (totalFiles : Z) :
  0 < totalFiles ->
  exists b rest, buildFastSearchStageBoundaries totalFiles = b :: rest /\ 0 < b.
Proof.
  intros Hpos. unfold buildFastSearchStageBoundaries.
  destruct (Z.leb_spec totalFiles 0); [lia|].
  unfold SSH_FAST_SEARCH_STAGE_LIMITS, pushBoundary. cbn [foldl last app].
  repeat match goal with
    | |- context [?a >? ?b] => destruct (a >? b); cbn [last app length Nat.eqb]
    end; eexists _, _; (split; [reflexivity|lia]).
Qed.

(** X25.  A staged scan that finds its time budget used up at the first
    batch searches nothing: it reports no result, no session searched and
    a partial result. *)
Theorem staged_scan_out_of_time :
  sessionFiles <> [] -> 0 < maxResults ->
  SSH_FAST_SEARCH_TIME_BUDGET_MS <= elapsed 0 ->
  scanSessionFiles true elapsed search sessionFiles maxResults
  = {| r_results := []; r_totalMatches := 0; r_sessionsSearched := 0;
       r_isPartial := Some true |}.
Proof.
  intros Hfiles Hmax Hlate. unfold scanSessionFiles.
  assert (Hlen : 0 < len sessionFiles).
  { unfold len. destruct sessionFiles; [contradiction|cbn; lia]. }
  destruct (first_boundary _ Hlen) as (b & rest & -> & Hb).
  cbn [scanStages].
  replace (Z.to_nat (b - 0)) with (S (Z.to_nat (b - 1))) by lia.
  cbn [scanStage results]. change (len (@nil SearchResult)) with 0.
  destruct (Z.ltb_spec 0 b) as [_|]; [|lia].
  destruct (Z.ltb_spec 0 maxResults) as [_|]; [|lia].
  destruct (Z.geb_spec (elapsed 0) SSH_FAST_SEARCH_TIME_BUDGET_MS) as [_|]; [|lia].
  cbn. now destruct (_ && _).
Qed.

End BudgetFacts.

Lemma staged_scan_out_of_time_witness :
  Searcher.scanSessionFiles true (fun _ => 5000)
    (fun _ : nat => Some SearcherReference.foxResults) [1%nat; 2%nat] 50
  = {| Searcher.r_results := []; Searcher.r_totalMatches := 0;
       Searcher.r_sessionsSearched := 0; Searcher.r_isPartial := Some true |}.
Proof.
  apply (staged_scan_out_of_time (fun _ => 5000)
           (fun _ : nat => Some SearcherReference.foxResults) [1%nat; 2%nat] 50).
  - discriminate.
  - lia.
  - vm_compute. discriminate.
Defined.
